(** * UserScriptSettings: the setting registry and value store

    A shallow embedding of the class [UserScriptSettings] (settings.ts):
    definition validation, the get / set / reset protocol, change
    notification and the load / save cycle against [localStorage].

    Conventions of the embedding.
    - A JavaScript [Map] is an insertion-ordered association list with
      unique keys ([JsMap]); a [Set] of callbacks is an insertion-ordered
      list without repeated references.
    - A [number] is an IEEE-754 double, [spec_float]: finite values are
      taken in canonical form, so that two finite non-zero doubles are equal
      exactly when their representations are.
    - Setting values are the scalars [string | number | boolean] of the
      class's type parameters.
    - A [string] is held as the bytes of its UTF-8 encoding; its
      JavaScript [length] is the number of its UTF-16 code units.
    - Observable effects ([localStorage.setItem], [console.error], calls of
      observer callbacks) are appended to a trace.  A callback is foreign
      code: it either returns or throws, and it is taken not to call back
      into the store while it is being dispatched.
    - Definition objects live in a heap, because the registry keeps the
      caller's object by reference and hands the same reference out again.
    - The stored item is read as a snapshot of [SettingValue] records; the
      module [Untyped] repeats the value operations over an item of any
      JSON content, where an entry may be [null] or a scalar. *)

From Stdlib Require Import String List Bool Arith PArith ZArith Lia.
From Stdlib Require Import Permutation.
From Stdlib Require Import Floats.SpecFloat.
Import ListNotations.
Open Scope string_scope.

Set Implicit Arguments.

(** ** Scalar values *)

Inductive JsValue : Type :=
| VString (s : string)
| VNumber (n : spec_float)
| VBoolean (b : bool).

Inductive JsType : Type := TyString | TyNumber | TyBoolean.

Definition typeof (v : JsValue) : JsType :=
  match v with
  | VString _ => TyString
  | VNumber _ => TyNumber
  | VBoolean _ => TyBoolean
  end.

(** [a === b] on scalars: same type and same value; [NaN] differs from
    everything, the two zeros are equal. *)
Definition strict_equals (a b : JsValue) : bool :=
  match a, b with
  | VString s, VString t => String.eqb s t
  | VNumber x, VNumber y => SFeqb x y
  | VBoolean x, VBoolean y => Bool.eqb x y
  | _, _ => false
  end.

(** [a < b] and [a > b] on numbers (false as soon as one side is [NaN]). *)
Definition js_lt (a b : spec_float) : bool := SFltb a b.
Definition js_gt (a b : spec_float) : bool := SFltb b a.

Definition spec_float_eqb (x y : spec_float) : bool :=
  match x, y with
  | S754_zero s, S754_zero t => Bool.eqb s t
  | S754_infinity s, S754_infinity t => Bool.eqb s t
  | S754_nan, S754_nan => true
  | S754_finite s m e, S754_finite t n f =>
      Bool.eqb s t && Pos.eqb m n && Z.eqb e f
  | _, _ => false
  end.

Definition non_finite (n : spec_float) : bool :=
  match n with
  | S754_nan | S754_infinity _ => true
  | _ => false
  end.

(** [s.length]: the number of UTF-16 code units of the string whose UTF-8
    bytes are [s].  A byte that starts a character of one, two or three
    bytes stands for one unit, the first byte of a character of four bytes
    for the two units of a surrogate pair, a continuation byte for none. *)
Definition utf16_units (c : Ascii.ascii) : nat :=
  match c with
  | Ascii.Ascii _ _ _ _ b4 b5 b6 b7 =>
      if negb b7 then 1
      else if negb b6 then 0
      else if b5 && b4 then 2
      else 1
  end.

Fixpoint utf16_length (s : string) : nat :=
  match s with
  | EmptyString => 0
  | String c rest => utf16_units c + utf16_length rest
  end.

(** A number in a condition: [0], [-0] and [NaN] are falsy. *)
Definition number_truthy (n : spec_float) : bool :=
  match n with
  | S754_zero _ => false
  | S754_nan => false
  | _ => true
  end.

(** [n > x] for a length [n] and a number [x].  A length is an integer
    that a double holds exactly, so the comparison is the comparison of
    [n] with the real number [x] stands for, [m * 2^e] up to its sign. *)
Definition length_gt (n : nat) (x : spec_float) : bool :=
  match x with
  | S754_nan => false
  | S754_infinity negative => negative
  | S754_zero _ => Nat.ltb 0 n
  | S754_finite true _ _ => true
  | S754_finite false m e =>
      if Z.leb 0 e
      then Z.ltb (Z.pos m * 2 ^ e) (Z.of_nat n)
      else Z.ltb (Z.pos m) (Z.of_nat n * 2 ^ (- e))
  end.

(** ** JSON.stringify on scalars

    The text produced by [JSON.stringify] is kept abstract: a string
    literal determines the string, the text of a finite number determines
    the number up to the sign of zero ([-0] prints as [0]), and every
    non-finite number prints as [null].  [None] is [undefined], the result
    of [JSON.stringify(undefined)]. *)

Inductive JsonText : Type :=
| JNull
| JTrue
| JFalse
| JNumeral (n : spec_float)
| JQuoted (s : string).

Definition stringify_number (n : spec_float) : JsonText :=
  match n with
  | S754_nan => JNull
  | S754_infinity _ => JNull
  | S754_zero _ => JNumeral (S754_zero false)
  | S754_finite _ _ _ => JNumeral n
  end.

Definition JSON_stringify (v : option JsValue) : option JsonText :=
  match v with
  | None => None
  | Some (VString s) => Some (JQuoted s)
  | Some (VNumber n) => Some (stringify_number n)
  | Some (VBoolean true) => Some JTrue
  | Some (VBoolean false) => Some JFalse
  end.

Definition JsonText_eqb (a b : JsonText) : bool :=
  match a, b with
  | JNull, JNull => true
  | JTrue, JTrue => true
  | JFalse, JFalse => true
  | JNumeral x, JNumeral y => spec_float_eqb x y
  | JQuoted s, JQuoted t => String.eqb s t
  | _, _ => false
  end.

(** [JSON.stringify(a) === JSON.stringify(b)]. *)
Definition same_json (a b : option JsValue) : bool :=
  match JSON_stringify a, JSON_stringify b with
  | Some x, Some y => JsonText_eqb x y
  | None, None => true
  | _, _ => false
  end.

(** Deep equality of two scalars in the words of the specification: the
    same type and the same value (SameValueZero: [NaN] equals [NaN], the
    two zeros are equal). *)
Definition deep_equals (a b : JsValue) : bool :=
  match a, b with
  | VString s, VString t => String.eqb s t
  | VBoolean x, VBoolean y => Bool.eqb x y
  | VNumber S754_nan, VNumber S754_nan => true
  | VNumber x, VNumber y => SFeqb x y
  | _, _ => false
  end.

Definition both_non_finite (a b : JsValue) : bool :=
  match a, b with
  | VNumber x, VNumber y => non_finite x && non_finite y
  | _, _ => false
  end.

(** ** JavaScript [Map]: insertion-ordered, unique keys *)

Module JsMap.
Section WithValues.
Variable V : Type.

Definition t : Type := list (string * V).

Definition empty : t := [].

Fixpoint get (m : t) (k : string) : option V :=
  match m with
  | [] => None
  | (k', v) :: rest => if String.eqb k' k then Some v else get rest k
  end.

Definition has (m : t) (k : string) : bool :=
  match get m k with Some _ => true | None => false end.

(** [m.set(k, v)]: an existing key keeps its position, a new key goes
    last. *)
Fixpoint set (m : t) (k : string) (v : V) : t :=
  match m with
  | [] => [(k, v)]
  | (k', v') :: rest =>
      if String.eqb k' k then (k', v) :: rest
      else (k', v') :: set rest k v
  end.


Definition keys (m : t) : list string := map fst m.

(** Assigning the entries one after the other, as a [forEach] over
    [Object.entries] or over [Map.entries()] does. *)
Definition set_all (entries : list (string * V)) (m : t) : t :=
  fold_left (fun acc kv => set acc (fst kv) (snd kv)) entries m.

Definition from_entries (entries : list (string * V)) : t :=
  set_all entries empty.
(** The value last assigned to [k] by a run of assignments. *)
Fixpoint last_assigned (entries : list (string * V)) (k : string) : option V :=
  match entries with
  | [] => None
  | (k0, v0) :: rest =>
      match last_assigned rest k with
      | Some v => Some v
      | None => if String.eqb k0 k then Some v0 else None
      end
  end.
End WithValues.

Arguments empty {V}.
End JsMap.

(** ** Setting definitions *)

Inductive SettingType : Type :=
| DROPDOWN | RADIO | CHECKBOX | NUMBER | TEXT | COLOR | SLIDER | CUSTOM.

Record Choice : Type := {
  choice_value : JsValue;
  choice_label : string
}.

Record NumberOptions : Type := {
  number_min : option spec_float;
  number_max : option spec_float;
  number_step : option spec_float
}.

Record TextOptions : Type := {
  text_multiline : option bool;
  text_maxLength : option spec_float;
  text_placeholder : option string
}.

Inductive ColorFormat : Type := Hex | Rgb | Hsl.

Record SliderOptions : Type := {
  slider_min : spec_float;
  slider_max : spec_float;
  slider_step : option spec_float;
  slider_showValue : option bool
}.

(** [SettingOptions]: [dropdown] and [radio] hold their [choices]. *)
Record SettingOptions : Type := {
  opt_label : option string;
  opt_dropdown : option (list Choice);
  opt_radio : option (list Choice);
  opt_checkbox : option string;
  opt_number : option NumberOptions;
  opt_text : option TextOptions;
  opt_color : option (option ColorFormat);
  opt_slider : option SliderOptions
}.

Record SettingUIConfig : Type := {
  ui_tab : string;
  ui_group : option string;
  ui_hidden : option bool;
  ui_advanced : option bool
}.

Module SettingDefinition.
Record t : Type := {
  key : string;
  defaultValue : JsValue;
  description : option string;
  validator : option (JsValue -> bool);
  type : SettingType;
  options : option SettingOptions;
  ui : option SettingUIConfig
}.

Definition with_validator (d : t) (f : option (JsValue -> bool)) : t :=
  {| key := key d; defaultValue := defaultValue d;
     description := description d; validator := f;
     type := type d; options := options d; ui := ui d |}.

End SettingDefinition.

Definition SettingDef : Type := SettingDefinition.t.

Module SettingValue.
Record t : Type := {
  value : JsValue;
  isDefault : bool
}.
End SettingValue.

Module SettingsStorage.
Record t : Type := {
  version : string;
  settings : list (string * SettingValue.t)
}.
End SettingsStorage.

(** ** Errors

    The class throws plain [Error]s; they are told apart by their message.
    [DefinitionError] carries the offending key and the reason,
    [NotFoundError] is the message [Setting "<key>" not found], and
    [CallbackError] is whatever a callback threw. *)

Inductive DefinitionReason : Type :=
| MustHaveChoices
| DefaultNotAChoice
| DefaultNotNumeric
| DefaultBelowMin
| DefaultAboveMax
| MustHaveSliderOptions
| DefaultOutsideSlider
| DefaultNotString
| DefaultExceedsMaxLength
| DefaultNotBoolean.

Inductive JsError : Type :=
| DefinitionError (key : string) (reason : DefinitionReason)
| NotFoundError (key : string)
| CallbackError (callback : nat).

Inductive Outcome : Type :=
| Returned
| Threw (e : JsError).

Inductive Result (A : Type) : Type :=
| Value (a : A)
| Failure (e : JsError).

Arguments Failure {A} e.

(** ** Validation rules: [validateSettingDefinition] *)

Definition choices_include (choices : list Choice) (v : JsValue) : bool :=
  existsb (fun choice => strict_equals (choice_value choice) v) choices.

Definition validateSettingDefinition (definition : SettingDef)
  : option JsError :=
  let k := SettingDefinition.key definition in
  let options := SettingDefinition.options definition in
  let defaultValue := SettingDefinition.defaultValue definition in
  let fail r := Some (DefinitionError k r) in
  match SettingDefinition.type definition with
  | DROPDOWN =>
      match option_map opt_dropdown options with
      | Some (Some choices) =>
          if choices_include choices defaultValue then None
          else fail DefaultNotAChoice
      | _ => fail MustHaveChoices
      end
  | RADIO =>
      match option_map opt_radio options with
      | Some (Some choices) =>
          if choices_include choices defaultValue then None
          else fail DefaultNotAChoice
      | _ => fail MustHaveChoices
      end
  | NUMBER =>
      match defaultValue with
      | VNumber n =>
          match option_map opt_number options with
          | Some (Some num) =>
              if match number_min num with
                 | Some lo => js_lt n lo
                 | None => false
                 end
              then fail DefaultBelowMin
              else if match number_max num with
                      | Some hi => js_gt n hi
                      | None => false
                      end
              then fail DefaultAboveMax
              else None
          | _ => None
          end
      | _ => fail DefaultNotNumeric
      end
  | SLIDER =>
      match defaultValue with
      | VNumber n =>
          match option_map opt_slider options with
          | Some (Some sl) =>
              if js_lt n (slider_min sl) || js_gt n (slider_max sl)
              then fail DefaultOutsideSlider
              else None
          | _ => fail MustHaveSliderOptions
          end
      | _ => fail DefaultNotNumeric
      end
  | COLOR =>
      match defaultValue with
      | VString _ => None
      | _ => fail DefaultNotString
      end
  | TEXT =>
      match defaultValue with
      | VString s =>
          match option_map opt_text options with
          | Some (Some txt) =>
              match text_maxLength txt with
              | Some maxLength =>
                  (* [maxLength && defaultValue.length > maxLength] *)
                  if number_truthy maxLength
                     && length_gt (utf16_length s) maxLength
                  then fail DefaultExceedsMaxLength
                  else None
              | None => None
              end
          | _ => None
          end
      | _ => fail DefaultNotString
      end
  | CHECKBOX =>
      match defaultValue with
      | VBoolean _ => None
      | _ => fail DefaultNotBoolean
      end
  | CUSTOM => None
  end.

(** ** The store *)

(** An observer callback: a function reference, and whether a call of it
    with [(newValue, oldValue)] returns (or throws). *)
Record Callback : Type := {
  cb_ref : nat;
  cb_returns : JsValue -> JsValue -> bool
}.

Inductive ConsoleMessage : Type :=
| ErrorLoadingSettings
| ErrorSavingSettings.

Inductive Event : Type :=
| EvSetItem (storageKey : string) (data : SettingsStorage.t)
| EvConsoleError (message : ConsoleMessage)
| EvCallback (callback : nat) (newValue oldValue : JsValue).

(** A reference to a definition object, and to an object returned by
    [getAllSettings]. *)
Definition DefRef : Type := nat.
Definition RecordRef : Type := nat.

(** The fields of the class, followed by its environment: the heap of
    definition objects, the objects handed out by [getAllSettings], the
    behaviour of [localStorage.setItem] (which snapshots it accepts; a
    refusal is an exception such as a quota error) and the trace. *)
Record UserScriptSettings : Type := {
  settings : JsMap.t SettingValue.t;
  changeCallbacks : JsMap.t (list Callback);
  storageKey : string;
  version : string;
  defaultSettings : JsMap.t JsValue;
  settingDefinitions : JsMap.t DefRef;
  definitionObjects : list SettingDef;
  recordObjects : list (JsMap.t DefRef);
  storageAccepts : SettingsStorage.t -> bool;
  trace : list Event
}.

Definition with_settings (st : UserScriptSettings)
    (m : JsMap.t SettingValue.t) : UserScriptSettings :=
  {| settings := m;
     changeCallbacks := changeCallbacks st;
     storageKey := storageKey st;
     version := version st;
     defaultSettings := defaultSettings st;
     settingDefinitions := settingDefinitions st;
     definitionObjects := definitionObjects st;
     recordObjects := recordObjects st;
     storageAccepts := storageAccepts st;
     trace := trace st |}.

Definition with_changeCallbacks (st : UserScriptSettings)
    (m : JsMap.t (list Callback)) : UserScriptSettings :=
  {| settings := settings st;
     changeCallbacks := m;
     storageKey := storageKey st;
     version := version st;
     defaultSettings := defaultSettings st;
     settingDefinitions := settingDefinitions st;
     definitionObjects := definitionObjects st;
     recordObjects := recordObjects st;
     storageAccepts := storageAccepts st;
     trace := trace st |}.

Definition with_definition (st : UserScriptSettings)
    (defaults : JsMap.t JsValue) (definitions : JsMap.t DefRef)
    (objects : list SettingDef) : UserScriptSettings :=
  {| settings := settings st;
     changeCallbacks := changeCallbacks st;
     storageKey := storageKey st;
     version := version st;
     defaultSettings := defaults;
     settingDefinitions := definitions;
     definitionObjects := objects;
     recordObjects := recordObjects st;
     storageAccepts := storageAccepts st;
     trace := trace st |}.

Definition with_recordObjects (st : UserScriptSettings)
    (records : list (JsMap.t DefRef)) : UserScriptSettings :=
  {| settings := settings st;
     changeCallbacks := changeCallbacks st;
     storageKey := storageKey st;
     version := version st;
     defaultSettings := defaultSettings st;
     settingDefinitions := settingDefinitions st;
     definitionObjects := definitionObjects st;
     recordObjects := records;
     storageAccepts := storageAccepts st;
     trace := trace st |}.

Definition with_storageAccepts (st : UserScriptSettings)
    (accepts : SettingsStorage.t -> bool) : UserScriptSettings :=
  {| settings := settings st;
     changeCallbacks := changeCallbacks st;
     storageKey := storageKey st;
     version := version st;
     defaultSettings := defaultSettings st;
     settingDefinitions := settingDefinitions st;
     definitionObjects := definitionObjects st;
     recordObjects := recordObjects st;
     storageAccepts := accepts;
     trace := trace st |}.

Definition emit (e : Event) (st : UserScriptSettings) : UserScriptSettings :=
  {| settings := settings st;
     changeCallbacks := changeCallbacks st;
     storageKey := storageKey st;
     version := version st;
     defaultSettings := defaultSettings st;
     settingDefinitions := settingDefinitions st;
     definitionObjects := definitionObjects st;
     recordObjects := recordObjects st;
     storageAccepts := storageAccepts st;
     trace := trace st ++ [e] |}.

(** ** Operations of the class *)

(** [new UserScriptSettings(...)] before [loadSettings] runs. *)
Definition fresh (storageKey' version' : string)
    (accepts : SettingsStorage.t -> bool) : UserScriptSettings :=
  {| settings := JsMap.empty;
     changeCallbacks := JsMap.empty;
     storageKey := storageKey';
     version := version';
     defaultSettings := JsMap.empty;
     settingDefinitions := JsMap.empty;
     definitionObjects := [];
     recordObjects := [];
     storageAccepts := accepts;
     trace := [] |}.

(** [saveSettings]: the write is inside [try]; a refused write is reported
    with [console.error] and nothing is thrown. *)
Definition saveSettings (st : UserScriptSettings) : UserScriptSettings :=
  let data := {| SettingsStorage.version := version st;
                 SettingsStorage.settings := settings st |} in
  if storageAccepts st data
  then emit (EvSetItem (storageKey st) data) st
  else emit (EvConsoleError ErrorSavingSettings) st.

(** [callbacks.forEach(callback => callback(value, oldValue))]: in
    insertion order; a callback that throws ends the loop. *)
Fixpoint forEach_callback (callbacks : list Callback)
    (newValue oldValue : JsValue) (st : UserScriptSettings)
    : Outcome * UserScriptSettings :=
  match callbacks with
  | [] => (Returned, st)
  | callback :: rest =>
      let st' := emit (EvCallback (cb_ref callback) newValue oldValue) st in
      if cb_returns callback newValue oldValue
      then forEach_callback rest newValue oldValue st'
      else (Threw (CallbackError (cb_ref callback)), st')
  end.

Definition getSetting (key : string) (st : UserScriptSettings)
  : Result JsValue :=
  match JsMap.get (settings st) key with
  | None => Failure (NotFoundError key)
  | Some setting => Value (SettingValue.value setting)
  end.

Definition setSetting (key : string) (value : JsValue)
    (st : UserScriptSettings) : Outcome * UserScriptSettings :=
  match JsMap.get (settings st) key with
  | None => (Threw (NotFoundError key), st)
  | Some oldSetting =>
      let defaultValue := JsMap.get (defaultSettings st) key in
      let isDefault := same_json (Some value) defaultValue in
      let newSetting := {| SettingValue.value := value;
                           SettingValue.isDefault := isDefault |} in
      let st1 := with_settings st (JsMap.set (settings st) key newSetting) in
      let st2 := saveSettings st1 in
      match JsMap.get (changeCallbacks st2) key with
      | Some callbacks =>
          forEach_callback callbacks value (SettingValue.value oldSetting) st2
      | None => (Returned, st2)
      end
  end.

Definition resetToDefault (key : string) (st : UserScriptSettings)
  : Outcome * UserScriptSettings :=
  match JsMap.get (defaultSettings st) key with
  | None => (Threw (NotFoundError key), st)
  | Some defaultValue => setSetting key defaultValue st
  end.

(** [this.defaultSettings.forEach((defaultValue, key) => setSetting ...)]. *)
Fixpoint forEach_default (entries : list (string * JsValue))
    (st : UserScriptSettings) : Outcome * UserScriptSettings :=
  match entries with
  | [] => (Returned, st)
  | (key, defaultValue) :: rest =>
      match setSetting key defaultValue st with
      | (Returned, st') => forEach_default rest st'
      | (Threw e, st') => (Threw e, st')
      end
  end.

Definition resetAllToDefaults (st : UserScriptSettings)
  : Outcome * UserScriptSettings :=
  forEach_default (defaultSettings st) st.

(** [Set.prototype.add] and [Set.prototype.delete], by reference. *)
Definition same_callback (a b : Callback) : bool :=
  Nat.eqb (cb_ref a) (cb_ref b).

Definition set_add (callbacks : list Callback) (callback : Callback)
  : list Callback :=
  if existsb (same_callback callback) callbacks then callbacks
  else callbacks ++ [callback].

Definition set_delete (callbacks : list Callback) (callback : Callback)
  : list Callback :=
  filter (fun c => negb (same_callback callback c)) callbacks.

Definition onSettingChange (key : string) (callback : Callback)
    (st : UserScriptSettings) : UserScriptSettings :=
  let registered :=
    match JsMap.get (changeCallbacks st) key with
    | Some callbacks => callbacks
    | None => []
    end in
  with_changeCallbacks st
    (JsMap.set (changeCallbacks st) key (set_add registered callback)).

Definition removeSettingChangeListener (key : string) (callback : Callback)
    (st : UserScriptSettings) : UserScriptSettings :=
  match JsMap.get (changeCallbacks st) key with
  | Some callbacks =>
      with_changeCallbacks st
        (JsMap.set (changeCallbacks st) key (set_delete callbacks callback))
  | None => st
  end.

Definition isDefault (key : string) (st : UserScriptSettings) : bool :=
  match JsMap.get (settings st) key with
  | Some setting => SettingValue.isDefault setting
  | None => true
  end.

(** [defineSetting]: the registry keeps the caller's definition object
    itself; the object is entered in the heap at registration and the
    caller's reference to it is its index there. *)
Definition defineSetting (definition : SettingDef) (st : UserScriptSettings)
  : Outcome * UserScriptSettings :=
  match validateSettingDefinition definition with
  | Some e => (Threw e, st)
  | None =>
      let key := SettingDefinition.key definition in
      let defaultValue := SettingDefinition.defaultValue definition in
      let ref := length (definitionObjects st) in
      let st1 :=
        with_definition st
          (JsMap.set (defaultSettings st) key defaultValue)
          (JsMap.set (settingDefinitions st) key ref)
          (definitionObjects st ++ [definition]) in
      if negb (JsMap.has (settings st1) key)
      then (Returned,
            with_settings st1
              (JsMap.set (settings st1) key
                 {| SettingValue.value := defaultValue;
                    SettingValue.isDefault := true |}))
      else (Returned, st1)
  end.

(** [getAllSettings]: a new object, filled with [result[key] = definition]
    for the entries of [settingDefinitions]; the definitions themselves are
    not copied.  An assignment to the key [__proto__] sets the prototype
    of the object and creates no entry: the record keeps the definition
    under that key, and [SettingsUI.own_keys] leaves the key out of what
    [Object.keys] lists. *)
Definition getAllSettings (st : UserScriptSettings)
  : RecordRef * UserScriptSettings :=
  let result := JsMap.set_all (settingDefinitions st) JsMap.empty in
  (length (recordObjects st),
   with_recordObjects st (recordObjects st ++ [result])).

(** ** Persistence: [loadSettings] and the constructor *)

(** What [localStorage.getItem(storageKey)] followed by [JSON.parse]
    yields: nothing stored, a snapshot, or an exception (storage
    unavailable, text that does not parse, no [settings] object).  A
    snapshot is taken here to be what its declared type says, a record of
    [SettingValue]s, as [saveSettings] writes it; [Untyped] below follows
    the code on an item of any content. *)
Inductive StoredItem : Type :=
| ItemAbsent
| ItemSnapshot (data : SettingsStorage.t)
| ItemUnreadable.

Definition loadSettings (item : StoredItem) (st : UserScriptSettings)
  : Outcome * UserScriptSettings :=
  let catch st' :=
    resetAllToDefaults (emit (EvConsoleError ErrorLoadingSettings) st') in
  match item with
  | ItemAbsent => (Returned, st)
  | ItemSnapshot data =>
      if negb (String.eqb (SettingsStorage.version data) (version st))
      then
        match resetAllToDefaults st with
        | (Returned, st') => (Returned, st')
        | (Threw _, st') => catch st'
        end
      else
        (Returned,
         with_settings st
           (JsMap.set_all (SettingsStorage.settings data) (settings st)))
  | ItemUnreadable => catch st
  end.

Definition construct (storageKey' version' : string)
    (accepts : SettingsStorage.t -> bool) (item : StoredItem)
  : UserScriptSettings :=
  snd (loadSettings item (fresh storageKey' version' accepts)).

(** ** What a caller can do with the references it holds

    The object returned by [getAllSettings] and the definition objects it
    points to are ordinary mutable objects of the caller. *)




(** The definition registered under [key], read through the registry's
    reference. *)
Definition definition_of (st : UserScriptSettings) (key : string)
  : option SettingDef :=
  match JsMap.get (settingDefinitions st) key with
  | Some ref => nth_error (definitionObjects st) ref
  | None => None
  end.


(** ** Sequences of public operations *)

Inductive Op : Type :=
| OpDefineSetting (definition : SettingDef)
| OpSetSetting (key : string) (value : JsValue)
| OpResetToDefault (key : string)
| OpResetAllToDefaults
| OpOnSettingChange (key : string) (callback : Callback)
| OpRemoveSettingChangeListener (key : string) (callback : Callback)
| OpGetAllSettings
| OpStorageChanges (accepts : SettingsStorage.t -> bool).

Definition step (op : Op) (st : UserScriptSettings)
  : Outcome * UserScriptSettings :=
  match op with
  | OpDefineSetting definition => defineSetting definition st
  | OpSetSetting key value => setSetting key value st
  | OpResetToDefault key => resetToDefault key st
  | OpResetAllToDefaults => resetAllToDefaults st
  | OpOnSettingChange key callback =>
      (Returned, onSettingChange key callback st)
  | OpRemoveSettingChangeListener key callback =>
      (Returned, removeSettingChangeListener key callback st)
  | OpGetAllSettings => (Returned, snd (getAllSettings st))
  | OpStorageChanges accepts => (Returned, with_storageAccepts st accepts)
  end.

(** The state after a sequence of calls; a call that throws leaves the
    state it reached, and the caller goes on. *)
Definition run (ops : list Op) (st : UserScriptSettings)
  : UserScriptSettings :=
  fold_left (fun s op => snd (step op s)) ops st.

(** ** Vocabulary of the properties *)

(** Everything but the value store and the trace. *)
Definition same_frame (st st' : UserScriptSettings) : Prop :=
  changeCallbacks st' = changeCallbacks st /\
  storageKey st' = storageKey st /\
  version st' = version st /\
  defaultSettings st' = defaultSettings st /\
  settingDefinitions st' = settingDefinitions st /\
  definitionObjects st' = definitionObjects st /\
  recordObjects st' = recordObjects st /\
  storageAccepts st' = storageAccepts st.

(** The stored entry [setSetting] writes for [value]. *)
Definition written_entry (st : UserScriptSettings) (key : string)
    (value : JsValue) : SettingValue.t :=
  {| SettingValue.value := value;
     SettingValue.isDefault :=
       same_json (Some value) (JsMap.get (defaultSettings st) key) |}.

(** ** Sample definitions used in the examples *)

Definition simple_setting (key : string) (type : SettingType)
    (defaultValue : JsValue) : SettingDef :=
  {| SettingDefinition.key := key;
     SettingDefinition.defaultValue := defaultValue;
     SettingDefinition.description := None;
     SettingDefinition.validator := None;
     SettingDefinition.type := type;
     SettingDefinition.options := None;
     SettingDefinition.ui := None |}.

Definition accept_all : SettingsStorage.t -> bool := fun _ => true.
Definition refuse_all : SettingsStorage.t -> bool := fun _ => false.

Definition reject_everything : JsValue -> bool := fun _ => false.

(** A text setting whose validator rejects every value, its own default
    included. *)
Definition nickname : SettingDef :=
  SettingDefinition.with_validator
    (simple_setting "nickname" TEXT (VString "guest"))
    (Some reject_everything).

(** A snapshot written by an earlier session: [theme] was [dark], and
    flagged as the default of that time. *)
Definition stored_theme : SettingsStorage.t :=
  {| SettingsStorage.version := "1.0";
     SettingsStorage.settings :=
       [("theme", {| SettingValue.value := VString "dark";
                     SettingValue.isDefault := true |})] |}.

Definition theme_light : SettingDef :=
  simple_setting "theme" TEXT (VString "light").

Definition accentColor : SettingDef :=
  simple_setting "accentColor" TEXT (VString "#2196f3").

(** [op] is a successful registration of key [k]. *)
Definition valid_definition (d : SettingDef) : bool :=
  match validateSettingDefinition d with
  | None => true
  | Some _ => false
  end.

Definition registers_key (k : string) (d : SettingDef) : bool :=
  String.eqb (SettingDefinition.key d) k && valid_definition d.

Definition registers (k : string) (op : Op) : bool :=
  match op with
  | OpDefineSetting d => registers_key k d
  | _ => false
  end.

(** [k] was defined via [defineSetting] somewhere in [ops]. *)
Definition defined_by (ops : list Op) (k : string) : bool :=
  existsb (registers k) ops.

(** [k] has an entry in a stored snapshot that [loadSettings] accepts. *)
Definition loaded_by (item : StoredItem) (ver : string) (k : string) : bool :=
  match item with
  | ItemSnapshot data =>
      String.eqb (SettingsStorage.version data) ver
      && JsMap.has (JsMap.from_entries (SettingsStorage.settings data)) k
  | _ => false
  end.

(** The first and the last successful registration of [k] in a sequence
    of definitions. *)
Definition first_registration (ds : list SettingDef) (k : string)
  : option SettingDef :=
  find (registers_key k) ds.

Fixpoint last_registration (ds : list SettingDef) (k : string)
  : option SettingDef :=
  match ds with
  | [] => None
  | d :: rest =>
      match last_registration rest k with
      | Some d' => Some d'
      | None => if registers_key k d then Some d else None
      end
  end.


(** The callbacks subscribed to [key], in the order of the [Set]. *)
Definition callbacks_of (st : UserScriptSettings) (key : string)
  : list Callback :=
  match JsMap.get (changeCallbacks st) key with
  | Some callbacks => callbacks
  | None => []
  end.

(** The callbacks a dispatch gets to call: all of them up to and
    including the first one that throws. *)
Fixpoint invoked (callbacks : list Callback) (newValue oldValue : JsValue)
  : list Callback :=
  match callbacks with
  | [] => []
  | c :: rest =>
      if cb_returns c newValue oldValue
      then c :: invoked rest newValue oldValue
      else [c]
  end.

(** What a save of state [st] adds to the trace. *)
Definition save_event (st : UserScriptSettings) : Event :=
  let data := {| SettingsStorage.version := version st;
                 SettingsStorage.settings := settings st |} in
  if storageAccepts st data then EvSetItem (storageKey st) data
  else EvConsoleError ErrorSavingSettings.

(** Everything that concerns the definitions. *)
Definition same_definitions (st st' : UserScriptSettings) : Prop :=
  defaultSettings st' = defaultSettings st /\
  settingDefinitions st' = settingDefinitions st /\
  definitionObjects st' = definitionObjects st.


(** The registry's reference for a key points to a definition object
    with that key, whose default value is the default recorded for the
    key. *)
Definition definitions_consistent (st : UserScriptSettings) : Prop :=
  forall k ref,
    JsMap.get (settingDefinitions st) k = Some ref ->
    exists d,
      nth_error (definitionObjects st) ref = Some d /\
      SettingDefinition.key d = k /\
      JsMap.get (defaultSettings st) k =
        Some (SettingDefinition.defaultValue d).

(** Number literals: the double of an integer, [NaN] and [Infinity]. *)
Definition js_number (z : Z) : spec_float :=
  binary_normalize 53 1024 z 0 false.

Definition NaN : spec_float := S754_nan.
Definition Infinity : spec_float := S754_infinity false.

Definition no_options : SettingOptions :=
  {| opt_label := None; opt_dropdown := None; opt_radio := None;
     opt_checkbox := None; opt_number := None; opt_text := None;
     opt_color := None; opt_slider := None |}.

(** [refreshInterval]: a number, default 5000, between 1000 and 30000. *)
Definition refreshInterval : SettingDef :=
  {| SettingDefinition.key := "refreshInterval";
     SettingDefinition.defaultValue := VNumber (js_number 5000);
     SettingDefinition.description := Some "Refresh interval in ms";
     SettingDefinition.validator := None;
     SettingDefinition.type := NUMBER;
     SettingDefinition.options :=
       Some {| opt_label := Some "Refresh interval";
               opt_dropdown := None; opt_radio := None;
               opt_checkbox := None;
               opt_number :=
                 Some {| number_min := Some (js_number 1000);
                         number_max := Some (js_number 30000);
                         number_step := Some (js_number 100) |};
               opt_text := None; opt_color := None; opt_slider := None |};
     SettingDefinition.ui := None |}.

(** A dropdown with the choices [a] and [b], and the default [c]. *)
Definition language : SettingDef :=
  {| SettingDefinition.key := "language";
     SettingDefinition.defaultValue := VString "c";
     SettingDefinition.description := None;
     SettingDefinition.validator := None;
     SettingDefinition.type := DROPDOWN;
     SettingDefinition.options :=
       Some {| opt_label := None;
               opt_dropdown :=
                 Some [ {| choice_value := VString "a"; choice_label := "A" |};
                        {| choice_value := VString "b"; choice_label := "B" |} ];
               opt_radio := None; opt_checkbox := None; opt_number := None;
               opt_text := None; opt_color := None; opt_slider := None |};
     SettingDefinition.ui := None |}.

(** [maxRetries]: a number without bounds, unlimited by default. *)
Definition maxRetries : SettingDef :=
  simple_setting "maxRetries" NUMBER (VNumber Infinity).

(** How a dispatch ends: normally, or with what the first failing
    callback throws. *)
Fixpoint dispatch_outcome (callbacks : list Callback)
    (newValue oldValue : JsValue) : Outcome :=
  match callbacks with
  | [] => Returned
  | c :: rest =>
      if cb_returns c newValue oldValue
      then dispatch_outcome rest newValue oldValue
      else Threw (CallbackError (cb_ref c))
  end.

(** Two well-behaved observers and one that throws. *)
Definition logger : Callback :=
  {| cb_ref := 1; cb_returns := fun _ _ => true |}.
Definition repaint : Callback :=
  {| cb_ref := 2; cb_returns := fun _ _ => true |}.
Definition faulty : Callback :=
  {| cb_ref := 3; cb_returns := fun _ _ => false |}.

Definition theme_dark : SettingDef :=
  simple_setting "theme" TEXT (VString "dark").

(** The entry [defineSetting] creates for a key without a value. *)
Definition default_entry (d : SettingDef) : SettingValue.t :=
  {| SettingValue.value := SettingDefinition.defaultValue d;
     SettingValue.isDefault := true |}.






(** ** Vocabulary of the further properties *)

Definition is_NaN (n : spec_float) : bool :=
  match n with S754_nan => true | _ => false end.

(** A double that holds the natural number [limit]. *)
Definition holds_integer (m : positive) (e : Z) (limit : nat) : Prop :=
  (0 <= e /\ Z.of_nat limit = Z.pos m * 2 ^ e)%Z \/
  (e < 0 /\ Z.pos m = Z.of_nat limit * 2 ^ (- e))%Z.

(** [a <= b] on numbers. *)
Definition js_le (a b : spec_float) : bool := SFleb a b.

(** The [choices] a definition of type [DROPDOWN] or [RADIO] is checked
    against. *)
Definition choices_of (d : SettingDef) : option (list Choice) :=
  match SettingDefinition.type d with
  | DROPDOWN =>
      match option_map opt_dropdown (SettingDefinition.options d) with
      | Some (Some choices) => Some choices
      | _ => None
      end
  | RADIO =>
      match option_map opt_radio (SettingDefinition.options d) with
      | Some (Some choices) => Some choices
      | _ => None
      end
  | _ => None
  end.

(** A definition with given type, default and options. *)
Definition setting_with (key : string) (type : SettingType)
    (defaultValue : JsValue) (options : SettingOptions) : SettingDef :=
  {| SettingDefinition.key := key;
     SettingDefinition.defaultValue := defaultValue;
     SettingDefinition.description := None;
     SettingDefinition.validator := None;
     SettingDefinition.type := type;
     SettingDefinition.options := Some options;
     SettingDefinition.ui := None |}.

Definition number_options (lo hi : option spec_float) : SettingOptions :=
  {| opt_label := None; opt_dropdown := None; opt_radio := None;
     opt_checkbox := None;
     opt_number := Some {| number_min := lo; number_max := hi;
                           number_step := None |};
     opt_text := None; opt_color := None; opt_slider := None |}.

Definition slider_options (lo hi : spec_float) : SettingOptions :=
  {| opt_label := None; opt_dropdown := None; opt_radio := None;
     opt_checkbox := None; opt_number := None; opt_text := None;
     opt_color := None;
     opt_slider := Some {| slider_min := lo; slider_max := hi;
                           slider_step := None; slider_showValue := None |} |}.

Definition text_options (maxLength : option spec_float) : SettingOptions :=
  {| opt_label := None; opt_dropdown := None; opt_radio := None;
     opt_checkbox := None; opt_number := None;
     opt_text := Some {| text_multiline := None; text_maxLength := maxLength;
                         text_placeholder := None |};
     opt_color := None; opt_slider := None |}.

Definition dropdown_options (choices : list Choice) : SettingOptions :=
  {| opt_label := None; opt_dropdown := Some choices; opt_radio := None;
     opt_checkbox := None; opt_number := None; opt_text := None;
     opt_color := None; opt_slider := None |}.

(** [volume]: a slider between 0 and 100, at 50. *)
Definition volume : SettingDef :=
  setting_with "volume" SLIDER (VNumber (js_number 50))
    (slider_options (js_number 0) (js_number 100)).

(** No callback is subscribed twice to a key. *)
Definition subscriptions_unique (st : UserScriptSettings) : Prop :=
  forall k, NoDup (map cb_ref (callbacks_of st k)).

(** [c] is subscribed to [key], as a reference. *)
Definition subscribed (st : UserScriptSettings) (key : string)
    (c : Callback) : bool :=
  existsb (same_callback c) (callbacks_of st key).

(** The attempts to write to storage recorded in a trace, successful or
    refused. *)
Definition is_save_event (e : Event) : bool :=
  match e with
  | EvSetItem _ _ => true
  | EvConsoleError ErrorSavingSettings => true
  | _ => false
  end.

Definition saves (events : list Event) : nat :=
  length (filter is_save_event events).

(** The object [saveSettings] serializes. *)
Definition snapshot_of (st : UserScriptSettings) : SettingsStorage.t :=
  {| SettingsStorage.version := version st;
     SettingsStorage.settings := settings st |}.

(** ** The process-wide instance

    The static field [instance] holds the one store object, or nothing
    before [initialize]. *)
Module Singleton.
Definition initialize (storageKey version : string)
    (accepts : SettingsStorage.t -> bool) (item : StoredItem)
    (instance : option UserScriptSettings) : option UserScriptSettings :=
  match instance with
  | None => Some (construct storageKey version accepts item)
  | Some existing => Some existing
  end.

(** [getInstance] throws when nothing was initialized. *)
Inductive Lookup : Type :=
| Instance (store : UserScriptSettings)
| NotInitialized.

Definition getInstance (instance : option UserScriptSettings) : Lookup :=
  match instance with
  | None => NotInitialized
  | Some existing => Instance existing
  end.
End Singleton.

(** ** The settings panel, as a caller of the store (settings-ui.tsx)

    Only the calls the component makes on the store are modelled, not its
    rendering or its React state. *)
Module SettingsUI.
(** [Object.keys(settings.getAllSettings())].  The place of integer-like
    keys in the enumeration is not modelled; the properties below do not
    depend on the order. *)
Definition record_keys (st : UserScriptSettings) (r : RecordRef)
  : list string :=
  match nth_error (recordObjects st) r with
  | Some record => JsMap.keys record
  | None => []
  end.

(** [if (v)] on a scalar. *)
Definition truthy (v : JsValue) : bool :=
  match v with
  | VString s => negb (String.eqb s "")
  | VNumber (S754_zero _) => false
  | VNumber S754_nan => false
  | VNumber _ => true
  | VBoolean b => b
  end.

(** The component's [handleSettingChange(key, value)]: [setSetting],
    then [getSetting('autoSave')], then a [console.log] of the key and
    value when that is truthy.  The log is not an effect on the store: it
    is returned as the third component. *)
Definition handleSettingChange (key : string) (value : JsValue)
    (st : UserScriptSettings)
  : Outcome * UserScriptSettings * option (string * JsValue) :=
  match setSetting key value st with
  | (Threw e, st') => (Threw e, st', None)
  | (Returned, st') =>
      match getSetting "autoSave" st' with
      | Failure e => (Threw e, st', None)
      | Value autoSave =>
          if truthy autoSave then (Returned, st', Some (key, value))
          else (Returned, st', None)
      end
  end.

(** The first effect: [values[key] = settings.getSetting(key)] for every
    listed key, then [getSetting('theme')] and [getSetting('accentColor')]. *)
Fixpoint read_values (keys : list string) (st : UserScriptSettings)
    (values : JsMap.t JsValue) : Result (JsMap.t JsValue) :=
  match keys with
  | [] => Value values
  | key :: rest =>
      match getSetting key st with
      | Failure e => Failure e
      | Value v => read_values rest st (JsMap.set values key v)
      end
  end.

Definition initial_read (st : UserScriptSettings)
  : Result (JsMap.t JsValue * JsValue * JsValue) :=
  let r := fst (getAllSettings st) in
  let st1 := snd (getAllSettings st) in
  match read_values (record_keys st1 r) st1 JsMap.empty with
  | Failure e => Failure e
  | Value values =>
      match getSetting "theme" st1 with
      | Failure e => Failure e
      | Value themeValue =>
          match getSetting "accentColor" st1 with
          | Failure e => Failure e
          | Value accentColor => Value (values, themeValue, accentColor)
          end
      end
  end.
(** The own keys of the object [getAllSettings] returns, as [Object.keys]
    lists them.  The object is a plain one filled by assignment, and the
    assignment [result["__proto__"] = definition] sets its prototype and
    creates no key. *)
Definition own_keys (st : UserScriptSettings) (r : RecordRef)
  : list string :=
  filter (fun key => negb (String.eqb key "__proto__")) (record_keys st r).

(** A function created by the component, with a reference of its own.
    Called by the store it updates the state of the component and
    returns; the function of the key [theme] also reads [accentColor],
    which has a value once the first effect has returned. *)
Definition component_function (ref : nat) : Callback :=
  {| cb_ref := ref; cb_returns := fun _ _ => true |}.

(** [keys.forEach(key => settings.onSettingChange(key, (newValue) =>
    handleSettingChange(key, newValue)))]: every turn of the loop creates
    a new arrow function, which takes the next reference. *)
Fixpoint subscribe_each (ref : nat) (keys : list string)
    (st : UserScriptSettings) : UserScriptSettings :=
  match keys with
  | [] => st
  | key :: rest =>
      subscribe_each (S ref) rest
        (onSettingChange key (component_function ref) st)
  end.

(** The effect that listens for changes.  [next] is the first reference
    not yet given to a function: the effect creates [handleSettingChange],
    which takes it, and then the arrow functions of the keys. *)
Definition listen (next : nat) (st : UserScriptSettings)
  : UserScriptSettings :=
  let r := fst (getAllSettings st) in
  let st1 := snd (getAllSettings st) in
  subscribe_each (S next) (own_keys st1 r) st1.

(** The cleanup of that effect: for every key,
    [removeSettingChangeListener(key, handleSettingChange)]. *)
Definition cleanup (next : nat) (st : UserScriptSettings)
  : UserScriptSettings :=
  let r := fst (getAllSettings st) in
  let st1 := snd (getAllSettings st) in
  fold_left
    (fun s key => removeSettingChangeListener key (component_function next) s)
    (own_keys st1 r) st1.

(** Mounting the component: its effects run in the order of their
    declaration, the second one only when the first has returned. *)
Definition mount (next : nat) (st : UserScriptSettings)
  : Result UserScriptSettings :=
  match initial_read st with
  | Failure e => Failure e
  | Value _ => Value (listen next (snd (getAllSettings st)))
  end.
End SettingsUI.



(** * The store over an unchecked snapshot

    [loadSettings] declares the parsed item a [SettingsStorage] and copies
    its entries without looking at them: the value store is a
    [Map<string, any>] as far as the stored item goes.  The model above
    takes every entry of a snapshot to be a [SettingValue] record, which
    is what [saveSettings] writes.  This module drops that assumption: an
    entry is whatever [JSON.parse] has built. *)
Module Untyped.

(** A value of type [any]: [undefined], or what [JSON.parse] builds, or a
    scalar handed in by a caller. *)
#[local] Set Warnings "-register-all".
Inductive Any : Type :=
| Undefined
| Null
| Bool (b : bool)
| Number (x : spec_float)
| Str (s : string)
| Array (items : list Any)
| Object (fields : list (string * Any)).

Definition of_value (v : JsValue) : Any :=
  match v with
  | VString s => Str s
  | VNumber x => Number x
  | VBoolean b => Bool b
  end.

(** The object literal [{ value, isDefault }]. *)
Definition record (value : JsValue) (isDefault : bool) : Any :=
  Object [("value", of_value value); ("isDefault", Bool isDefault)].

(** [!v]. *)
Definition falsy (v : Any) : bool :=
  match v with
  | Undefined => true
  | Null => true
  | Bool b => negb b
  | Number x => negb (number_truthy x)
  | Str EmptyString => true
  | Str (String _ _) => false
  | Array _ => false
  | Object _ => false
  end.

(** [v.value] and [v.isDefault] of a value that is neither [undefined]
    nor [null]: a property of these names is found on objects only, where
    it is an own property. *)
Definition property (v : Any) (name : string) : Any :=
  match v with
  | Object fields =>
      match JsMap.get fields name with
      | Some x => x
      | None => Undefined
      end
  | _ => Undefined
  end.

Record Callback : Type := {
  cb_ref : nat;
  cb_returns : JsValue -> Any -> bool
}.

Inductive Event : Type :=
| EvSetItem (storageKey version : string) (entries : list (string * Any))
| EvConsoleError (message : ConsoleMessage)
| EvCallback (callback : nat) (newValue : JsValue) (oldValue : Any).

(** The fields of the class, the behaviour of [localStorage.setItem]
    (which snapshots, given by version and entries, it accepts) and the
    trace. *)
Record UserScriptSettings : Type := {
  settings : JsMap.t Any;
  changeCallbacks : JsMap.t (list Callback);
  storageKey : string;
  version : string;
  defaultSettings : JsMap.t JsValue;
  settingDefinitions : JsMap.t SettingDef;
  storageAccepts : string -> list (string * Any) -> bool;
  trace : list Event
}.

Definition with_settings (st : UserScriptSettings) (m : JsMap.t Any)
  : UserScriptSettings :=
  {| settings := m;
     changeCallbacks := changeCallbacks st;
     storageKey := storageKey st;
     version := version st;
     defaultSettings := defaultSettings st;
     settingDefinitions := settingDefinitions st;
     storageAccepts := storageAccepts st;
     trace := trace st |}.

Definition with_changeCallbacks (st : UserScriptSettings)
    (m : JsMap.t (list Callback)) : UserScriptSettings :=
  {| settings := settings st;
     changeCallbacks := m;
     storageKey := storageKey st;
     version := version st;
     defaultSettings := defaultSettings st;
     settingDefinitions := settingDefinitions st;
     storageAccepts := storageAccepts st;
     trace := trace st |}.

Definition with_definition (st : UserScriptSettings)
    (defaults : JsMap.t JsValue) (definitions : JsMap.t SettingDef)
  : UserScriptSettings :=
  {| settings := settings st;
     changeCallbacks := changeCallbacks st;
     storageKey := storageKey st;
     version := version st;
     defaultSettings := defaults;
     settingDefinitions := definitions;
     storageAccepts := storageAccepts st;
     trace := trace st |}.

Definition with_storageAccepts (st : UserScriptSettings)
    (accepts : string -> list (string * Any) -> bool) : UserScriptSettings :=
  {| settings := settings st;
     changeCallbacks := changeCallbacks st;
     storageKey := storageKey st;
     version := version st;
     defaultSettings := defaultSettings st;
     settingDefinitions := settingDefinitions st;
     storageAccepts := accepts;
     trace := trace st |}.

Definition emit (e : Event) (st : UserScriptSettings) : UserScriptSettings :=
  {| settings := settings st;
     changeCallbacks := changeCallbacks st;
     storageKey := storageKey st;
     version := version st;
     defaultSettings := defaultSettings st;
     settingDefinitions := settingDefinitions st;
     storageAccepts := storageAccepts st;
     trace := trace st ++ [e] |}.

Definition fresh (storageKey' version' : string)
    (accepts : string -> list (string * Any) -> bool) : UserScriptSettings :=
  {| settings := JsMap.empty;
     changeCallbacks := JsMap.empty;
     storageKey := storageKey';
     version := version';
     defaultSettings := JsMap.empty;
     settingDefinitions := JsMap.empty;
     storageAccepts := accepts;
     trace := [] |}.

Definition saveSettings (st : UserScriptSettings) : UserScriptSettings :=
  if storageAccepts st (version st) (settings st)
  then emit (EvSetItem (storageKey st) (version st) (settings st)) st
  else emit (EvConsoleError ErrorSavingSettings) st.

Fixpoint forEach_callback (callbacks : list Callback)
    (newValue : JsValue) (oldValue : Any) (st : UserScriptSettings)
    : Outcome * UserScriptSettings :=
  match callbacks with
  | [] => (Returned, st)
  | callback :: rest =>
      let st' := emit (EvCallback (cb_ref callback) newValue oldValue) st in
      if cb_returns callback newValue oldValue
      then forEach_callback rest newValue oldValue st'
      else (Threw (CallbackError (cb_ref callback)), st')
  end.

(** [getSetting]: [if (!setting) throw], then [setting.value]. *)
Definition getSetting (key : string) (st : UserScriptSettings)
  : Result Any :=
  match JsMap.get (settings st) key with
  | None => Failure (NotFoundError key)
  | Some setting =>
      if falsy setting then Failure (NotFoundError key)
      else Value (property setting "value")
  end.

(** [setSetting]: [if (!oldSetting) throw], then as in the typed model. *)
Definition setSetting (key : string) (value : JsValue)
    (st : UserScriptSettings) : Outcome * UserScriptSettings :=
  match JsMap.get (settings st) key with
  | None => (Threw (NotFoundError key), st)
  | Some oldSetting =>
      if falsy oldSetting then (Threw (NotFoundError key), st)
      else
        let defaultValue := JsMap.get (defaultSettings st) key in
        let isDefault := same_json (Some value) defaultValue in
        let newSetting := record value isDefault in
        let st1 := with_settings st (JsMap.set (settings st) key newSetting) in
        let st2 := saveSettings st1 in
        match JsMap.get (changeCallbacks st2) key with
        | Some callbacks =>
            forEach_callback callbacks value (property oldSetting "value") st2
        | None => (Returned, st2)
        end
  end.

Definition resetToDefault (key : string) (st : UserScriptSettings)
  : Outcome * UserScriptSettings :=
  match JsMap.get (defaultSettings st) key with
  | None => (Threw (NotFoundError key), st)
  | Some defaultValue => setSetting key defaultValue st
  end.

Fixpoint forEach_default (entries : list (string * JsValue))
    (st : UserScriptSettings) : Outcome * UserScriptSettings :=
  match entries with
  | [] => (Returned, st)
  | (key, defaultValue) :: rest =>
      match setSetting key defaultValue st with
      | (Returned, st') => forEach_default rest st'
      | (Threw e, st') => (Threw e, st')
      end
  end.

Definition resetAllToDefaults (st : UserScriptSettings)
  : Outcome * UserScriptSettings :=
  forEach_default (defaultSettings st) st.

Definition same_callback (a b : Callback) : bool :=
  Nat.eqb (cb_ref a) (cb_ref b).

Definition onSettingChange (key : string) (callback : Callback)
    (st : UserScriptSettings) : UserScriptSettings :=
  let registered :=
    match JsMap.get (changeCallbacks st) key with
    | Some callbacks => callbacks
    | None => []
    end in
  with_changeCallbacks st
    (JsMap.set (changeCallbacks st) key
       (if existsb (same_callback callback) registered then registered
        else (registered ++ [callback])%list)).

Definition removeSettingChangeListener (key : string) (callback : Callback)
    (st : UserScriptSettings) : UserScriptSettings :=
  match JsMap.get (changeCallbacks st) key with
  | Some callbacks =>
      with_changeCallbacks st
        (JsMap.set (changeCallbacks st) key
           (filter (fun c => negb (same_callback callback c)) callbacks))
  | None => st
  end.

(** [isDefault]: [setting?.isDefault ?? true]. *)
Definition isDefault (key : string) (st : UserScriptSettings) : Any :=
  let flag :=
    match JsMap.get (settings st) key with
    | Some setting => property setting "isDefault"
    | None => Undefined
    end in
  match flag with
  | Undefined => Bool true
  | Null => Bool true
  | _ => flag
  end.

(** [defineSetting]: the guard is [this.settings.has(key)], the presence
    of the key, whatever is stored under it. *)
Definition defineSetting (definition : SettingDef) (st : UserScriptSettings)
  : Outcome * UserScriptSettings :=
  match validateSettingDefinition definition with
  | Some e => (Threw e, st)
  | None =>
      let key := SettingDefinition.key definition in
      let defaultValue := SettingDefinition.defaultValue definition in
      let st1 :=
        with_definition st
          (JsMap.set (defaultSettings st) key defaultValue)
          (JsMap.set (settingDefinitions st) key definition) in
      if negb (JsMap.has (settings st1) key)
      then (Returned,
            with_settings st1
              (JsMap.set (settings st1) key (record defaultValue true)))
      else (Returned, st1)
  end.

(** What the [try] block of [loadSettings] meets.
    - [ItemAbsent]: [getItem] returns [null] or the empty string.
    - [ItemSnapshot version entries]: the text parses to a value [data],
      [data.version] is [version] and, when it is the configured version,
      [Object.entries(data.settings)] is [entries].
    - [ItemUnreadable]: an exception before the first entry is copied
      ([getItem] or [JSON.parse] throws, the text is [null], or
      [data.settings] is [undefined] or [null]). *)
Inductive StoredItem : Type :=
| ItemAbsent
| ItemSnapshot (version : Any) (entries : list (string * Any))
| ItemUnreadable.

(** [data.version !== this.version]. *)
Definition other_version (found : Any) (configured : string) : bool :=
  match found with
  | Str v => negb (String.eqb v configured)
  | _ => true
  end.

Definition loadSettings (item : StoredItem) (st : UserScriptSettings)
  : Outcome * UserScriptSettings :=
  let catch st' :=
    resetAllToDefaults (emit (EvConsoleError ErrorLoadingSettings) st') in
  match item with
  | ItemAbsent => (Returned, st)
  | ItemSnapshot found entries =>
      if other_version found (version st)
      then
        match resetAllToDefaults st with
        | (Returned, st') => (Returned, st')
        | (Threw _, st') => catch st'
        end
      else (Returned, with_settings st (JsMap.set_all entries (settings st)))
  | ItemUnreadable => catch st
  end.

Definition construct (storageKey' version' : string)
    (accepts : string -> list (string * Any) -> bool) (item : StoredItem)
  : UserScriptSettings :=
  snd (loadSettings item (fresh storageKey' version' accepts)).

Inductive Op : Type :=
| OpDefineSetting (definition : SettingDef)
| OpSetSetting (key : string) (value : JsValue)
| OpResetToDefault (key : string)
| OpResetAllToDefaults
| OpOnSettingChange (key : string) (callback : Callback)
| OpRemoveSettingChangeListener (key : string) (callback : Callback)
| OpStorageChanges (accepts : string -> list (string * Any) -> bool).

Definition step (op : Op) (st : UserScriptSettings)
  : Outcome * UserScriptSettings :=
  match op with
  | OpDefineSetting definition => defineSetting definition st
  | OpSetSetting key value => setSetting key value st
  | OpResetToDefault key => resetToDefault key st
  | OpResetAllToDefaults => resetAllToDefaults st
  | OpOnSettingChange key callback =>
      (Returned, onSettingChange key callback st)
  | OpRemoveSettingChangeListener key callback =>
      (Returned, removeSettingChangeListener key callback st)
  | OpStorageChanges accepts => (Returned, with_storageAccepts st accepts)
  end.

Definition run (ops : list Op) (st : UserScriptSettings)
  : UserScriptSettings :=
  fold_left (fun s op => snd (step op s)) ops st.

(** *** Vocabulary *)

(** The entries a construction copies from the stored item. *)
Definition loaded (item : StoredItem) (configured : string) : JsMap.t Any :=
  match item with
  | ItemSnapshot found entries =>
      if other_version found configured then JsMap.empty
      else JsMap.from_entries entries
  | _ => JsMap.empty
  end.

(** [m] holds a falsy entry under [k]. *)
Definition falsy_entry (m : JsMap.t Any) (k : string) : bool :=
  match JsMap.get m k with
  | Some v => falsy v
  | None => false
  end.


Definition accept_all : string -> list (string * Any) -> bool :=
  fun _ _ => true.

(** *** Writing the snapshot and reading it back *)

(** [JSON.parse(JSON.stringify(v))]; [None] where [JSON.stringify] gives
    [undefined].  A non-finite number is written as [null], [-0] as [0];
    in an array [undefined] is written as [null], in an object a property
    holding it is left out. *)
Fixpoint reparse (v : Any) : option Any :=
  match v with
  | Undefined => None
  | Null => Some Null
  | Bool b => Some (Bool b)
  | Number x =>
      Some (match x with
            | S754_nan => Null
            | S754_infinity _ => Null
            | S754_zero _ => Number (S754_zero false)
            | S754_finite _ _ _ => Number x
            end)
  | Str s => Some (Str s)
  | Array items =>
      Some (Array (map (fun item =>
                          match reparse item with
                          | Some w => w
                          | None => Null
                          end) items))
  | Object fields =>
      Some (Object
              ((fix each (l : list (string * Any)) : list (string * Any) :=
                  match l with
                  | [] => []
                  | (k, x) :: rest =>
                      match reparse x with
                      | Some w => (k, w) :: each rest
                      | None => each rest
                      end
                  end) fields))
  end.

Fixpoint reparse_fields (l : list (string * Any)) : list (string * Any) :=
  match l with
  | [] => []
  | (k, x) :: rest =>
      match reparse x with
      | Some w => (k, w) :: reparse_fields rest
      | None => reparse_fields rest
      end
  end.

(** An array index: the canonical decimal text of an integer below
    [2^32 - 1]. *)
Definition digit (c : Ascii.ascii) : option Z :=
  let n := Z.of_nat (Ascii.nat_of_ascii c) in
  if Z.leb 48 n && Z.leb n 57 then Some (n - 48)%Z else None.

Fixpoint digits (s : string) (acc : Z) : option Z :=
  match s with
  | EmptyString => Some acc
  | String c rest =>
      match digit c with
      | Some d => digits rest (10 * acc + d)%Z
      | None => None
      end
  end.

Definition array_index (key : string) : option Z :=
  match key with
  | EmptyString => None
  | String c rest =>
      match digit c, rest with
      | None, _ => None
      | Some 0%Z, EmptyString => Some 0%Z
      | Some 0%Z, String _ _ => None
      | Some _, _ =>
          match digits key 0 with
          | Some n => if Z.ltb n 4294967295 then Some n else None
          | None => None
          end
      end
  end.

(** The order in which the own keys of an object are listed: array
    indices first, ascending, then the other keys in the order of their
    creation.  [Object.fromEntries(this.settings)] creates the keys in
    the order of the [Map]. *)
Section PropertyOrder.
Variable V : Type.

Fixpoint insert_index (n : Z) (kv : string * V)
    (l : list (Z * (string * V))) : list (Z * (string * V)) :=
  match l with
  | [] => [(n, kv)]
  | (m, kv') :: rest =>
      if Z.ltb n m then (n, kv) :: l
      else (m, kv') :: insert_index n kv rest
  end.

Fixpoint indexed (entries : list (string * V)) : list (Z * (string * V)) :=
  match entries with
  | [] => []
  | kv :: rest =>
      match array_index (fst kv) with
      | Some n => insert_index n kv (indexed rest)
      | None => indexed rest
      end
  end.

Definition named (entries : list (string * V)) : list (string * V) :=
  filter (fun kv => match array_index (fst kv) with
                    | Some _ => false
                    | None => true
                    end) entries.

Definition own_property_order (entries : list (string * V))
  : list (string * V) :=
  map snd (indexed entries) ++ named entries.
End PropertyOrder.

(** What a later session finds after [saveSettings] has written
    [{ version, settings: Object.fromEntries(this.settings) }]: the
    version, and the entries of the parsed [settings] object. *)
Definition reread (version' : string) (entries : list (string * Any))
  : StoredItem :=
  ItemSnapshot (Str version') (reparse_fields (own_property_order entries)).

End Untyped.

(** ** The two models side by side

    A snapshot of records, seen as an item of any content; the
    operations and callbacks of the typed model, seen as operations of the
    untyped one.  [getAllSettings] does not concern the value store, and
    what the storage accepts decides nothing but the trace. *)
Definition entry_of (sv : SettingValue.t) : Untyped.Any :=
  Untyped.record (SettingValue.value sv) (SettingValue.isDefault sv).

Definition entries_of (m : JsMap.t SettingValue.t) : JsMap.t Untyped.Any :=
  map (fun kv => (fst kv, entry_of (snd kv))) m.

Definition item_of (item : StoredItem) : Untyped.StoredItem :=
  match item with
  | ItemAbsent => Untyped.ItemAbsent
  | ItemSnapshot data =>
      Untyped.ItemSnapshot (Untyped.Str (SettingsStorage.version data))
        (entries_of (SettingsStorage.settings data))
  | ItemUnreadable => Untyped.ItemUnreadable
  end.

Definition callback_of (c : Callback) : Untyped.Callback :=
  {| Untyped.cb_ref := cb_ref c;
     Untyped.cb_returns := fun newValue oldValue =>
       match oldValue with
       | Untyped.Str s => cb_returns c newValue (VString s)
       | Untyped.Number x => cb_returns c newValue (VNumber x)
       | Untyped.Bool b => cb_returns c newValue (VBoolean b)
       | _ => true
       end |}.

Definition op_of (op : Op) : list Untyped.Op :=
  match op with
  | OpDefineSetting d => [Untyped.OpDefineSetting d]
  | OpSetSetting key value => [Untyped.OpSetSetting key value]
  | OpResetToDefault key => [Untyped.OpResetToDefault key]
  | OpResetAllToDefaults => [Untyped.OpResetAllToDefaults]
  | OpOnSettingChange key c => [Untyped.OpOnSettingChange key (callback_of c)]
  | OpRemoveSettingChangeListener key c =>
      [Untyped.OpRemoveSettingChangeListener key (callback_of c)]
  | OpGetAllSettings => []
  | OpStorageChanges _ => []
  end.

(** The fields of a typed state and of an untyped one hold the same. *)
Definition agree (st : UserScriptSettings) (ust : Untyped.UserScriptSettings)
  : Prop :=
  Untyped.settings ust = entries_of (settings st) /\
  Untyped.defaultSettings ust = defaultSettings st /\
  Untyped.changeCallbacks ust =
    map (fun kc => (fst kc, map callback_of (snd kc))) (changeCallbacks st) /\
  Untyped.version ust = version st /\
  Untyped.storageKey ust = storageKey st.
(** * Properties *)

(** ** Maps *)

Module JsMapFacts.
Section WithValues.
Variable V : Type.
Implicit Types (m : JsMap.t V) (k : string) (v : V).
Implicit Types (entries : list (string * V)).

Lemma get_set_same m k v : JsMap.get (JsMap.set m k v) k = Some v.
Proof.
  induction m as [|[k' v'] rest IH]; simpl.
  - now rewrite String.eqb_refl.
  - destruct (String.eqb k' k) eqn:E; simpl; rewrite E; auto.
Qed.

Lemma get_set_other m k k' v :
  k <> k' -> JsMap.get (JsMap.set m k v) k' = JsMap.get m k'.
Proof.
  intros Hne. induction m as [|[k0 v0] rest IH]; simpl.
  - apply String.eqb_neq in Hne. now rewrite Hne.
  - destruct (String.eqb k0 k) eqn:E; simpl.
    + apply String.eqb_eq in E. subst k0.
      apply String.eqb_neq in Hne. now rewrite Hne.
    + now rewrite IH.
Qed.

Lemma get_set m k k' v :
  JsMap.get (JsMap.set m k v) k' =
  if String.eqb k k' then Some v else JsMap.get m k'.
Proof.
  destruct (String.eqb k k') eqn:E.
  - apply String.eqb_eq in E. subst. apply get_set_same.
  - apply String.eqb_neq in E. now apply get_set_other.
Qed.

Lemma has_set m k k' v :
  JsMap.has (JsMap.set m k v) k' = String.eqb k k' || JsMap.has m k'.
Proof.
  unfold JsMap.has. rewrite get_set. now destruct (String.eqb k k').
Qed.

Lemma has_true m k : JsMap.has m k = true <-> exists v, JsMap.get m k = Some v.
Proof.
  unfold JsMap.has. destruct (JsMap.get m k) as [v|].
  - split; eauto.
  - split; [discriminate | intros [v H]; discriminate].
Qed.

Lemma has_false m k : JsMap.has m k = false <-> JsMap.get m k = None.
Proof.
  unfold JsMap.has. destruct (JsMap.get m k); split; congruence.
Qed.

Lemma get_set_all_last entries m k :
  JsMap.get (JsMap.set_all entries m) k =
  match JsMap.last_assigned entries k with
  | Some v => Some v
  | None => JsMap.get m k
  end.
Proof.
  unfold JsMap.set_all. revert m.
  induction entries as [|[k0 v0] rest IH]; intros m; simpl; auto.
  rewrite IH. destruct (JsMap.last_assigned rest k); auto.
  rewrite get_set. now destruct (String.eqb k0 k).
Qed.

Lemma get_from_entries entries k :
  JsMap.get (JsMap.from_entries entries) k = JsMap.last_assigned entries k.
Proof.
  unfold JsMap.from_entries. rewrite get_set_all_last.
  now destruct (JsMap.last_assigned entries k).
Qed.

Lemma get_set_all entries m k :
  JsMap.get (JsMap.set_all entries m) k =
  match JsMap.get (JsMap.from_entries entries) k with
  | Some v => Some v
  | None => JsMap.get m k
  end.
Proof. now rewrite get_from_entries, get_set_all_last. Qed.

Lemma has_set_all entries m k :
  JsMap.has (JsMap.set_all entries m) k =
  JsMap.has (JsMap.from_entries entries) k || JsMap.has m k.
Proof.
  unfold JsMap.has. rewrite get_set_all.
  now destruct (JsMap.get (JsMap.from_entries entries) k).
Qed.
End WithValues.
End JsMapFacts.

(** ** What the value operations leave alone *)

Lemma same_frame_refl st : same_frame st st.
Proof. repeat split. Qed.

Lemma same_frame_trans st1 st2 st3 :
  same_frame st1 st2 -> same_frame st2 st3 -> same_frame st1 st3.
Proof.
  unfold same_frame. intros H1 H2.
  decompose [and] H1. decompose [and] H2. repeat split; congruence.
Qed.

Lemma same_frame_emit e st : same_frame st (emit e st).
Proof. repeat split. Qed.

Lemma same_frame_with_settings st m : same_frame st (with_settings st m).
Proof. repeat split. Qed.

Lemma same_frame_saveSettings st : same_frame st (saveSettings st).
Proof.
  unfold saveSettings. destruct (storageAccepts st _); apply same_frame_emit.
Qed.

Lemma same_frame_forEach_callback callbacks v old st :
  same_frame st (snd (forEach_callback callbacks v old st)).
Proof.
  revert st. induction callbacks as [|c rest IH]; intros st; simpl.
  - apply same_frame_refl.
  - destruct (cb_returns c v old); simpl.
    + eapply same_frame_trans; [apply same_frame_emit | apply IH].
    + apply same_frame_emit.
Qed.

Lemma settings_saveSettings st : settings (saveSettings st) = settings st.
Proof. unfold saveSettings. now destruct (storageAccepts st _). Qed.

Lemma settings_forEach_callback callbacks v old st :
  settings (snd (forEach_callback callbacks v old st)) = settings st.
Proof.
  revert st. induction callbacks as [|c rest IH]; intros st; simpl; auto.
  destruct (cb_returns c v old); simpl; auto. now rewrite IH.
Qed.

Lemma settings_setSetting key v st :
  settings (snd (setSetting key v st)) =
  match JsMap.get (settings st) key with
  | Some _ => JsMap.set (settings st) key (written_entry st key v)
  | None => settings st
  end.
Proof.
  unfold setSetting. destruct (JsMap.get (settings st) key) as [old|]; auto.
  destruct (JsMap.get (changeCallbacks _) key) as [cbs|]; simpl.
  - now rewrite settings_forEach_callback, settings_saveSettings.
  - now rewrite settings_saveSettings.
Qed.

Lemma same_frame_setSetting key v st :
  same_frame st (snd (setSetting key v st)).
Proof.
  unfold setSetting. destruct (JsMap.get (settings st) key) as [old|].
  - set (st1 := with_settings st _).
    assert (F : same_frame st (saveSettings st1)).
    { eapply same_frame_trans;
        [apply same_frame_with_settings | apply same_frame_saveSettings]. }
    destruct (JsMap.get (changeCallbacks (saveSettings st1)) key); simpl; auto.
    eapply same_frame_trans; [exact F | apply same_frame_forEach_callback].
  - apply same_frame_refl.
Qed.

Lemma has_settings_setSetting key v st k :
  JsMap.has (settings (snd (setSetting key v st))) k =
  JsMap.has (settings st) k.
Proof.
  rewrite settings_setSetting.
  destruct (JsMap.get (settings st) key) as [old|] eqn:E; auto.
  rewrite JsMapFacts.has_set.
  destruct (String.eqb key k) eqn:Ek; auto.
  apply String.eqb_eq in Ek. subst k.
  simpl. symmetry. apply JsMapFacts.has_true. eauto.
Qed.

Lemma same_frame_forEach_default entries st :
  same_frame st (snd (forEach_default entries st)).
Proof.
  revert st. induction entries as [|[k d] rest IH]; intros st; simpl.
  - apply same_frame_refl.
  - pose proof (same_frame_setSetting k d st) as F.
    destruct (setSetting k d st) as [[|e] st']; simpl in *; auto.
    eapply same_frame_trans; [exact F | apply IH].
Qed.

Lemma has_settings_forEach_default entries st k :
  JsMap.has (settings (snd (forEach_default entries st))) k =
  JsMap.has (settings st) k.
Proof.
  revert st. induction entries as [|[k0 d] rest IH]; intros st; simpl; auto.
  pose proof (has_settings_setSetting k0 d st k) as F.
  destruct (setSetting k0 d st) as [[|e] st']; simpl in *; auto.
  now rewrite IH.
Qed.

Lemma same_frame_resetToDefault key st :
  same_frame st (snd (resetToDefault key st)).
Proof.
  unfold resetToDefault. destruct (JsMap.get (defaultSettings st) key).
  - apply same_frame_setSetting.
  - apply same_frame_refl.
Qed.

Lemma has_settings_resetToDefault key st k :
  JsMap.has (settings (snd (resetToDefault key st))) k =
  JsMap.has (settings st) k.
Proof.
  unfold resetToDefault. destruct (JsMap.get (defaultSettings st) key); auto.
  apply has_settings_setSetting.
Qed.

(** At construction nothing is defined yet, so the resets of
    [loadSettings] have nothing to do. *)
Lemma construct_state sk ver acc item :
  construct sk ver acc item =
  match item with
  | ItemAbsent => fresh sk ver acc
  | ItemSnapshot data =>
      if String.eqb (SettingsStorage.version data) ver
      then with_settings (fresh sk ver acc)
             (JsMap.from_entries (SettingsStorage.settings data))
      else fresh sk ver acc
  | ItemUnreadable =>
      emit (EvConsoleError ErrorLoadingSettings) (fresh sk ver acc)
  end.
Proof.
  unfold construct, loadSettings. destruct item as [|data|]; simpl; auto.
  destruct (String.eqb (SettingsStorage.version data) ver); reflexivity.
Qed.

Lemma loadSettings_fresh_returns sk ver acc item :
  fst (loadSettings item (fresh sk ver acc)) = Returned.
Proof.
  unfold loadSettings. destruct item as [|data|]; simpl; auto.
  destruct (String.eqb (SettingsStorage.version data) ver); reflexivity.
Qed.

(** ** Definition time *)

Lemma validate_with_validator (d : SettingDef) f :
  validateSettingDefinition (SettingDefinition.with_validator d f) =
  validateSettingDefinition d.
Proof. destruct d; reflexivity. Qed.

Lemma defineSetting_valid d st :
  validateSettingDefinition d = None ->
  defineSetting d st =
  (Returned,
   let key := SettingDefinition.key d in
   let st1 :=
     with_definition st
       (JsMap.set (defaultSettings st) key (SettingDefinition.defaultValue d))
       (JsMap.set (settingDefinitions st) key (length (definitionObjects st)))
       (definitionObjects st ++ [d]) in
   if JsMap.has (settings st) key then st1
   else with_settings st1
          (JsMap.set (settings st) key
             {| SettingValue.value := SettingDefinition.defaultValue d;
                SettingValue.isDefault := true |})).
Proof.
  intros Hv. unfold defineSetting. rewrite Hv. simpl.
  now destruct (JsMap.has (settings st) (SettingDefinition.key d)).
Qed.

Lemma defineSetting_invalid d st e :
  validateSettingDefinition d = Some e ->
  defineSetting d st = (Threw e, st).
Proof. intros Hv. unfold defineSetting. now rewrite Hv. Qed.

(** The value store after a successful [defineSetting]. *)
Lemma settings_defineSetting d st k :
  validateSettingDefinition d = None ->
  JsMap.get (settings (snd (defineSetting d st))) k =
  match JsMap.get (settings st) k with
  | Some sv => Some sv
  | None =>
      if String.eqb (SettingDefinition.key d) k
      then Some {| SettingValue.value := SettingDefinition.defaultValue d;
                   SettingValue.isDefault := true |}
      else None
  end.
Proof.
  intros Hv. rewrite defineSetting_valid by exact Hv. simpl.
  unfold JsMap.has.
  destruct (JsMap.get (settings st) (SettingDefinition.key d)) as [sv|] eqn:E;
    simpl.
  - destruct (JsMap.get (settings st) k) as [sv'|] eqn:E'; auto.
    destruct (String.eqb (SettingDefinition.key d) k) eqn:Ek; auto.
    apply String.eqb_eq in Ek. congruence.
  - rewrite JsMapFacts.get_set.
    destruct (String.eqb (SettingDefinition.key d) k) eqn:Ek.
    + apply String.eqb_eq in Ek. subst k. now rewrite E.
    + now destruct (JsMap.get (settings st) k).
Qed.

Lemma defaultSettings_defineSetting d st k :
  validateSettingDefinition d = None ->
  JsMap.get (defaultSettings (snd (defineSetting d st))) k =
  if String.eqb (SettingDefinition.key d) k
  then Some (SettingDefinition.defaultValue d)
  else JsMap.get (defaultSettings st) k.
Proof.
  intros Hv. rewrite defineSetting_valid by exact Hv. simpl.
  destruct (JsMap.has (settings st) (SettingDefinition.key d)); simpl;
    apply JsMapFacts.get_set.
Qed.

(** The built-in check at work: a dropdown whose default is none of its
    choices is refused, and [refreshInterval] is accepted. *)
Example dropdown_default_must_be_a_choice :
  forall st,
    defineSetting language st =
    (Threw (DefinitionError "language" DefaultNotAChoice), st) /\
    fst (defineSetting refreshInterval st) = Returned.
Proof.
  intros st. split; [reflexivity|].
  now rewrite defineSetting_valid by reflexivity.
Qed.

(** C1, as stated, fails: a definition whose validator rejects its own
    default value is registered without any error. *)
Lemma defineSetting_validator_not_run :
  ~ (forall (d : SettingDef) (f : JsValue -> bool) (st : UserScriptSettings),
        SettingDefinition.validator d = Some f ->
        f (SettingDefinition.defaultValue d) = false ->
        exists e, fst (defineSetting d st) = Threw e).
Proof.
  intros H.
  destruct (H nickname reject_everything (fresh "app" "1.0" accept_all)
              eq_refl eq_refl) as [e He].
  discriminate He.
Qed.

(** C1, amended: [defineSetting] runs the built-in per-type check only.
    The [validator] of a definition is kept with the definition and never
    called: whether [defineSetting] fails, and with which error, and the
    value store, the defaults and the trace it leaves, are the same
    whatever the validator is; the call succeeds exactly when the
    built-in check passes, and fails with a [DefinitionError] for the
    definition's key otherwise. *)
Theorem defineSetting_validator_irrelevant :
  forall (d : SettingDef) (f : option (JsValue -> bool))
         (st : UserScriptSettings),
    let d' := SettingDefinition.with_validator d f in
    fst (defineSetting d' st) = fst (defineSetting d st) /\
    settings (snd (defineSetting d' st)) = settings (snd (defineSetting d st)) /\
    defaultSettings (snd (defineSetting d' st)) =
      defaultSettings (snd (defineSetting d st)) /\
    trace (snd (defineSetting d' st)) = trace (snd (defineSetting d st)) /\
    (fst (defineSetting d' st) = Returned <->
       validateSettingDefinition d = None) /\
    (forall e, fst (defineSetting d' st) = Threw e ->
       exists reason, e = DefinitionError (SettingDefinition.key d) reason).
Proof.
  intros d f st d'.
  assert (Hv : validateSettingDefinition d' = validateSettingDefinition d)
    by apply validate_with_validator.
  assert (Hk : SettingDefinition.key d' = SettingDefinition.key d)
    by (destruct d; reflexivity).
  assert (Hd : SettingDefinition.defaultValue d' =
               SettingDefinition.defaultValue d)
    by (destruct d; reflexivity).
  destruct (validateSettingDefinition d) as [e|] eqn:E.
  - rewrite (@defineSetting_invalid d' st e Hv), (@defineSetting_invalid d st e E).
    simpl. repeat split; try discriminate.
    intros e' He'. injection He' as <-.
    clear - E. unfold validateSettingDefinition in E.
    repeat match type of E with
           | context [match ?x with _ => _ end] => destruct x
           end;
      try discriminate; injection E as <-; eauto.
  - rewrite (@defineSetting_valid d' st Hv), (@defineSetting_valid d st E).
    simpl. rewrite ?Hk, ?Hd.
    destruct (JsMap.has (settings st) (SettingDefinition.key d)); simpl;
      repeat split; auto; discriminate.
Qed.

(** C2, as stated, fails: the flag of a persisted entry is not recomputed
    when the key is defined.  The persisted [theme] is [dark] with
    [isDefault = true]; after [defineSetting] with default [light] the
    stored flag is still [true]. *)
Lemma defineSetting_flag_not_recomputed :
  ~ (forall (sk ver : string) (acc : SettingsStorage.t -> bool)
            (data : SettingsStorage.t) (d : SettingDef) (sv : SettingValue.t),
        String.eqb (SettingsStorage.version data) ver = true ->
        validateSettingDefinition d = None ->
        JsMap.get (JsMap.from_entries (SettingsStorage.settings data))
                  (SettingDefinition.key d) = Some sv ->
        JsMap.get
          (settings (snd (defineSetting d
                            (construct sk ver acc (ItemSnapshot data)))))
          (SettingDefinition.key d) =
        Some {| SettingValue.value := SettingValue.value sv;
                SettingValue.isDefault :=
                  deep_equals (SettingValue.value sv)
                              (SettingDefinition.defaultValue d) |}).
Proof.
  intros H.
  specialize (H "app" "1.0" accept_all stored_theme theme_light
                {| SettingValue.value := VString "dark";
                   SettingValue.isDefault := true |}
                eq_refl eq_refl eq_refl).
  vm_compute in H. discriminate H.
Qed.

(** C2, amended: for every key, if the value store already holds an entry
    for the key when a valid definition is registered -- an entry loaded
    from the persisted snapshot, in particular -- the entry is kept as it
    is: the stored value wins over the new default and the stored
    [isDefault] flag is left untouched (it is not recomputed against the
    new default).  If the store holds no entry for the key, one is created
    with the default value and [isDefault = true].  In both cases the
    default registered for the key is the definition's. *)
Theorem defineSetting_existing_value_wins :
  forall (d : SettingDef),
    validateSettingDefinition d = None ->
    let key := SettingDefinition.key d in
    (forall st,
        fst (defineSetting d st) = Returned /\
        JsMap.get (defaultSettings (snd (defineSetting d st))) key =
          Some (SettingDefinition.defaultValue d) /\
        (forall sv, JsMap.get (settings st) key = Some sv ->
           JsMap.get (settings (snd (defineSetting d st))) key = Some sv) /\
        (JsMap.get (settings st) key = None ->
           JsMap.get (settings (snd (defineSetting d st))) key =
           Some {| SettingValue.value := SettingDefinition.defaultValue d;
                   SettingValue.isDefault := true |})) /\
    (forall sk ver acc data sv,
        String.eqb (SettingsStorage.version data) ver = true ->
        JsMap.get (JsMap.from_entries (SettingsStorage.settings data)) key =
          Some sv ->
        let st' :=
          snd (defineSetting d (construct sk ver acc (ItemSnapshot data))) in
        JsMap.get (settings st') key = Some sv /\
        getSetting key st' = Value (SettingValue.value sv) /\
        isDefault key st' = SettingValue.isDefault sv) /\
    (forall sk ver acc,
        let st' := snd (defineSetting d (construct sk ver acc ItemAbsent)) in
        getSetting key st' = Value (SettingDefinition.defaultValue d) /\
        isDefault key st' = true).
Proof.
  intros d Hv key. split; [|split].
  - intros st. repeat split.
    + now rewrite defineSetting_valid by exact Hv.
    + rewrite defaultSettings_defineSetting by exact Hv.
      unfold key. now rewrite String.eqb_refl.
    + intros sv Hsv. rewrite settings_defineSetting by exact Hv.
      now rewrite Hsv.
    + intros Hnone. rewrite settings_defineSetting by exact Hv.
      rewrite Hnone. unfold key. now rewrite String.eqb_refl.
  - intros sk ver acc data sv Hver Hsv st'.
    assert (G : JsMap.get (settings st') key = Some sv).
    { unfold st'. rewrite settings_defineSetting by exact Hv.
      rewrite construct_state, Hver. simpl. fold key. now rewrite Hsv. }
    split; [exact G|]. unfold getSetting, isDefault. now rewrite G.
  - intros sk ver acc st'.
    assert (G : JsMap.get (settings st') key =
                Some {| SettingValue.value := SettingDefinition.defaultValue d;
                        SettingValue.isDefault := true |}).
    { unfold st'. rewrite settings_defineSetting by exact Hv.
      rewrite construct_state. simpl. unfold key.
      now rewrite String.eqb_refl. }
    unfold getSetting, isDefault. now rewrite G.
Qed.

Lemma defineSetting_existing_value_wins_witness :
  let st' :=
    snd (defineSetting theme_light
           (construct "app" "1.0" accept_all (ItemSnapshot stored_theme))) in
  getSetting "theme" st' = Value (VString "dark") /\
  isDefault "theme" st' = true.
Proof.
  pose proof (@defineSetting_existing_value_wins theme_light eq_refl) as H.
  destruct H as [_ [H _]].
  specialize (H "app" "1.0" accept_all stored_theme
                {| SettingValue.value := VString "dark";
                   SettingValue.isDefault := true |}
                eq_refl eq_refl).
  exact (proj2 H).
Defined.

(** ** Sequences of operations: which keys exist *)

Lemma run_cons op ops st : run (op :: ops) st = run ops (snd (step op st)).
Proof. reflexivity. Qed.

Lemma valid_definition_true d :
  valid_definition d = true <-> validateSettingDefinition d = None.
Proof.
  unfold valid_definition.
  destruct (validateSettingDefinition d); split; congruence.
Qed.

Lemma has_settings_defineSetting d st k :
  JsMap.has (settings (snd (defineSetting d st))) k =
  JsMap.has (settings st) k || registers_key k d.
Proof.
  unfold registers_key, valid_definition.
  destruct (validateSettingDefinition d) as [e|] eqn:E.
  - rewrite (@defineSetting_invalid d st e E). simpl.
    now rewrite andb_false_r, orb_false_r.
  - unfold JsMap.has at 1. rewrite settings_defineSetting by exact E.
    unfold JsMap.has. rewrite andb_true_r.
    destruct (JsMap.get (settings st) k); auto.
    now destruct (String.eqb (SettingDefinition.key d) k).
Qed.

Lemma has_settings_step op st k :
  JsMap.has (settings (snd (step op st))) k =
  JsMap.has (settings st) k || registers k op.
Proof.
  destruct op; simpl; rewrite ?orb_false_r; auto.
  - apply has_settings_defineSetting.
  - apply has_settings_setSetting.
  - apply has_settings_resetToDefault.
  - apply has_settings_forEach_default.
  - unfold removeSettingChangeListener.
    now destruct (JsMap.get (changeCallbacks st) key).
Qed.

Lemma same_definitions_of_frame st st' :
  same_frame st st' -> same_definitions st st'.
Proof. unfold same_frame, same_definitions. tauto. Qed.

Lemma same_definitions_step op st :
  (forall d, op <> OpDefineSetting d) ->
  same_definitions st (snd (step op st)).
Proof.
  intros Hop. destruct op; simpl.
  - now destruct (Hop definition).
  - apply same_definitions_of_frame, same_frame_setSetting.
  - apply same_definitions_of_frame, same_frame_resetToDefault.
  - apply same_definitions_of_frame, same_frame_forEach_default.
  - repeat split.
  - unfold removeSettingChangeListener.
    destruct (JsMap.get (changeCallbacks st) key); repeat split.
  - repeat split.
  - repeat split.
Qed.

Lemma step_invalid_definition d st :
  valid_definition d = false -> snd (step (OpDefineSetting d) st) = st.
Proof.
  unfold valid_definition. simpl.
  destruct (validateSettingDefinition d) as [e|] eqn:E; [|discriminate].
  intros _. now rewrite (@defineSetting_invalid d st e E).
Qed.

Lemma has_definitions_step op st k :
  JsMap.has (settingDefinitions (snd (step op st))) k =
  JsMap.has (settingDefinitions st) k || registers k op /\
  JsMap.has (defaultSettings (snd (step op st))) k =
  JsMap.has (defaultSettings st) k || registers k op.
Proof.
  destruct op as [d| | | | | | |].
  2-8: match goal with
       | |- context [step ?o ?s] =>
           assert (F : same_definitions s (snd (step o s)))
             by (apply same_definitions_step; intros d0; discriminate)
       end;
       destruct F as [H1 [H2 _]]; rewrite H1, H2; simpl;
       now rewrite !orb_false_r.
  simpl. unfold registers_key.
  destruct (valid_definition d) eqn:E.
  - apply valid_definition_true in E.
    rewrite defineSetting_valid by exact E. simpl.
    destruct (JsMap.has (settings st) (SettingDefinition.key d)); simpl;
      rewrite !JsMapFacts.has_set, andb_true_r;
      split; apply orb_comm.
  - pose proof (@step_invalid_definition d st E) as Hs. simpl in Hs.
    rewrite Hs. now rewrite andb_false_r, !orb_false_r.
Qed.

Lemma has_settings_run ops st k :
  JsMap.has (settings (run ops st)) k =
  JsMap.has (settings st) k || defined_by ops k.
Proof.
  revert st. induction ops as [|op ops IH]; intros st.
  - simpl. now rewrite orb_false_r.
  - rewrite run_cons, IH, has_settings_step. simpl.
    now rewrite orb_assoc.
Qed.

Lemma has_definitions_run ops st k :
  JsMap.has (settingDefinitions (run ops st)) k =
  JsMap.has (settingDefinitions st) k || defined_by ops k /\
  JsMap.has (defaultSettings (run ops st)) k =
  JsMap.has (defaultSettings st) k || defined_by ops k.
Proof.
  revert st. induction ops as [|op ops IH]; intros st.
  - simpl. now rewrite !orb_false_r.
  - rewrite run_cons. destruct (IH (snd (step op st))) as [H1 H2].
    destruct (has_definitions_step op st k) as [G1 G2].
    rewrite H1, H2, G1, G2. simpl. now rewrite !orb_assoc.
Qed.

Lemma has_settings_construct sk ver acc item k :
  JsMap.has (settings (construct sk ver acc item)) k = loaded_by item ver k.
Proof.
  rewrite construct_state. destruct item as [|data|]; simpl; auto.
  now destruct (String.eqb (SettingsStorage.version data) ver).
Qed.

Lemma definitions_construct sk ver acc item :
  defaultSettings (construct sk ver acc item) = JsMap.empty /\
  settingDefinitions (construct sk ver acc item) = JsMap.empty /\
  definitionObjects (construct sk ver acc item) = [].
Proof.
  rewrite construct_state. destruct item as [|data|]; simpl; auto.
  now destruct (String.eqb (SettingsStorage.version data) ver).
Qed.

Lemma has_settings_reachable sk ver acc item ops k :
  JsMap.has (settings (run ops (construct sk ver acc item))) k =
  loaded_by item ver k || defined_by ops k.
Proof. now rewrite has_settings_run, has_settings_construct. Qed.

Lemma has_definitions_reachable sk ver acc item ops k :
  JsMap.has (settingDefinitions (run ops (construct sk ver acc item))) k =
    defined_by ops k /\
  JsMap.has (defaultSettings (run ops (construct sk ver acc item))) k =
    defined_by ops k.
Proof.
  destruct (has_definitions_run ops (construct sk ver acc item) k) as [H1 H2].
  destruct (definitions_construct sk ver acc item) as [D1 [D2 _]].
  rewrite H1, H2, D1, D2. split; reflexivity.
Qed.

(** ** Reading a value *)



(** ** Defined keys have values *)



Lemma in_map_has (V : Type) (m : JsMap.t V) k v :
  In (k, v) m -> JsMap.has m k = true.
Proof.
  unfold JsMap.has. induction m as [|[k0 v0] rest IH]; simpl.
  - intros [].
  - intros [Heq|Hin].
    + injection Heq as -> ->. now rewrite String.eqb_refl.
    + destruct (String.eqb k0 k); auto.
Qed.

Lemma defined_keys_have_values sk ver acc item ops k :
  let st := run ops (construct sk ver acc item) in
  JsMap.has (defaultSettings st) k = true ->
  JsMap.has (settings st) k = true.
Proof.
  intros st Hk. unfold st in *.
  destruct (has_definitions_reachable sk ver acc item ops k) as [_ H2].
  rewrite H2 in Hk. rewrite has_settings_reachable, Hk.
  apply orb_true_r.
Qed.

(** ** The store over an unchecked snapshot *)

Module UntypedFacts.
Import Untyped.

Lemma forEach_callback_fields callbacks v old st :
  let st' := snd (forEach_callback callbacks v old st) in
  settings st' = settings st /\
  defaultSettings st' = defaultSettings st /\
  changeCallbacks st' = changeCallbacks st /\
  version st' = version st /\
  storageKey st' = storageKey st.
Proof.
  revert st. induction callbacks as [|c rest IH]; intros st; simpl; auto.
  destruct (cb_returns c v old); simpl; auto.
  destruct (IH (emit (EvCallback (cb_ref c) v old) st))
    as [H1 [H2 [H3 [H4 H5]]]].
  repeat split; assumption.
Qed.


Lemma saveSettings_fields st :
  settings (saveSettings st) = settings st /\
  defaultSettings (saveSettings st) = defaultSettings st /\
  changeCallbacks (saveSettings st) = changeCallbacks st /\
  version (saveSettings st) = version st /\
  storageKey (saveSettings st) = storageKey st.
Proof.
  unfold saveSettings.
  destruct (storageAccepts st (version st) (settings st)); simpl; auto.
Qed.

(** The value store after [setSetting]. *)
Lemma settings_setSetting_untyped key v st :
  settings (snd (setSetting key v st)) =
  if JsMap.has (settings st) key && negb (falsy_entry (settings st) key)
  then JsMap.set (settings st) key
         (record v (same_json (Some v) (JsMap.get (defaultSettings st) key)))
  else settings st.
Proof.
  unfold setSetting, JsMap.has, falsy_entry.
  destruct (JsMap.get (settings st) key) as [old|]; simpl; auto.
  destruct (falsy old); simpl; auto.
  match goal with
  | |- context [saveSettings ?s] =>
      destruct (saveSettings_fields s) as [H1 [H2 [H3 _]]];
      destruct (JsMap.get (changeCallbacks (saveSettings s)) key) as [cbs|]
  end.
  - match goal with
    | |- context [forEach_callback ?c ?a ?b ?s] =>
        destruct (forEach_callback_fields c a b s) as [G1 _]
    end.
    simpl in G1. rewrite G1, H1. reflexivity.
  - simpl. rewrite H1. reflexivity.
Qed.

Lemma frame_setSetting key v st :
  let st' := snd (setSetting key v st) in
  defaultSettings st' = defaultSettings st /\
  version st' = version st /\
  storageKey st' = storageKey st.
Proof.
  unfold setSetting.
  destruct (JsMap.get (settings st) key) as [old|]; simpl; auto.
  destruct (falsy old); simpl; auto.
  match goal with
  | |- context [saveSettings ?s] =>
      destruct (saveSettings_fields s) as [_ [H2 [_ [H4 H5]]]];
      destruct (JsMap.get (changeCallbacks (saveSettings s)) key) as [cbs|]
  end.
  - match goal with
    | |- context [forEach_callback ?c ?a ?b ?s] =>
        destruct (forEach_callback_fields c a b s) as [_ [G2 [_ [G4 G5]]]]
    end.
    simpl in G2, G4, G5. rewrite G2, G4, G5, H2, H4, H5. auto.
  - simpl. rewrite H2, H4, H5. auto.
Qed.


Lemma has_setSetting key v st k :
  JsMap.has (settings (snd (setSetting key v st))) k =
  JsMap.has (settings st) k.
Proof.
  rewrite settings_setSetting_untyped.
  destruct (JsMap.has (settings st) key) eqn:Hk; simpl; auto.
  destruct (falsy_entry (settings st) key); simpl; auto.
  rewrite JsMapFacts.has_set.
  destruct (String.eqb key k) eqn:E; auto.
  apply String.eqb_eq in E. subst k. now rewrite Hk.
Qed.

(** A falsy entry stays: [setSetting] refuses to replace it. *)
Lemma falsy_setSetting key v st k :
  falsy_entry (settings (snd (setSetting key v st))) k =
  falsy_entry (settings st) k.
Proof.
  rewrite settings_setSetting_untyped.
  destruct (JsMap.has (settings st) key) eqn:Hk; simpl; auto.
  destruct (falsy_entry (settings st) key) eqn:Hf; simpl; auto.
  unfold falsy_entry at 1. rewrite JsMapFacts.get_set.
  destruct (String.eqb key k) eqn:E; auto.
  apply String.eqb_eq in E. subst k. now rewrite Hf.
Qed.

Lemma forEach_default_fields entries st k :
  let st' := snd (forEach_default entries st) in
  defaultSettings st' = defaultSettings st /\
  version st' = version st /\
  storageKey st' = storageKey st /\
  JsMap.has (settings st') k = JsMap.has (settings st) k /\
  falsy_entry (settings st') k = falsy_entry (settings st) k.
Proof.
  revert st. induction entries as [|[key d] rest IH]; intros st; simpl; auto.
  pose proof (frame_setSetting key d st) as [F1 [F2 F3]].
  pose proof (has_setSetting key d st k) as F4.
  pose proof (falsy_setSetting key d st k) as F5.
  destruct (setSetting key d st) as [[|e] st1]; simpl in *; auto.
  destruct (IH st1) as [H1 [H2 [H3 [H4 H5]]]].
  rewrite H1, H2, H3, H4, H5. auto.
Qed.

Lemma settings_defineSetting_untyped d st :
  settings (snd (defineSetting d st)) =
  match validateSettingDefinition d with
  | Some _ => settings st
  | None =>
      if JsMap.has (settings st) (SettingDefinition.key d) then settings st
      else JsMap.set (settings st) (SettingDefinition.key d)
             (record (SettingDefinition.defaultValue d) true)
  end.
Proof.
  unfold defineSetting.
  destruct (validateSettingDefinition d); simpl; auto.
  now destruct (JsMap.has (settings st) (SettingDefinition.key d)).
Qed.

Lemma defaults_defineSetting d st :
  defaultSettings (snd (defineSetting d st)) =
  match validateSettingDefinition d with
  | Some _ => defaultSettings st
  | None => JsMap.set (defaultSettings st) (SettingDefinition.key d)
              (SettingDefinition.defaultValue d)
  end.
Proof.
  unfold defineSetting.
  destruct (validateSettingDefinition d); simpl; auto.
  now destruct (JsMap.has (settings st) (SettingDefinition.key d)).
Qed.

Lemma version_defineSetting d st :
  version (snd (defineSetting d st)) = version st /\
  storageKey (snd (defineSetting d st)) = storageKey st.
Proof.
  unfold defineSetting.
  destruct (validateSettingDefinition d); simpl; auto.
  now destruct (JsMap.has (settings st) (SettingDefinition.key d)).
Qed.

Lemma falsy_entry_has m k : falsy_entry m k = true -> JsMap.has m k = true.
Proof.
  unfold falsy_entry, JsMap.has. now destruct (JsMap.get m k).
Qed.

Lemma falsy_defineSetting d st k :
  falsy_entry (settings (snd (defineSetting d st))) k =
  falsy_entry (settings st) k.
Proof.
  rewrite settings_defineSetting_untyped.
  destruct (validateSettingDefinition d); auto.
  destruct (JsMap.has (settings st) (SettingDefinition.key d)) eqn:Hk; auto.
  unfold falsy_entry at 1. rewrite JsMapFacts.get_set.
  destruct (String.eqb (SettingDefinition.key d) k) eqn:E; auto.
  apply String.eqb_eq in E. subst k. simpl.
  destruct (falsy_entry (settings st) (SettingDefinition.key d)) eqn:Hf; auto.
  apply falsy_entry_has in Hf. congruence.
Qed.

Lemma has_defineSetting d st k :
  JsMap.has (settings st) k = true ->
  JsMap.has (settings (snd (defineSetting d st))) k = true.
Proof.
  intros Hk. rewrite settings_defineSetting_untyped.
  destruct (validateSettingDefinition d); auto.
  destruct (JsMap.has (settings st) (SettingDefinition.key d)); auto.
  rewrite JsMapFacts.has_set, Hk. apply orb_true_r.
Qed.

Lemma run_cons_untyped op ops st : run (op :: ops) st = run ops (snd (step op st)).
Proof. reflexivity. Qed.

Lemma run_app ops ops' st : run (ops ++ ops') st = run ops' (run ops st).
Proof. unfold run. apply fold_left_app. Qed.

(** What a step does to the shape of the store. *)
Lemma step_shape op st k :
  let st' := snd (step op st) in
  version st' = version st /\
  storageKey st' = storageKey st /\
  falsy_entry (settings st') k = falsy_entry (settings st) k /\
  (JsMap.has (settings st) k = true -> JsMap.has (settings st') k = true) /\
  (JsMap.has (defaultSettings st') k = true ->
   JsMap.has (defaultSettings st) k = true \/
   JsMap.has (settings st') k = true).
Proof.
  destruct op as [d|key v|key| |key c|key c|acc]; simpl.
  - destruct (version_defineSetting d st) as [V1 V2].
    split; [exact V1|]. split; [exact V2|].
    split; [apply falsy_defineSetting|].
    split; [apply has_defineSetting|].
    rewrite defaults_defineSetting, settings_defineSetting_untyped.
    destruct (validateSettingDefinition d); auto.
    rewrite JsMapFacts.has_set.
    destruct (String.eqb (SettingDefinition.key d) k) eqn:E; auto.
    apply String.eqb_eq in E. subst k. intros _. right.
    destruct (JsMap.has (settings st) (SettingDefinition.key d)) eqn:Hk; auto.
    rewrite JsMapFacts.has_set, String.eqb_refl. reflexivity.
  - destruct (frame_setSetting key v st) as [F1 [F2 F3]].
    rewrite F1, F2, F3, has_setSetting, falsy_setSetting.
    repeat split; auto.
  - unfold resetToDefault.
    destruct (JsMap.get (defaultSettings st) key) as [d|]; simpl;
      [|repeat split; auto].
    destruct (frame_setSetting key d st) as [F1 [F2 F3]].
    rewrite F1, F2, F3, has_setSetting, falsy_setSetting.
    repeat split; auto.
  - unfold resetAllToDefaults.
    destruct (forEach_default_fields (defaultSettings st) st k)
      as [F1 [F2 [F3 [F4 F5]]]].
    rewrite F1, F2, F3, F4, F5. repeat split; auto.
  - repeat split; auto.
  - unfold removeSettingChangeListener.
    destruct (JsMap.get (changeCallbacks st) key); simpl;
      repeat split; auto.
  - repeat split; auto.
Qed.

Lemma construct_fields sk ver acc item :
  let st := construct sk ver acc item in
  settings st = loaded item ver /\
  defaultSettings st = JsMap.empty /\
  changeCallbacks st = JsMap.empty /\
  version st = ver /\
  storageKey st = sk.
Proof.
  unfold construct, loaded, loadSettings.
  destruct item as [|found entries|]; simpl; auto.
  destruct (other_version found ver); simpl; auto.
Qed.

Lemma reachable_shape sk ver acc item ops k :
  let st := run ops (construct sk ver acc item) in
  version st = ver /\
  storageKey st = sk /\
  falsy_entry (settings st) k = falsy_entry (loaded item ver) k /\
  (JsMap.has (defaultSettings st) k = true ->
   JsMap.has (settings st) k = true).
Proof.
  induction ops as [|op rest IH] using rev_ind.
  - destruct (construct_fields sk ver acc item) as [H1 [H2 [_ [H4 H5]]]].
    simpl. rewrite H1, H2. repeat split; auto. discriminate.
  - rewrite run_app. simpl in IH.
    set (s := run rest (construct sk ver acc item)) in *.
    change (run [op] s) with (snd (step op s)).
    destruct IH as [I1 [I2 [I3 I4]]].
    destruct (step_shape op s k) as [S1 [S2 [S3 [S4 S5]]]].
    simpl. rewrite S1, S2, S3, I1, I2, I3. repeat split; auto.
    intros Hd. destruct (S5 Hd) as [H|H]; auto.
Qed.


End UntypedFacts.

Lemma get_in (V : Type) (m : JsMap.t V) k v :
  JsMap.get m k = Some v -> In (k, v) m.
Proof.
  induction m as [|[k0 v0] rest IH]; simpl; [discriminate|].
  destruct (String.eqb k0 k) eqn:E.
  - apply String.eqb_eq in E. subst k0. intros [= ->]. now left.
  - intros H. right. now apply IH.
Qed.




(** ** Definitions and defaults agree *)

Lemma definitions_consistent_same st st' :
  same_definitions st st' ->
  definitions_consistent st -> definitions_consistent st'.
Proof.
  intros [H1 [H2 H3]] Hc k ref. rewrite H1, H2, H3. apply Hc.
Qed.

Lemma definitions_consistent_defineSetting d st :
  definitions_consistent st ->
  definitions_consistent (snd (defineSetting d st)).
Proof.
  intros Hc. destruct (validateSettingDefinition d) as [e|] eqn:E.
  - now rewrite (@defineSetting_invalid d st e E).
  - rewrite defineSetting_valid by exact E. simpl.
    assert (G : forall st',
      defaultSettings st' =
        JsMap.set (defaultSettings st) (SettingDefinition.key d)
          (SettingDefinition.defaultValue d) ->
      settingDefinitions st' =
        JsMap.set (settingDefinitions st) (SettingDefinition.key d)
          (length (definitionObjects st)) ->
      definitionObjects st' = (definitionObjects st ++ [d])%list ->
      definitions_consistent st').
    { intros st' H1 H2 H3 k ref. rewrite H1, H2, H3.
      rewrite !JsMapFacts.get_set.
      destruct (String.eqb (SettingDefinition.key d) k) eqn:Ek.
      - intros Href. injection Href as <-.
        exists d. apply String.eqb_eq in Ek. repeat split; auto.
        rewrite nth_error_app2 by lia. now rewrite Nat.sub_diag.
      - intros Href. destruct (Hc k ref Href) as [d0 [Hn [Hk Hd]]].
        exists d0. repeat split; auto.
        rewrite nth_error_app1; auto.
        apply nth_error_Some. congruence. }
    destruct (JsMap.has (settings st) (SettingDefinition.key d));
      apply G; reflexivity.
Qed.

Lemma definitions_consistent_step op st :
  definitions_consistent st -> definitions_consistent (snd (step op st)).
Proof.
  intros Hc. destruct op as [d| | | | | | |].
  1: now apply definitions_consistent_defineSetting.
  all: eapply definitions_consistent_same; [|exact Hc];
       apply same_definitions_step; intros d0; discriminate.
Qed.

Lemma definitions_consistent_run ops st :
  definitions_consistent st -> definitions_consistent (run ops st).
Proof.
  revert st. induction ops as [|op ops IH]; intros st Hc; auto.
  rewrite run_cons. apply IH. now apply definitions_consistent_step.
Qed.

Lemma definitions_consistent_reachable sk ver acc item ops :
  definitions_consistent (run ops (construct sk ver acc item)).
Proof.
  apply definitions_consistent_run. intros k ref.
  destruct (definitions_construct sk ver acc item) as [_ [H2 _]].
  rewrite H2. discriminate.
Qed.

Lemma definition_of_default st k d :
  definitions_consistent st ->
  definition_of st k = Some d ->
  JsMap.get (defaultSettings st) k = Some (SettingDefinition.defaultValue d)
  /\ SettingDefinition.key d = k.
Proof.
  unfold definition_of. intros Hc Hd.
  destruct (JsMap.get (settingDefinitions st) k) as [ref|] eqn:E;
    [|discriminate].
  destruct (Hc k ref E) as [d0 [Hn [Hk Hdef]]].
  assert (d0 = d) by congruence. subst d0. auto.
Qed.


(** ** Equality of JSON texts *)

Lemma same_json_refl v : same_json (Some v) (Some v) = true.
Proof.
  unfold same_json. destruct v as [s|n|b]; simpl.
  - apply String.eqb_refl.
  - destruct n; simpl; auto.
    rewrite Pos.eqb_refl, Z.eqb_refl. now destruct s.
  - now destruct b.
Qed.

Lemma SFeqb_finite s m e s' m' e' :
  SFeqb (S754_finite s m e) (S754_finite s' m' e') =
  Bool.eqb s s' && Pos.eqb m m' && Z.eqb e e'.
Proof.
  unfold SFeqb, SFcompare.
  change (Pos.compare_cont Eq m m') with (Pos.compare m m').
  destruct (Z.eqb_spec e e') as [He|He].
  - subst e'. rewrite Z.compare_refl, andb_true_r.
    destruct (Pos.eqb_spec m m') as [Hm|Hm].
    + subst m'. rewrite Pos.compare_refl. now destruct s, s'.
    + rewrite andb_false_r.
      destruct (Pos.compare_spec m m') as [Hc|Hc|Hc]; try contradiction;
        now destruct s, s'.
  - rewrite andb_false_r.
    destruct (Z.compare_spec e e') as [Hc|Hc|Hc]; try contradiction;
      now destruct s, s'.
Qed.

(** The store's test [JSON.stringify(a) === JSON.stringify(b)] against
    deep equality: they agree except on two non-finite numbers, which
    all print as [null]. *)
Lemma same_json_deep_equals a b :
  same_json (Some a) (Some b) = deep_equals a b || both_non_finite a b.
Proof.
  unfold same_json.
  destruct a as [s|x|p], b as [t|y|q]; simpl;
    try (now rewrite orb_false_r);
    try (now destruct p); try (now destruct q); try (now destruct p, q);
    try (now destruct x); try (now destruct y);
    try (now destruct x, q); try (now destruct y, p).
  destruct x as [sx|sx| |sx mx ex], y as [sy|sy| |sy my ey]; simpl; auto;
    try (now destruct sx, sy); try (now destruct sx); try (now destruct sy).
  rewrite SFeqb_finite. now rewrite orb_false_r.
Qed.

(** ** Writing and resetting a value *)

Lemma setSetting_stores key v st old :
  JsMap.get (settings st) key = Some old ->
  JsMap.get (settings (snd (setSetting key v st))) key =
  Some (written_entry st key v).
Proof.
  intros Hold. rewrite settings_setSetting, Hold.
  apply JsMapFacts.get_set_same.
Qed.

Lemma defined_has_value sk ver acc item ops k d :
  let st := run ops (construct sk ver acc item) in
  definition_of st k = Some d ->
  JsMap.get (defaultSettings st) k = Some (SettingDefinition.defaultValue d)
  /\ exists old, JsMap.get (settings st) k = Some old.
Proof.
  intros st Hd.
  destruct (@definition_of_default st k d
              (definitions_consistent_reachable sk ver acc item ops) Hd)
    as [Hdef _].
  split; [exact Hdef|].
  apply JsMapFacts.has_true.
  apply (@defined_keys_have_values sk ver acc item ops k).
  apply JsMapFacts.has_true. eauto.
Qed.



(** The round-trip property with deep equality, as the specification
    words it, does not hold of the code on numbers that are not finite:
    every one of them is written as [null] by [JSON.stringify]. *)
Lemma isDefault_true_for_other_non_finite_number :
  ~ (forall (sk ver : string) (acc : SettingsStorage.t -> bool)
            (item : StoredItem) (ops : list Op) (k : string)
            (v : JsValue) (d : SettingDef),
        let st := run ops (construct sk ver acc item) in
        definition_of st k = Some d ->
        typeof v = typeof (SettingDefinition.defaultValue d) ->
        getSetting k (snd (setSetting k v st)) = Value v /\
        (isDefault k (snd (setSetting k v st)) = true <->
         deep_equals v (SettingDefinition.defaultValue d) = true)).
Proof.
  intros H.
  destruct (H "app" "1.0" accept_all ItemAbsent [OpDefineSetting maxRetries]
              "maxRetries" (VNumber NaN) maxRetries eq_refl eq_refl)
    as [_ [H1 _]].
  specialize (H1 eq_refl). discriminate H1.
Qed.

(** What the code guarantees: for every defined key and every value [v],
    [setSetting(key, v)] followed by [getSetting(key)] returns exactly
    [v], and [isDefault(key)] afterwards is true iff [v] and the
    definition's default value have the same JSON text: that is, iff [v]
    deep-equals the default, or both are non-finite numbers.  For
    strings, booleans and finite numbers this is deep equality. *)
Lemma setSetting_round_trip :
  forall (sk ver : string) (acc : SettingsStorage.t -> bool)
         (item : StoredItem) (ops : list Op) (k : string)
         (v : JsValue) (d : SettingDef),
    let st := run ops (construct sk ver acc item) in
    definition_of st k = Some d ->
    getSetting k (snd (setSetting k v st)) = Value v /\
    isDefault k (snd (setSetting k v st)) =
      same_json (Some v) (Some (SettingDefinition.defaultValue d)) /\
    isDefault k (snd (setSetting k v st)) =
      deep_equals v (SettingDefinition.defaultValue d)
      || both_non_finite v (SettingDefinition.defaultValue d) /\
    (both_non_finite v (SettingDefinition.defaultValue d) = false ->
     (isDefault k (snd (setSetting k v st)) = true <->
      deep_equals v (SettingDefinition.defaultValue d) = true)).
Proof.
  intros sk ver acc item ops k v d st Hd.
  destruct (defined_has_value sk ver acc item ops k Hd) as [Hdef [old Hold]].
  fold st in Hdef, Hold.
  unfold getSetting, isDefault.
  rewrite (setSetting_stores k v st Hold). simpl. rewrite Hdef.
  split; [reflexivity|]. split; [reflexivity|].
  rewrite same_json_deep_equals. split; [reflexivity|].
  intros Hnf. rewrite Hnf, orb_false_r. tauto.
Qed.

(** C7 at a failing input.  [maxRetries] is a number setting whose
    default is [Infinity] (validation accepts it).  After
    [setSetting("maxRetries", NaN)], [getSetting] returns [NaN], as the
    claim says, but [isDefault("maxRetries")] is true although [NaN]
    neither deep-equals nor [===] the default: both are written as [null]
    by [JSON.stringify].  On a finite value the flag is right. *)
Theorem isDefault_conflates_non_finite_numbers :
  let st := run [OpDefineSetting maxRetries]
              (construct "app" "1.0" accept_all ItemAbsent) in
  let st' := snd (setSetting "maxRetries" (VNumber NaN) st) in
  let st'' := snd (setSetting "maxRetries" (VNumber (js_number 3)) st) in
  fst (defineSetting maxRetries (construct "app" "1.0" accept_all ItemAbsent))
    = Returned /\
  getSetting "maxRetries" st' = Value (VNumber NaN) /\
  isDefault "maxRetries" st' = true /\
  deep_equals (VNumber NaN) (SettingDefinition.defaultValue maxRetries)
    = false /\
  strict_equals (VNumber NaN) (SettingDefinition.defaultValue maxRetries)
    = false /\
  isDefault "maxRetries" st'' = false.
Proof.
  intros st st' st''.
  destruct (@setSetting_round_trip "app" "1.0" accept_all ItemAbsent
              [OpDefineSetting maxRetries] "maxRetries" (VNumber NaN)
              maxRetries eq_refl) as [Hget [Hflag _]].
  split; [reflexivity|]. split; [exact Hget|]. split; [exact Hflag|].
  repeat split.
Qed.

(** ** The order of effects in [setSetting] *)

Lemma trace_saveSettings st :
  trace (saveSettings st) = (trace st ++ [save_event st])%list.
Proof.
  unfold saveSettings, save_event. now destruct (storageAccepts st _).
Qed.

Lemma forEach_callback_trace callbacks v old st :
  trace (snd (forEach_callback callbacks v old st)) =
    (trace st ++
     map (fun c => EvCallback (cb_ref c) v old) (invoked callbacks v old))%list
  /\ fst (forEach_callback callbacks v old st) =
     dispatch_outcome callbacks v old.
Proof.
  revert st. induction callbacks as [|c rest IH]; intros st; simpl.
  - now rewrite app_nil_r.
  - destruct (cb_returns c v old); simpl.
    + destruct (IH (emit (EvCallback (cb_ref c) v old) st)) as [H1 H2].
      rewrite H1, H2. simpl. now rewrite <- app_assoc.
    + auto.
Qed.

Lemma invoked_all callbacks v old :
  (forall c, In c callbacks -> cb_returns c v old = true) ->
  invoked callbacks v old = callbacks /\
  dispatch_outcome callbacks v old = Returned.
Proof.
  induction callbacks as [|c rest IH]; intros Hall; simpl; auto.
  rewrite (Hall c (or_introl eq_refl)).
  destruct IH as [H1 H2]; [intros c' Hc'; apply Hall; now right|].
  now rewrite H1, H2.
Qed.

Lemma setSetting_effects key v st old :
  JsMap.get (settings st) key = Some old ->
  let stored :=
    with_settings st (JsMap.set (settings st) key (written_entry st key v)) in
  trace (snd (setSetting key v st)) =
    (trace st ++
     save_event stored ::
     map (fun c => EvCallback (cb_ref c) v (SettingValue.value old))
       (invoked (callbacks_of st key) v (SettingValue.value old)))%list /\
  fst (setSetting key v st) =
    dispatch_outcome (callbacks_of st key) v (SettingValue.value old).
Proof.
  intros Hold stored. unfold setSetting. rewrite Hold.
  fold (written_entry st key v). fold stored.
  assert (Hcb : changeCallbacks (saveSettings stored) = changeCallbacks st).
  { destruct (same_frame_saveSettings stored) as [H _]. exact H. }
  rewrite Hcb. unfold callbacks_of.
  destruct (JsMap.get (changeCallbacks st) key) as [cbs|]; simpl.
  - destruct (forEach_callback_trace cbs v (SettingValue.value old)
                (saveSettings stored)) as [H1 H2].
    rewrite H1, H2, trace_saveSettings. simpl.
    now rewrite <- app_assoc.
  - now rewrite trace_saveSettings.
Qed.

(** The stored flag against deep equality: the code compares the JSON
    texts of the value and of the default. *)
Lemma written_flag st key v d :
  JsMap.get (defaultSettings st) key = Some d ->
  written_entry st key v =
  {| SettingValue.value := v;
     SettingValue.isDefault := deep_equals v d || both_non_finite v d |}.
Proof.
  intros Hd. unfold written_entry. now rewrite Hd, same_json_deep_equals.
Qed.

(** C5.  The order of the effects of [setSetting] is the claimed one:
    the flag is computed, the stored entry is replaced, the updated store
    is saved, and only then the callbacks subscribed to the key are called
    with [(value, previousValue)], in registration order (all of them
    when each returns, up to the first that throws otherwise).  The flag,
    however, is not computed by deep equality: it is true when the value
    deep-equals the default and also when both are non-finite numbers,
    the defect of C7. *)
Theorem setSetting_flag_then_persist_then_notify :
  forall (st : UserScriptSettings) (key : string) (v d : JsValue)
         (old : SettingValue.t),
    JsMap.get (settings st) key = Some old ->
    JsMap.get (defaultSettings st) key = Some d ->
    let entry :=
      {| SettingValue.value := v;
         SettingValue.isDefault := deep_equals v d || both_non_finite v d |}
    in
    let stored := with_settings st (JsMap.set (settings st) key entry) in
    let callbacks := callbacks_of st key in
    let previous := SettingValue.value old in
    let st' := snd (setSetting key v st) in
    JsMap.get (settings st') key = Some entry /\
    settings st' = JsMap.set (settings st) key entry /\
    trace st' =
      (trace st ++
       save_event stored ::
       map (fun c => EvCallback (cb_ref c) v previous)
         (invoked callbacks v previous))%list /\
    fst (setSetting key v st) = dispatch_outcome callbacks v previous /\
    ((forall c, In c callbacks -> cb_returns c v previous = true) ->
     invoked callbacks v previous = callbacks /\
     fst (setSetting key v st) = Returned) /\
    (forall c,
       callbacks_of (onSettingChange key c st) key =
       if existsb (same_callback c) callbacks then callbacks
       else (callbacks ++ [c])%list).
Proof.
  intros st key v d old Hold Hd entry stored callbacks previous st'.
  destruct (@setSetting_effects key v st old Hold) as [Ht Ho].
  pose proof (@written_flag st key v d Hd) as Hw. fold entry in Hw.
  rewrite Hw in Ht. fold stored in Ht.
  assert (Hs : settings st' = JsMap.set (settings st) key entry).
  { unfold st'. now rewrite settings_setSetting, Hold, Hw. }
  split; [rewrite Hs; apply JsMapFacts.get_set_same|].
  split; [exact Hs|]. split; [exact Ht|]. split; [exact Ho|]. split.
  - intros Hall. destruct (invoked_all callbacks v previous Hall) as [H1 H2].
    split; [exact H1|]. now rewrite Ho.
  - intros c. unfold callbacks_of at 1, onSettingChange. simpl.
    rewrite JsMapFacts.get_set_same. reflexivity.
Qed.

(** [maxRetries] has the default [Infinity] and two subscribers;
    [setSetting("maxRetries", NaN)] stores the flag [true], saves, and
    calls both subscribers in order. *)
Lemma setSetting_flag_then_persist_then_notify_witness :
  let st := run [OpDefineSetting maxRetries;
                 OpOnSettingChange "maxRetries" logger;
                 OpOnSettingChange "maxRetries" repaint]
              (construct "app" "1.0" accept_all ItemAbsent) in
  let entry := {| SettingValue.value := VNumber NaN;
                  SettingValue.isDefault := true |} in
  JsMap.get (settings (snd (setSetting "maxRetries" (VNumber NaN) st)))
    "maxRetries" = Some entry /\
  deep_equals (VNumber NaN) (VNumber Infinity) = false /\
  trace (snd (setSetting "maxRetries" (VNumber NaN) st)) =
    [EvSetItem "app"
       {| SettingsStorage.version := "1.0";
          SettingsStorage.settings := [("maxRetries", entry)] |};
     EvCallback 1 (VNumber NaN) (VNumber Infinity);
     EvCallback 2 (VNumber NaN) (VNumber Infinity)].
Proof.
  intros st entry.
  destruct (@setSetting_flag_then_persist_then_notify st "maxRetries"
              (VNumber NaN) (VNumber Infinity)
              {| SettingValue.value := VNumber Infinity;
                 SettingValue.isDefault := true |} eq_refl eq_refl)
    as [Hs [_ [Ht _]]].
  split; [exact Hs|]. split; [reflexivity | exact Ht].
Defined.

(** C8: when the write of [saveSettings] after [setSetting(key, v)] is
    refused, the failure is reported with [console.error] and nothing is
    written; the failure throws nothing to the caller -- the call ends as
    the dispatch of the callbacks ends, exactly as it does when the write
    succeeds, and normally when the callbacks return --; and the value
    store holds [v] for the key. *)
Theorem setSetting_survives_failed_save :
  forall (st : UserScriptSettings) (key : string) (v : JsValue)
         (old : SettingValue.t),
    JsMap.get (settings st) key = Some old ->
    storageAccepts st
      {| SettingsStorage.version := version st;
         SettingsStorage.settings :=
           JsMap.set (settings st) key (written_entry st key v) |} = false ->
    let callbacks := callbacks_of st key in
    let previous := SettingValue.value old in
    let st' := snd (setSetting key v st) in
    trace st' =
      (trace st ++
       EvConsoleError ErrorSavingSettings ::
       map (fun c => EvCallback (cb_ref c) v previous)
         (invoked callbacks v previous))%list /\
    JsMap.get (settings st') key = Some (written_entry st key v) /\
    getSetting key st' = Value v /\
    fst (setSetting key v st) = dispatch_outcome callbacks v previous /\
    fst (setSetting key v st) =
      fst (setSetting key v (with_storageAccepts st accept_all)) /\
    settings st' =
      settings (snd (setSetting key v (with_storageAccepts st accept_all))) /\
    ((forall c, In c callbacks -> cb_returns c v previous = true) ->
     fst (setSetting key v st) = Returned).
Proof.
  intros st key v old Hold Hrefused callbacks previous st'.
  destruct (@setSetting_effects key v st old Hold) as [Ht Ho].
  assert (Hs : JsMap.get (settings st') key = Some (written_entry st key v))
    by (apply (setSetting_stores key v st Hold)).
  split.
  { unfold st'. rewrite Ht. unfold save_event. simpl.
    now rewrite Hrefused. }
  split; [exact Hs|]. split.
  { unfold getSetting. now rewrite Hs. }
  split; [exact Ho|]. split.
  { rewrite Ho.
    destruct (@setSetting_effects key v (with_storageAccepts st accept_all)
                old Hold) as [_ Ho'].
    now rewrite Ho'. }
  split.
  { unfold st'. rewrite !settings_setSetting. simpl. now rewrite Hold. }
  intros Hall. rewrite Ho. now apply invoked_all.
Qed.

Lemma setSetting_survives_failed_save_witness :
  let st := run [OpDefineSetting theme_light;
                 OpOnSettingChange "theme" logger]
              (construct "app" "1.0" refuse_all ItemAbsent) in
  let st' := snd (setSetting "theme" (VString "dark") st) in
  trace st' = [EvConsoleError ErrorSavingSettings;
               EvCallback 1 (VString "dark") (VString "light")] /\
  getSetting "theme" st' = Value (VString "dark") /\
  fst (setSetting "theme" (VString "dark") st) = Returned.
Proof.
  intros st st'.
  destruct (@setSetting_survives_failed_save st "theme" (VString "dark")
              {| SettingValue.value := VString "light";
                 SettingValue.isDefault := true |} eq_refl eq_refl)
    as [Ht [_ [Hg [Ho _]]]].
  split; [exact Ht|]. split; [exact Hg | exact Ho].
Defined.

(** ** A run of definitions *)

Lemma step_define_settings d st k :
  JsMap.get (settings (snd (step (OpDefineSetting d) st))) k =
  match JsMap.get (settings st) k with
  | Some sv => Some sv
  | None => if registers_key k d then Some (default_entry d) else None
  end.
Proof.
  unfold registers_key. destruct (valid_definition d) eqn:E.
  - apply valid_definition_true in E. simpl.
    rewrite settings_defineSetting by exact E. now rewrite andb_true_r.
  - rewrite step_invalid_definition by exact E. rewrite andb_false_r.
    now destruct (JsMap.get (settings st) k).
Qed.

Lemma step_define_defaults d st k :
  JsMap.get (defaultSettings (snd (step (OpDefineSetting d) st))) k =
  if registers_key k d then Some (SettingDefinition.defaultValue d)
  else JsMap.get (defaultSettings st) k.
Proof.
  unfold registers_key. destruct (valid_definition d) eqn:E.
  - apply valid_definition_true in E. simpl.
    rewrite defaultSettings_defineSetting by exact E. now rewrite andb_true_r.
  - rewrite step_invalid_definition by exact E. now rewrite andb_false_r.
Qed.

Lemma settings_run_definitions ds st k :
  JsMap.get (settings (run (map OpDefineSetting ds) st)) k =
  match JsMap.get (settings st) k with
  | Some sv => Some sv
  | None => option_map default_entry (first_registration ds k)
  end.
Proof.
  revert st. induction ds as [|d rest IH]; intros st; simpl map.
  - simpl. now destruct (JsMap.get (settings st) k).
  - rewrite run_cons, IH, step_define_settings.
    unfold first_registration. simpl.
    destruct (JsMap.get (settings st) k); auto.
    now destruct (registers_key k d).
Qed.

Lemma defaults_run_definitions ds st k :
  JsMap.get (defaultSettings (run (map OpDefineSetting ds) st)) k =
  match last_registration ds k with
  | Some d => Some (SettingDefinition.defaultValue d)
  | None => JsMap.get (defaultSettings st) k
  end.
Proof.
  revert st. induction ds as [|d rest IH]; intros st; simpl map; auto.
  rewrite run_cons, IH, step_define_defaults. simpl.
  destruct (last_registration rest k); auto.
  now destruct (registers_key k d).
Qed.

Lemma registers_key_key k d :
  registers_key k d = true -> SettingDefinition.key d = k.
Proof.
  unfold registers_key. intros H. apply andb_true_iff in H.
  now apply String.eqb_eq.
Qed.

Lemma last_registration_none ds k :
  ~ In k (map SettingDefinition.key ds) -> last_registration ds k = None.
Proof.
  induction ds as [|d rest IH]; simpl; auto. intros Hin.
  rewrite IH by tauto.
  destruct (registers_key k d) eqn:E; auto.
  apply registers_key_key in E. tauto.
Qed.

(** When no key is registered twice, the first registration of a key is
    its last. *)
Lemma first_registration_last ds k :
  NoDup (map SettingDefinition.key ds) ->
  first_registration ds k = last_registration ds k.
Proof.
  unfold first_registration.
  induction ds as [|d rest IH]; simpl; auto. intros Hnd.
  inversion Hnd as [|x l Hnotin Hnd']; subst.
  destruct (registers_key k d) eqn:E.
  - apply registers_key_key in E. subst k.
    now rewrite last_registration_none.
  - rewrite IH by exact Hnd'. now destruct (last_registration rest k).
Qed.

(** C4, as stated, fails when a key is registered a second time with
    another default: the value created by the first registration stays.
    After a snapshot of another version is discarded, [theme] is defined
    with default [light] and then with default [dark]; the stored value is
    [light], which is not the default of [theme]. *)
Lemma redefined_setting_keeps_first_default :
  ~ (forall (sk ver : string) (acc : SettingsStorage.t -> bool)
            (data : SettingsStorage.t) (ds : list SettingDef),
        String.eqb (SettingsStorage.version data) ver = false ->
        let st := run (map OpDefineSetting ds)
                    (construct sk ver acc (ItemSnapshot data)) in
        forall k dv,
          JsMap.get (defaultSettings st) k = Some dv ->
          JsMap.get (settings st) k =
          Some {| SettingValue.value := dv; SettingValue.isDefault := true |}).
Proof.
  intros H.
  specialize (H "app" "2.0" accept_all stored_theme [theme_light; theme_dark]
                eq_refl "theme" (VString "dark") eq_refl).
  vm_compute in H. discriminate H.
Qed.

(** C4, amended: a persisted snapshot whose version differs from the
    configured one is discarded whole -- the value store is empty after
    construction and nothing is written or reported --, and after any
    definitions are registered every defined setting holds the default
    value of its first successful registration, with [isDefault = true],
    never a value of the snapshot.  That value is the setting's current
    default unless the key was registered again with another default: it
    is whenever no key is registered twice. *)
Theorem version_mismatch_resets_to_defaults :
  forall (sk ver : string) (acc : SettingsStorage.t -> bool)
         (data : SettingsStorage.t) (ds : list SettingDef),
    String.eqb (SettingsStorage.version data) ver = false ->
    let st0 := construct sk ver acc (ItemSnapshot data) in
    let st := run (map OpDefineSetting ds) st0 in
    settings st0 = JsMap.empty /\
    trace st0 = [] /\
    (forall k, JsMap.get (settings st) k =
               option_map default_entry (first_registration ds k)) /\
    (forall k, JsMap.get (defaultSettings st) k =
               option_map SettingDefinition.defaultValue
                 (last_registration ds k)) /\
    (NoDup (map SettingDefinition.key ds) ->
     forall k dv,
       JsMap.get (defaultSettings st) k = Some dv ->
       JsMap.get (settings st) k =
       Some {| SettingValue.value := dv; SettingValue.isDefault := true |}).
Proof.
  intros sk ver acc data ds Hver st0 st.
  assert (H0 : st0 = fresh sk ver acc).
  { unfold st0. rewrite construct_state. now rewrite Hver. }
  assert (Hs : forall k, JsMap.get (settings st) k =
                         option_map default_entry (first_registration ds k)).
  { intros k. unfold st. rewrite settings_run_definitions, H0. reflexivity. }
  assert (Hd : forall k, JsMap.get (defaultSettings st) k =
                         option_map SettingDefinition.defaultValue
                           (last_registration ds k)).
  { intros k. unfold st. rewrite defaults_run_definitions, H0. simpl.
    now destruct (last_registration ds k). }
  rewrite H0. repeat split; auto.
  intros Hnd k dv Hdv. rewrite Hs, (@first_registration_last ds k Hnd).
  rewrite Hd in Hdv.
  destruct (last_registration ds k) as [d|]; simpl in *; [|discriminate].
  injection Hdv as <-. reflexivity.
Qed.

Lemma version_mismatch_resets_to_defaults_witness :
  let st := run (map OpDefineSetting [theme_light; refreshInterval])
              (construct "app" "2.0" accept_all (ItemSnapshot stored_theme)) in
  getSetting "theme" st = Value (VString "light") /\
  isDefault "theme" st = true.
Proof.
  intros st.
  destruct (@version_mismatch_resets_to_defaults "app" "2.0" accept_all
              stored_theme [theme_light; refreshInterval] eq_refl)
    as [_ [_ [Hs _]]].
  unfold getSetting, isDefault. fold st in Hs. rewrite (Hs "theme").
  split; reflexivity.
Defined.

(** ** Keys of a map are unique *)

Lemma keys_set (V : Type) (m : JsMap.t V) k v k' :
  In k' (JsMap.keys (JsMap.set m k v)) <-> k' = k \/ In k' (JsMap.keys m).
Proof.
  unfold JsMap.keys. induction m as [|[k0 v0] rest IH]; simpl.
  - split; [intros [H|[]]; auto | intros [H|[]]; auto].
  - destruct (String.eqb k0 k) eqn:E; simpl.
    + apply String.eqb_eq in E. subst k0. intuition congruence.
    + rewrite IH. intuition congruence.
Qed.

Lemma nodup_keys_set (V : Type) (m : JsMap.t V) k v :
  NoDup (JsMap.keys m) -> NoDup (JsMap.keys (JsMap.set m k v)).
Proof.
  induction m as [|[k0 v0] rest IH]; simpl; intros Hnd.
  - constructor; [intros [] | constructor].
  - inversion Hnd as [|x l Hnotin Hnd']; subst.
    destruct (String.eqb k0 k) eqn:E; simpl.
    + constructor; auto.
    + constructor; [|now apply IH].
      intros Hin. apply (keys_set rest k v k0) in Hin.
      destruct Hin as [Hin|Hin]; [|contradiction].
      subst k0. now rewrite String.eqb_refl in E.
Qed.





(** ** Operations and the heap *)












(** ** What [getAllSettings] hands out *)






(** * Further properties of the code *)

(** ** Validation rules, type by type *)

Lemma SFcompare_antisym x y :
  SFcompare y x = option_map CompOpp (SFcompare x y).
Proof.
  destruct x as [sx|sx| |sx mx ex], y as [sy|sy| |sy my ey]; simpl; auto;
    try (now destruct sx); try (now destruct sy); try (now destruct sx, sy).
  change (Pos.compare_cont Eq mx my) with (Pos.compare mx my).
  change (Pos.compare_cont Eq my mx) with (Pos.compare my mx).
  rewrite (Z.compare_antisym ex ey), (Pos.compare_antisym mx my).
  destruct sx, sy; simpl; auto;
    destruct (Z.compare ex ey); simpl; auto;
    destruct (Pos.compare mx my); reflexivity.
Qed.

Lemma SFcompare_defined x y :
  is_NaN x = false -> is_NaN y = false -> exists c, SFcompare x y = Some c.
Proof.
  destruct x as [sx|sx| |sx mx ex], y as [sy|sy| |sy my ey]; simpl;
    intros Hx Hy; try discriminate; eauto.
Qed.

(** Between two numbers, "not less" is "greater or equal". *)
Lemma not_lt_le x y :
  is_NaN x = false -> is_NaN y = false ->
  js_lt x y = false -> js_le y x = true.
Proof.
  unfold js_lt, js_le, SFltb, SFleb. intros Hx Hy.
  rewrite (SFcompare_antisym x y).
  destruct (SFcompare_defined x y Hx Hy) as [c ->]. simpl.
  now destruct c.
Qed.

Lemma validated_choice d :
  validateSettingDefinition d = None ->
  SettingDefinition.type d = DROPDOWN \/ SettingDefinition.type d = RADIO ->
  exists choices choice,
    choices_of d = Some choices /\ In choice choices /\
    strict_equals (choice_value choice) (SettingDefinition.defaultValue d)
      = true.
Proof.
  intros Hv Ht. unfold validateSettingDefinition in Hv. unfold choices_of.
  destruct Ht as [Ht|Ht]; rewrite Ht in *.
  - destruct (option_map opt_dropdown (SettingDefinition.options d))
      as [[choices|]|]; try discriminate.
    destruct (choices_include choices (SettingDefinition.defaultValue d))
      eqn:E; [|discriminate].
    apply existsb_exists in E. destruct E as [choice [Hin Heq]].
    exists choices, choice. auto.
  - destruct (option_map opt_radio (SettingDefinition.options d))
      as [[choices|]|]; try discriminate.
    destruct (choices_include choices (SettingDefinition.defaultValue d))
      eqn:E; [|discriminate].
    apply existsb_exists in E. destruct E as [choice [Hin Heq]].
    exists choices, choice. auto.
Qed.



(** X2. A validated numeric default lies within the declared bounds:
    for [NUMBER], above [min] and below [max] where they are given, and
    for [SLIDER], whose options are then present, between its [min] and
    [max] -- provided the default and the bound are numbers proper, not
    [NaN]. *)
Theorem validated_number_within_bounds :
  forall (d : SettingDef) (n : spec_float),
    validateSettingDefinition d = None ->
    SettingDefinition.defaultValue d = VNumber n ->
    is_NaN n = false ->
    (SettingDefinition.type d = NUMBER ->
     forall num,
       option_map opt_number (SettingDefinition.options d) = Some (Some num) ->
       (forall lo, number_min num = Some lo -> is_NaN lo = false ->
                   js_le lo n = true) /\
       (forall hi, number_max num = Some hi -> is_NaN hi = false ->
                   js_le n hi = true)) /\
    (SettingDefinition.type d = SLIDER ->
     exists sl,
       option_map opt_slider (SettingDefinition.options d) = Some (Some sl) /\
       (is_NaN (slider_min sl) = false -> js_le (slider_min sl) n = true) /\
       (is_NaN (slider_max sl) = false -> js_le n (slider_max sl) = true)).
Proof.
  intros d n Hv Hd Hn. unfold validateSettingDefinition in Hv.
  rewrite Hd in Hv. split; intros Ht; rewrite Ht in Hv.
  - intros num Hnum. rewrite Hnum in Hv. split.
    + intros lo Hlo Hnan. rewrite Hlo in Hv.
      destruct (js_lt n lo) eqn:E; [discriminate|].
      now apply not_lt_le.
    + intros hi Hhi Hnan. rewrite Hhi in Hv.
      destruct (match number_min num with
                | Some lo => js_lt n lo
                | None => false
                end); [discriminate|].
      destruct (js_gt n hi) eqn:E; [discriminate|].
      now apply not_lt_le.
  - destruct (option_map opt_slider (SettingDefinition.options d))
      as [[sl|]|]; try discriminate.
    exists sl. split; [reflexivity|].
    destruct (js_lt n (slider_min sl)) eqn:E1; [discriminate|].
    destruct (js_gt n (slider_max sl)) eqn:E2; [discriminate|].
    split; intros Hnan; now apply not_lt_le.
Qed.

Lemma validated_number_within_bounds_witness :
  js_le (js_number 0) (js_number 50) = true /\
  js_le (js_number 50) (js_number 100) = true.
Proof.
  destruct (@validated_number_within_bounds volume (js_number 50)
              eq_refl eq_refl eq_refl) as [_ H].
  destruct (H eq_refl) as [sl [Hsl [H1 H2]]].
  injection Hsl as <-. split; [exact (H1 eq_refl) | exact (H2 eq_refl)].
Defined.

Lemma NaN_not_lt x : js_lt NaN x = false /\ js_gt NaN x = false.
Proof. now destruct x. Qed.

(** X3. [NaN] passes every bounds check: a [NUMBER] definition whose
    default is [NaN] is accepted whatever its options say, and a [SLIDER]
    definition whose default is [NaN] is accepted as soon as it has
    slider options, whatever their [min] and [max]. *)
Theorem NaN_default_passes_bounds :
  forall d : SettingDef,
    SettingDefinition.defaultValue d = VNumber NaN ->
    (SettingDefinition.type d = NUMBER -> validateSettingDefinition d = None)
    /\
    (SettingDefinition.type d = SLIDER ->
     forall sl,
       option_map opt_slider (SettingDefinition.options d) = Some (Some sl) ->
       validateSettingDefinition d = None).
Proof.
  intros d Hd. unfold validateSettingDefinition. rewrite Hd.
  split; intros Ht; rewrite Ht.
  - destruct (option_map opt_number (SettingDefinition.options d))
      as [[num|]|]; auto.
    destruct (number_min num) as [lo|], (number_max num) as [hi|];
      rewrite ?(proj1 (NaN_not_lt _)), ?(proj2 (NaN_not_lt _)); reflexivity.
  - intros sl Hsl. rewrite Hsl.
    now rewrite (proj1 (NaN_not_lt _)), (proj2 (NaN_not_lt _)).
Qed.

Lemma NaN_default_passes_bounds_witness :
  validateSettingDefinition
    (setting_with "volume" SLIDER (VNumber NaN)
       (slider_options (js_number 0) (js_number 100))) = None.
Proof.
  destruct (@NaN_default_passes_bounds
              (setting_with "volume" SLIDER (VNumber NaN)
                 (slider_options (js_number 0) (js_number 100))) eq_refl)
    as [_ H].
  exact (H eq_refl _ eq_refl).
Defined.

Lemma length_gt_integer n m e limit :
  holds_integer m e limit ->
  length_gt n (S754_finite false m e) = Nat.ltb limit n.
Proof.
  unfold length_gt. intros [[He Hv]|[He Hv]].
  - destruct (Z.leb_spec 0 e) as [_|Hneg]; [|lia].
    rewrite <- Hv.
    destruct (Z.ltb_spec (Z.of_nat limit) (Z.of_nat n)) as [H|H];
      destruct (Nat.ltb_spec limit n) as [H'|H']; auto; lia.
  - destruct (Z.leb_spec 0 e) as [Hpos|_]; [lia|].
    rewrite Hv.
    assert (Hp : (0 < 2 ^ (- e))%Z) by (apply Z.pow_pos_nonneg; lia).
    destruct (Z.ltb_spec (Z.of_nat limit * 2 ^ (- e))
                (Z.of_nat n * 2 ^ (- e))) as [H|H];
      destruct (Nat.ltb_spec limit n) as [H'|H']; auto.
    + apply Z.mul_lt_mono_pos_r in H; [lia | exact Hp].
    + apply Z.mul_le_mono_pos_r in H; [lia | exact Hp].
Qed.

(** X4. The length limit of a text setting.  A [maxLength] that is
    falsy -- [0], [-0] or [NaN] -- counts as no limit at all, like a
    missing one: every string is accepted.  A [maxLength] holding an
    integer accepts the default exactly when its length, counted in
    UTF-16 code units, is at most that integer.  [Infinity] accepts
    every string; a negative [maxLength] refuses every string, the empty
    one included. *)
Theorem text_maxLength_zero_is_no_limit :
  forall (d : SettingDef) (s : string) (txt : TextOptions),
    SettingDefinition.type d = TEXT ->
    SettingDefinition.defaultValue d = VString s ->
    option_map opt_text (SettingDefinition.options d) = Some (Some txt) ->
    (text_maxLength txt = None -> validateSettingDefinition d = None) /\
    (forall x, text_maxLength txt = Some x -> number_truthy x = false ->
       validateSettingDefinition d = None) /\
    (forall m e limit,
       text_maxLength txt = Some (S754_finite false m e) ->
       holds_integer m e limit ->
       (validateSettingDefinition d = None <-> utf16_length s <= limit) /\
       (limit < utf16_length s ->
        validateSettingDefinition d =
        Some (DefinitionError (SettingDefinition.key d)
                DefaultExceedsMaxLength))) /\
    (text_maxLength txt = Some Infinity ->
     validateSettingDefinition d = None) /\
    (forall x, text_maxLength txt = Some x ->
       x = S754_infinity true \/ (exists m e, x = S754_finite true m e) ->
       validateSettingDefinition d =
       Some (DefinitionError (SettingDefinition.key d)
               DefaultExceedsMaxLength)).
Proof.
  intros d s txt Ht Hd Ho. unfold validateSettingDefinition.
  rewrite Ht, Hd, Ho. split; [|split; [|split; [|split]]].
  - intros ->. reflexivity.
  - intros x -> Hx. now rewrite Hx.
  - intros m e limit -> Hlimit. simpl number_truthy. cbv iota.
    rewrite (length_gt_integer (utf16_length s) Hlimit). simpl andb.
    destruct (Nat.ltb_spec limit (utf16_length s)) as [Hlt|Hge].
    + split; [split; [discriminate | lia] | reflexivity].
    + split; [split; [intros _; exact Hge | reflexivity] | lia].
  - intros ->. reflexivity.
  - intros x -> [->|[m [e ->]]]; reflexivity.
Qed.

(** A title of three Japanese characters -- nine bytes, three code
    units -- under a limit of three. *)
Lemma text_maxLength_zero_is_no_limit_witness :
  validateSettingDefinition
    (setting_with "title" TEXT (VString "日本語")
       (text_options (Some (js_number 3)))) = None /\
  validateSettingDefinition
    (setting_with "title" TEXT (VString "far too long")
       (text_options (Some (js_number 0)))) = None.
Proof.
  destruct (@text_maxLength_zero_is_no_limit
              (setting_with "title" TEXT (VString "日本語")
                 (text_options (Some (js_number 3))))
              "日本語" _ eq_refl eq_refl eq_refl) as [_ [_ [H _]]].
  destruct (@text_maxLength_zero_is_no_limit
              (setting_with "title" TEXT (VString "far too long")
                 (text_options (Some (js_number 0))))
              "far too long" _ eq_refl eq_refl eq_refl) as [_ [H0 _]].
  split.
  - apply (H 6755399441055744%positive (-51)%Z 3).
    + reflexivity.
    + right. split; [lia | reflexivity].
    + vm_compute. lia.
  - exact (H0 _ eq_refl eq_refl).
Defined.

(** X5. A [DROPDOWN] or [RADIO] definition is accepted exactly when
    choices are given under its own type and one of them has a value
    [===] to the default.  Hence an empty list of choices is always
    refused, and so is the default [NaN], even when [NaN] is among the
    choices. *)
Theorem choice_setting_accepted_iff :
  forall d : SettingDef,
    SettingDefinition.type d = DROPDOWN \/ SettingDefinition.type d = RADIO ->
    (validateSettingDefinition d = None <->
     exists choices choice,
       choices_of d = Some choices /\ In choice choices /\
       strict_equals (choice_value choice)
         (SettingDefinition.defaultValue d) = true) /\
    (choices_of d = None ->
     validateSettingDefinition d =
     Some (DefinitionError (SettingDefinition.key d) MustHaveChoices)) /\
    (choices_of d = Some [] ->
     validateSettingDefinition d =
     Some (DefinitionError (SettingDefinition.key d) DefaultNotAChoice)) /\
    (SettingDefinition.defaultValue d = VNumber NaN ->
     validateSettingDefinition d <> None).
Proof.
  intros d Ht.
  assert (Hiff : validateSettingDefinition d = None <->
     exists choices choice,
       choices_of d = Some choices /\ In choice choices /\
       strict_equals (choice_value choice)
         (SettingDefinition.defaultValue d) = true).
  { split.
    - intros Hv. now apply validated_choice.
    - intros [choices [choice [Hc [Hin Heq]]]].
      assert (Hex : choices_include choices
                      (SettingDefinition.defaultValue d) = true)
        by (apply existsb_exists; eauto).
      unfold choices_of in Hc. unfold validateSettingDefinition.
      destruct Ht as [Ht|Ht]; rewrite Ht in *.
      + destruct (option_map opt_dropdown (SettingDefinition.options d))
          as [[cs|]|]; try discriminate.
        injection Hc as ->. now rewrite Hex.
      + destruct (option_map opt_radio (SettingDefinition.options d))
          as [[cs|]|]; try discriminate.
        injection Hc as ->. now rewrite Hex. }
  split; [exact Hiff|]. split; [|split].
  - unfold choices_of, validateSettingDefinition.
    destruct Ht as [Ht|Ht]; rewrite Ht.
    + destruct (option_map opt_dropdown (SettingDefinition.options d))
        as [[cs|]|]; auto; discriminate.
    + destruct (option_map opt_radio (SettingDefinition.options d))
        as [[cs|]|]; auto; discriminate.
  - unfold choices_of, validateSettingDefinition.
    destruct Ht as [Ht|Ht]; rewrite Ht.
    + destruct (option_map opt_dropdown (SettingDefinition.options d))
        as [[cs|]|]; try discriminate.
      intros Hc. injection Hc as ->. reflexivity.
    + destruct (option_map opt_radio (SettingDefinition.options d))
        as [[cs|]|]; try discriminate.
      intros Hc. injection Hc as ->. reflexivity.
  - intros Hd Hv. apply Hiff in Hv.
    destruct Hv as [choices [choice [_ [_ Heq]]]].
    rewrite Hd in Heq. unfold strict_equals in Heq.
    destruct (choice_value choice) as [s|x|b]; try discriminate.
    now destruct x.
Qed.

Lemma choice_setting_accepted_iff_witness :
  validateSettingDefinition
    (setting_with "ratio" DROPDOWN (VNumber NaN)
       (dropdown_options
          [ {| choice_value := VNumber NaN; choice_label := "none" |} ]))
  <> None.
Proof.
  destruct (@choice_setting_accepted_iff
              (setting_with "ratio" DROPDOWN (VNumber NaN)
                 (dropdown_options
                    [ {| choice_value := VNumber NaN;
                         choice_label := "none" |} ]))
              (or_introl eq_refl)) as [_ [_ [_ H]]].
  exact (H eq_refl).
Defined.

(** ** What [defineSetting] and [setSetting] touch *)

Lemma keys_set_present (V : Type) (m : JsMap.t V) k v :
  JsMap.has m k = true -> JsMap.keys (JsMap.set m k v) = JsMap.keys m.
Proof.
  unfold JsMap.has, JsMap.keys.
  induction m as [|[k0 v0] rest IH]; simpl; [discriminate|].
  destruct (String.eqb k0 k); simpl; auto.
  intros H. now rewrite IH.
Qed.

Lemma set_get_same (V : Type) (m : JsMap.t V) k v :
  JsMap.get m k = Some v -> JsMap.set m k v = m.
Proof.
  induction m as [|[k0 v0] rest IH]; simpl; [discriminate|].
  destruct (String.eqb k0 k); simpl.
  - now intros [= ->].
  - intros H. now rewrite IH.
Qed.

Lemma set_set (V : Type) (m : JsMap.t V) k v w :
  JsMap.set (JsMap.set m k v) k w = JsMap.set m k w.
Proof.
  induction m as [|[k0 v0] rest IH]; simpl.
  - now rewrite String.eqb_refl.
  - destruct (String.eqb k0 k) eqn:E; simpl; rewrite E; auto.
    now rewrite IH.
Qed.

(** X6. [defineSetting] neither saves nor notifies: whether it succeeds
    or not, the trace, the subscriptions and the storage are as before.
    It touches no other key: the values and defaults of the keys other
    than the definition's are unchanged.  When it fails it changes
    nothing at all. *)
Theorem defineSetting_is_silent :
  forall (d : SettingDef) (st : UserScriptSettings),
    let st' := snd (defineSetting d st) in
    trace st' = trace st /\
    changeCallbacks st' = changeCallbacks st /\
    recordObjects st' = recordObjects st /\
    (forall k, k <> SettingDefinition.key d ->
       JsMap.get (settings st') k = JsMap.get (settings st) k /\
       JsMap.get (defaultSettings st') k = JsMap.get (defaultSettings st) k)
    /\
    (forall e, fst (defineSetting d st) = Threw e -> st' = st).
Proof.
  intros d st st'. unfold st'.
  destruct (validateSettingDefinition d) as [e|] eqn:E.
  - rewrite (@defineSetting_invalid d st e E). simpl. repeat split; auto.
  - assert (Hs : forall k, k <> SettingDefinition.key d ->
       JsMap.get (settings (snd (defineSetting d st))) k =
         JsMap.get (settings st) k /\
       JsMap.get (defaultSettings (snd (defineSetting d st))) k =
         JsMap.get (defaultSettings st) k).
    { intros k Hk. rewrite settings_defineSetting by exact E.
      rewrite defaultSettings_defineSetting by exact E.
      assert (Hneq : String.eqb (SettingDefinition.key d) k = false)
        by (apply String.eqb_neq; congruence).
      rewrite Hneq. now destruct (JsMap.get (settings st) k). }
    split; [|split; [|split; [|split; [exact Hs|]]]].
    + rewrite defineSetting_valid by exact E. simpl.
      now destruct (JsMap.has (settings st) (SettingDefinition.key d)).
    + rewrite defineSetting_valid by exact E. simpl.
      now destruct (JsMap.has (settings st) (SettingDefinition.key d)).
    + rewrite defineSetting_valid by exact E. simpl.
      now destruct (JsMap.has (settings st) (SettingDefinition.key d)).
    + intros e He. rewrite defineSetting_valid in He by exact E.
      discriminate He.
Qed.

(** X7. [setSetting(key, v)] writes one entry only: the value and flag
    of every other key, the order of the keys of the value store, the
    defaults, the definitions and the subscriptions are unchanged.  On a
    key without a value it throws the not-found error before doing
    anything: nothing is stored, saved or notified. *)
Theorem setSetting_touches_one_key :
  forall (key : string) (v : JsValue) (st : UserScriptSettings),
    let st' := snd (setSetting key v st) in
    (forall k, k <> key ->
       JsMap.get (settings st') k = JsMap.get (settings st) k) /\
    JsMap.keys (settings st') = JsMap.keys (settings st) /\
    same_frame st st' /\
    (JsMap.get (settings st) key = None ->
     setSetting key v st = (Threw (NotFoundError key), st)).
Proof.
  intros key v st st'. unfold st'. split; [|split; [|split]].
  - intros k Hk. rewrite settings_setSetting.
    destruct (JsMap.get (settings st) key); auto.
    now apply JsMapFacts.get_set_other.
  - rewrite settings_setSetting.
    destruct (JsMap.get (settings st) key) as [old|] eqn:E; auto.
    apply keys_set_present. apply JsMapFacts.has_true. eauto.
  - apply same_frame_setSetting.
  - intros Hnone. unfold setSetting. now rewrite Hnone.
Qed.

(** X8. [setSetting] does not look whether the value changes: writing
    the value a key already holds saves again and calls the subscribed
    callbacks again, with the same value as new and as old value. *)
Theorem setSetting_same_value_still_notifies :
  forall (st : UserScriptSettings) (key : string) (old : SettingValue.t),
    JsMap.get (settings st) key = Some old ->
    let v := SettingValue.value old in
    let stored :=
      with_settings st (JsMap.set (settings st) key (written_entry st key v))
    in
    trace (snd (setSetting key v st)) =
      (trace st ++
       save_event stored ::
       map (fun c => EvCallback (cb_ref c) v v)
         (invoked (callbacks_of st key) v v))%list /\
    (SettingValue.isDefault old =
       same_json (Some v) (JsMap.get (defaultSettings st) key) ->
     settings (snd (setSetting key v st)) = settings st).
Proof.
  intros st key old Hold v stored.
  destruct (@setSetting_effects key v st old Hold) as [Ht _].
  split; [exact Ht|].
  intros Hflag. rewrite settings_setSetting, Hold.
  apply set_get_same. rewrite Hold. f_equal.
  unfold written_entry. rewrite <- Hflag. now destruct old.
Qed.

Lemma setSetting_same_value_still_notifies_witness :
  let st := run [OpDefineSetting theme_light;
                 OpOnSettingChange "theme" logger]
              (construct "app" "1.0" accept_all ItemAbsent) in
  trace (snd (setSetting "theme" (VString "light") st)) =
    [EvSetItem "app"
       {| SettingsStorage.version := "1.0";
          SettingsStorage.settings :=
            [("theme", {| SettingValue.value := VString "light";
                          SettingValue.isDefault := true |})] |};
     EvCallback 1 (VString "light") (VString "light")].
Proof.
  intros st.
  exact (proj1 (@setSetting_same_value_still_notifies st "theme"
                  {| SettingValue.value := VString "light";
                     SettingValue.isDefault := true |} eq_refl)).
Defined.



(** ** Keys that were persisted but are not defined *)




(** ** Subscriptions *)

Lemma same_callback_ref a b :
  same_callback a b = true <-> cb_ref a = cb_ref b.
Proof. unfold same_callback. apply Nat.eqb_eq. Qed.

Lemma existsb_same_callback c l :
  existsb (same_callback c) l = true <-> In (cb_ref c) (map cb_ref l).
Proof.
  rewrite existsb_exists, in_map_iff. split.
  - intros [x [Hin Hs]]. apply same_callback_ref in Hs. eauto.
  - intros [x [Hr Hin]]. exists x. split; auto.
    apply same_callback_ref. congruence.
Qed.

Lemma set_delete_absent l c :
  existsb (same_callback c) l = false -> set_delete l c = l.
Proof.
  unfold set_delete. induction l as [|x rest IH]; simpl; auto.
  intros H. apply orb_false_iff in H. destruct H as [H1 H2].
  rewrite H1. simpl. now rewrite IH.
Qed.

Lemma set_delete_refs l c :
  ~ In (cb_ref c) (map cb_ref (set_delete l c)).
Proof.
  unfold set_delete. intros Hin. apply in_map_iff in Hin.
  destruct Hin as [x [Hr Hin]]. apply filter_In in Hin.
  destruct Hin as [_ Hneg]. apply negb_true_iff in Hneg.
  assert (same_callback c x = true) by (apply same_callback_ref; congruence).
  congruence.
Qed.

Lemma invoked_incl l v old x : In x (invoked l v old) -> In x l.
Proof.
  induction l as [|c rest IH]; simpl; auto.
  destruct (cb_returns c v old); simpl; intuition.
Qed.

Lemma with_changeCallbacks_self st :
  with_changeCallbacks st (changeCallbacks st) = st.
Proof. now destruct st. Qed.

Lemma callbacks_of_onSettingChange key c st k :
  callbacks_of (onSettingChange key c st) k =
  if String.eqb key k then set_add (callbacks_of st key) c
  else callbacks_of st k.
Proof.
  unfold callbacks_of at 1, onSettingChange. simpl.
  rewrite JsMapFacts.get_set. now destruct (String.eqb key k).
Qed.

Lemma callbacks_of_remove key c st k :
  callbacks_of (removeSettingChangeListener key c st) k =
  if String.eqb key k then set_delete (callbacks_of st key) c
  else callbacks_of st k.
Proof.
  unfold removeSettingChangeListener, callbacks_of.
  destruct (JsMap.get (changeCallbacks st) key) as [cbs|] eqn:E; simpl.
  - rewrite JsMapFacts.get_set. now destruct (String.eqb key k).
  - destruct (String.eqb key k) eqn:Ek; auto.
    apply String.eqb_eq in Ek. subst k. now rewrite E.
Qed.

Lemma set_add_idem l c : set_add (set_add l c) c = set_add l c.
Proof.
  unfold set_add. destruct (existsb (same_callback c) l) eqn:E.
  - now rewrite E.
  - rewrite existsb_app. simpl. unfold same_callback at 2.
    now rewrite Nat.eqb_refl, orb_true_r.
Qed.

(** X11. Subscribing is idempotent by reference: [onSettingChange] with a
    callback that is already subscribed to the key changes nothing, and
    subscribing the same callback twice in a row is subscribing it once;
    a callback that is new to the key goes after the ones already
    there. *)
Theorem onSettingChange_twice_is_once :
  forall (key : string) (c : Callback) (st : UserScriptSettings),
    (subscribed st key c = true -> onSettingChange key c st = st) /\
    onSettingChange key c (onSettingChange key c st) =
      onSettingChange key c st /\
    (subscribed st key c = false ->
     callbacks_of (onSettingChange key c st) key =
     (callbacks_of st key ++ [c])%list).
Proof.
  intros key c st. unfold subscribed. split; [|split].
  - intros Hsub. unfold onSettingChange, set_add.
    fold (callbacks_of st key). rewrite Hsub.
    unfold callbacks_of in *.
    destruct (JsMap.get (changeCallbacks st) key) as [cbs|] eqn:E;
      [|discriminate].
    rewrite set_get_same by exact E. apply with_changeCallbacks_self.
  - unfold onSettingChange. simpl.
    now rewrite JsMapFacts.get_set_same, set_set, set_add_idem.
  - intros Hnew. rewrite callbacks_of_onSettingChange, String.eqb_refl.
    unfold set_add. now rewrite Hnew.
Qed.

(** X12. Removing a callback that is not subscribed to the key is a
    no-op, never an error: the whole state is unchanged, whether or not
    the key has any subscriber. *)
Theorem removeSettingChangeListener_unregistered :
  forall (key : string) (c : Callback) (st : UserScriptSettings),
    subscribed st key c = false ->
    removeSettingChangeListener key c st = st.
Proof.
  intros key c st Hsub. unfold subscribed, callbacks_of in Hsub.
  unfold removeSettingChangeListener.
  destruct (JsMap.get (changeCallbacks st) key) as [cbs|] eqn:E; auto.
  rewrite set_delete_absent by exact Hsub.
  rewrite set_get_same by exact E. apply with_changeCallbacks_self.
Qed.

Lemma removeSettingChangeListener_unregistered_witness :
  let st := run [OpDefineSetting theme_light;
                 OpOnSettingChange "theme" logger]
              (construct "app" "1.0" accept_all ItemAbsent) in
  removeSettingChangeListener "theme" repaint st = st /\
  removeSettingChangeListener "volume" logger st = st.
Proof.
  intros st. split.
  - exact (@removeSettingChangeListener_unregistered "theme" repaint st
             eq_refl).
  - exact (@removeSettingChangeListener_unregistered "volume" logger st
             eq_refl).
Defined.

(** X13. After [removeSettingChangeListener(key, c)] the callback [c] is
    no longer called when the key is set, the other subscribers of the
    key still are, in their order, and the subscribers of the other keys
    are untouched. *)
Theorem removed_callback_is_not_called :
  forall (key : string) (c : Callback) (st : UserScriptSettings)
         (v : JsValue) (old : SettingValue.t),
    JsMap.get (settings st) key = Some old ->
    let st1 := removeSettingChangeListener key c st in
    let remaining := set_delete (callbacks_of st key) c in
    let previous := SettingValue.value old in
    callbacks_of st1 key = remaining /\
    (forall k, k <> key -> callbacks_of st1 k = callbacks_of st k) /\
    trace (snd (setSetting key v st1)) =
      (trace st ++
       save_event
         (with_settings st1
            (JsMap.set (settings st) key (written_entry st key v))) ::
       map (fun x => EvCallback (cb_ref x) v previous)
         (invoked remaining v previous))%list /\
    ~ In (cb_ref c) (map cb_ref (invoked remaining v previous)).
Proof.
  intros key c st v old Hold st1 remaining previous.
  assert (Hcb : forall k, callbacks_of st1 k =
                  if String.eqb key k then remaining else callbacks_of st k)
    by (intros k; apply callbacks_of_remove).
  assert (Hframe : settings st1 = settings st /\ trace st1 = trace st /\
                   defaultSettings st1 = defaultSettings st).
  { unfold st1, removeSettingChangeListener.
    destruct (JsMap.get (changeCallbacks st) key); auto. }
  destruct Hframe as [Hs [Ht Hd]].
  split; [|split; [|split]].
  - rewrite Hcb. now rewrite String.eqb_refl.
  - intros k Hk. rewrite Hcb.
    assert (String.eqb key k = false) by (apply String.eqb_neq; congruence).
    now rewrite H.
  - assert (Hold1 : JsMap.get (settings st1) key = Some old)
      by (now rewrite Hs).
    destruct (@setSetting_effects key v st1 old Hold1) as [Htr _].
    rewrite Htr, Ht, Hs, Hcb, String.eqb_refl.
    unfold written_entry. now rewrite Hd.
  - intros Hin. apply in_map_iff in Hin. destruct Hin as [x [Hr Hin]].
    apply invoked_incl in Hin.
    apply (@set_delete_refs (callbacks_of st key) c).
    apply in_map_iff. eauto.
Qed.

Lemma removed_callback_is_not_called_witness :
  let st := run [OpDefineSetting theme_light;
                 OpOnSettingChange "theme" logger;
                 OpOnSettingChange "theme" repaint]
              (construct "app" "1.0" refuse_all ItemAbsent) in
  trace (snd (setSetting "theme" (VString "dark")
                (removeSettingChangeListener "theme" logger st))) =
  [EvConsoleError ErrorSavingSettings;
   EvCallback 2 (VString "dark") (VString "light")].
Proof.
  intros st.
  destruct (@removed_callback_is_not_called "theme" logger st (VString "dark")
              {| SettingValue.value := VString "light";
                 SettingValue.isDefault := true |} eq_refl)
    as [_ [_ [H _]]].
  exact H.
Defined.

Lemma nodup_refs_set_add l c :
  NoDup (map cb_ref l) -> NoDup (map cb_ref (set_add l c)).
Proof.
  intros Hnd. unfold set_add.
  destruct (existsb (same_callback c) l) eqn:E; auto.
  rewrite map_app. simpl.
  apply NoDup_app; auto.
  - constructor; [intros [] | constructor].
  - intros x Hx [Heq|[]]. subst x.
    apply existsb_same_callback in Hx. congruence.
Qed.

Lemma nodup_refs_set_delete l c :
  NoDup (map cb_ref l) -> NoDup (map cb_ref (set_delete l c)).
Proof.
  unfold set_delete. induction l as [|x rest IH]; simpl; auto.
  intros Hnd. inversion Hnd as [|y l' Hnotin Hnd']; subst.
  destruct (negb (same_callback c x)); simpl; auto.
  constructor; auto.
  intros Hin. apply Hnotin. apply in_map_iff in Hin.
  destruct Hin as [z [Hz Hin]]. apply filter_In in Hin.
  apply in_map_iff. exists z. tauto.
Qed.

Lemma changeCallbacks_step op st :
  (forall k c, op <> OpOnSettingChange k c) ->
  (forall k c, op <> OpRemoveSettingChangeListener k c) ->
  changeCallbacks (snd (step op st)) = changeCallbacks st.
Proof.
  intros H1 H2. destruct op as [d|k v|k| |k c|k c| |a]; simpl.
  - unfold defineSetting.
    destruct (validateSettingDefinition d); simpl; auto.
    now destruct (JsMap.has (settings st) (SettingDefinition.key d)).
  - now destruct (same_frame_setSetting k v st) as [H _].
  - now destruct (same_frame_resetToDefault k st) as [H _].
  - now destruct (same_frame_forEach_default (defaultSettings st) st)
      as [H _].
  - now destruct (H1 k c).
  - now destruct (H2 k c).
  - reflexivity.
  - reflexivity.
Qed.

Lemma subscriptions_unique_step op st :
  subscriptions_unique st -> subscriptions_unique (snd (step op st)).
Proof.
  intros Hu k. destruct op as [d|k0 v|k0| |k0 c|k0 c| |a].
  5: { simpl. rewrite callbacks_of_onSettingChange.
       destruct (String.eqb k0 k); [now apply nodup_refs_set_add | apply Hu]. }
  5: { simpl. rewrite callbacks_of_remove.
       destruct (String.eqb k0 k);
         [now apply nodup_refs_set_delete | apply Hu]. }
  all: unfold callbacks_of;
       rewrite changeCallbacks_step by (intros; discriminate); apply Hu.
Qed.

(** X14. The subscribers of a key form a set: in every state reached
    from construction by public operations no callback is subscribed
    twice to a key, so a [setSetting] calls each subscriber at most
    once. *)
Theorem subscribers_are_called_once :
  forall (sk ver : string) (acc : SettingsStorage.t -> bool)
         (item : StoredItem) (ops : list Op) (k : string),
    let st := run ops (construct sk ver acc item) in
    NoDup (map cb_ref (callbacks_of st k)) /\
    (forall v old, NoDup (map cb_ref (invoked (callbacks_of st k) v old))).
Proof.
  intros sk ver acc item ops k st.
  assert (Hu : subscriptions_unique st).
  { unfold st.
    assert (G : forall s, subscriptions_unique s ->
                          subscriptions_unique (run ops s)).
    { induction ops as [|op rest IH]; intros s Hs; auto.
      rewrite run_cons. apply IH. now apply subscriptions_unique_step. }
    apply G. intros k'. unfold callbacks_of.
    rewrite construct_state. destruct item as [|data|]; simpl;
      try constructor.
    destruct (String.eqb (SettingsStorage.version data) ver); constructor. }
  split; [apply Hu|].
  intros v old. specialize (Hu k). revert Hu.
  generalize (callbacks_of st k). intros l.
  induction l as [|c rest IH]; simpl; intros Hnd; [constructor|].
  inversion Hnd as [|x l' Hnotin Hnd']; subst.
  destruct (cb_returns c v old); simpl.
  - constructor; auto. intros Hin. apply Hnotin.
    apply in_map_iff in Hin. destruct Hin as [z [Hz Hin]].
    apply invoked_incl in Hin. apply in_map_iff. eauto.
  - constructor; [intros [] | constructor].
Qed.

(** ** Resetting everything *)

Lemma saves_app l1 l2 : saves (l1 ++ l2) = saves l1 + saves l2.
Proof. unfold saves. now rewrite filter_app, length_app. Qed.

Lemma saves_callbacks (l : list Callback) v old :
  saves (map (fun c => EvCallback (cb_ref c) v old) l) = 0.
Proof. unfold saves. induction l as [|c rest IH]; simpl; auto. Qed.

Lemma is_save_event_save st : is_save_event (save_event st) = true.
Proof. unfold save_event. now destruct (storageAccepts st _). Qed.

Lemma saves_setSetting key v st old :
  JsMap.get (settings st) key = Some old ->
  saves (trace (snd (setSetting key v st))) = S (saves (trace st)).
Proof.
  intros Hold. destruct (@setSetting_effects key v st old Hold) as [Ht _].
  rewrite Ht, saves_app. unfold saves at 2. simpl filter.
  rewrite is_save_event_save. simpl length.
  fold (saves (map (fun c => EvCallback (cb_ref c) v (SettingValue.value old))
                 (invoked (callbacks_of st key) v (SettingValue.value old)))).
  rewrite saves_callbacks. lia.
Qed.

Lemma forEach_default_returned entries st :
  (forall k d, In (k, d) entries ->
     JsMap.get (defaultSettings st) k = Some d /\
     JsMap.has (settings st) k = true) ->
  fst (forEach_default entries st) = Returned ->
  (forall k,
     JsMap.get (settings (snd (forEach_default entries st))) k =
     match JsMap.get entries k with
     | Some d => Some {| SettingValue.value := d;
                         SettingValue.isDefault := true |}
     | None => JsMap.get (settings st) k
     end) /\
  saves (trace (snd (forEach_default entries st))) =
    saves (trace st) + length entries.
Proof.
  revert st. induction entries as [|[k0 d0] rest IH]; intros st Hin Hret.
  - simpl. split; auto.
  - simpl in Hret |- *.
    destruct (Hin k0 d0 (or_introl eq_refl)) as [Hd0 Hhas0].
    apply JsMapFacts.has_true in Hhas0. destruct Hhas0 as [old Hold].
    pose proof (settings_setSetting k0 d0 st) as Hs. rewrite Hold in Hs.
    pose proof (@saves_setSetting k0 d0 st old Hold) as Hsv.
    pose proof (same_frame_setSetting k0 d0 st) as Hf.
    pose proof (has_settings_setSetting k0 d0 st) as Hh.
    destruct (setSetting k0 d0 st) as [[|e] st1]; simpl in *;
      [|discriminate].
    destruct Hf as [_ [_ [_ [Hdef _]]]].
    assert (Hin1 : forall k d, In (k, d) rest ->
              JsMap.get (defaultSettings st1) k = Some d /\
              JsMap.has (settings st1) k = true).
    { intros k d Hkd. rewrite Hdef, Hh. apply Hin. now right. }
    destruct (IH st1 Hin1 Hret) as [IH1 IH2].
    split; [|rewrite IH2, Hsv; lia].
    intros k. rewrite IH1, Hs.
    unfold written_entry. rewrite Hd0, same_json_refl.
    rewrite JsMapFacts.get_set.
    destruct (String.eqb k0 k) eqn:Ek.
    + apply String.eqb_eq in Ek. subst k.
      destruct (JsMap.get rest k0) as [d|] eqn:Er; auto.
      apply get_in in Er.
      destruct (Hin k0 d (or_intror Er)) as [Hd _]. congruence.
    + reflexivity.
Qed.

Lemma in_nodup_get (V : Type) (m : JsMap.t V) k v :
  NoDup (JsMap.keys m) -> In (k, v) m -> JsMap.get m k = Some v.
Proof.
  induction m as [|[k0 v0] rest IH]; simpl; [intros _ []|].
  intros Hnd [Heq|Hin].
  - injection Heq as -> ->. now rewrite String.eqb_refl.
  - inversion Hnd as [|x l Hnotin Hnd']; subst.
    destruct (String.eqb k0 k) eqn:E; [|now apply IH].
    apply String.eqb_eq in E. subst k0. exfalso. apply Hnotin.
    unfold JsMap.keys. apply in_map_iff. exists (k, v). auto.
Qed.

Lemma nodup_defaults_step op st :
  NoDup (JsMap.keys (defaultSettings st)) ->
  NoDup (JsMap.keys (defaultSettings (snd (step op st)))).
Proof.
  intros Hnd. destruct op as [d| | | | | | |].
  2-8: match goal with
       | |- context [step ?o ?s] =>
           assert (F : same_definitions s (snd (step o s)))
             by (apply same_definitions_step; intros d0; discriminate)
       end;
       destruct F as [H1 _]; now rewrite H1.
  simpl. destruct (validateSettingDefinition d) as [e|] eqn:E.
  - now rewrite (@defineSetting_invalid d st e E).
  - rewrite defineSetting_valid by exact E. simpl.
    destruct (JsMap.has (settings st) (SettingDefinition.key d)); simpl;
      now apply nodup_keys_set.
Qed.

Lemma nodup_defaults_reachable sk ver acc item ops :
  NoDup (JsMap.keys (defaultSettings (run ops (construct sk ver acc item)))).
Proof.
  assert (G : forall st, NoDup (JsMap.keys (defaultSettings st)) ->
                         NoDup (JsMap.keys (defaultSettings (run ops st)))).
  { induction ops as [|op rest IH]; intros st Hnd; auto.
    rewrite run_cons. apply IH. now apply nodup_defaults_step. }
  apply G. destruct (definitions_construct sk ver acc item) as [H1 _].
  rewrite H1. constructor.
Qed.

(** X15. When [resetAllToDefaults] returns (no callback throws), every
    defined key holds its default value with [isDefault = true], the
    entries of keys without a default (persisted, never defined) are
    untouched, and storage has been written to once per defined key, not
    once for the whole reset. *)
Theorem resetAllToDefaults_restores_every_default :
  forall (sk ver : string) (acc : SettingsStorage.t -> bool)
         (item : StoredItem) (ops : list Op),
    let st := run ops (construct sk ver acc item) in
    let st' := snd (resetAllToDefaults st) in
    fst (resetAllToDefaults st) = Returned ->
    (forall k d,
       JsMap.get (defaultSettings st) k = Some d ->
       getSetting k st' = Value d /\ isDefault k st' = true) /\
    (forall k,
       JsMap.get (defaultSettings st) k = None ->
       JsMap.get (settings st') k = JsMap.get (settings st) k) /\
    saves (trace st') = saves (trace st) + length (defaultSettings st).
Proof.
  intros sk ver acc item ops st st' Hret.
  assert (Hin : forall k d, In (k, d) (defaultSettings st) ->
            JsMap.get (defaultSettings st) k = Some d /\
            JsMap.has (settings st) k = true).
  { intros k d Hkd.
    assert (Hhas : JsMap.has (defaultSettings st) k = true)
      by (eapply in_map_has; eauto).
    split.
    - apply in_nodup_get; auto.
      apply (nodup_defaults_reachable sk ver acc item ops).
    - now apply (@defined_keys_have_values sk ver acc item ops k). }
  destruct (@forEach_default_returned (defaultSettings st) st Hin Hret)
    as [H1 H2].
  fold (resetAllToDefaults st) in H1, H2. fold st' in H1, H2.
  split; [|split; [|exact H2]].
  - intros k d Hd. unfold getSetting, isDefault. rewrite H1, Hd. auto.
  - intros k Hnone. now rewrite H1, Hnone.
Qed.

Lemma resetAllToDefaults_restores_every_default_witness :
  let st := run [OpDefineSetting theme_light;
                 OpDefineSetting refreshInterval;
                 OpSetSetting "theme" (VString "dark");
                 OpSetSetting "refreshInterval" (VNumber (js_number 10000))]
              (construct "app" "1.0" accept_all ItemAbsent) in
  let st' := snd (resetAllToDefaults st) in
  getSetting "theme" st' = Value (VString "light") /\
  isDefault "refreshInterval" st' = true /\
  saves (trace st') = saves (trace st) + 2.
Proof.
  intros st st'.
  destruct (@resetAllToDefaults_restores_every_default "app" "1.0" accept_all
              ItemAbsent
              [OpDefineSetting theme_light;
               OpDefineSetting refreshInterval;
               OpSetSetting "theme" (VString "dark");
               OpSetSetting "refreshInterval" (VNumber (js_number 10000))]
              eq_refl) as [H1 [_ H3]].
  split; [exact (proj1 (H1 "theme" (VString "light") eq_refl))|].
  split; [exact (proj2 (H1 "refreshInterval" (VNumber (js_number 5000))
                          eq_refl))|].
  exact H3.
Defined.

(** ** Construction and reloading *)

(** X16. The constructor never throws, never writes to storage and calls
    no callback.  With nothing stored, or a snapshot of another version,
    the store starts empty and silent; when storage cannot be read or
    parsed the failure is reported once with [console.error] and the
    store starts empty; in every case nothing is defined and nobody is
    subscribed, and the storage key and version are the ones given. *)
Theorem constructor_is_safe :
  forall (sk ver : string) (acc : SettingsStorage.t -> bool)
         (item : StoredItem),
    let st := construct sk ver acc item in
    fst (loadSettings item (fresh sk ver acc)) = Returned /\
    saves (trace st) = 0 /\
    (trace st = [] \/
     item = ItemUnreadable /\
     trace st = [EvConsoleError ErrorLoadingSettings]) /\
    ((item = ItemAbsent \/ item = ItemUnreadable \/
      exists data, item = ItemSnapshot data /\
                   String.eqb (SettingsStorage.version data) ver = false) ->
     settings st = JsMap.empty) /\
    defaultSettings st = JsMap.empty /\
    changeCallbacks st = JsMap.empty /\
    storageKey st = sk /\ version st = ver.
Proof.
  intros sk ver acc item st. unfold st.
  split; [apply loadSettings_fresh_returns|].
  rewrite construct_state.
  destruct item as [|data|]; simpl.
  - repeat split; auto.
  - destruct (String.eqb (SettingsStorage.version data) ver) eqn:E; simpl.
    + repeat split; auto.
      intros [H|[H|[data' [H E']]]]; try discriminate.
      injection H as <-. congruence.
    + repeat split; auto.
  - repeat split; auto.
Qed.

Lemma nodup_keys_set_all (V : Type) (entries : list (string * V)) m :
  NoDup (JsMap.keys m) -> NoDup (JsMap.keys (JsMap.set_all entries m)).
Proof.
  unfold JsMap.set_all. revert m.
  induction entries as [|[k v] rest IH]; intros m Hnd; simpl; auto.
  apply IH. now apply nodup_keys_set.
Qed.

(** *** Reading the saved snapshot back *)

Lemma from_entries_nodup (V : Type) (l : list (string * V)) :
  NoDup (JsMap.keys l) -> JsMap.from_entries l = l.
Proof.
  intros Hnd. unfold JsMap.from_entries, JsMap.set_all.
  assert (G : forall (l m : JsMap.t V),
            NoDup (JsMap.keys (m ++ l)%list) ->
            fold_left (fun a kv => JsMap.set a (fst kv) (snd kv)) l m
            = (m ++ l)%list).
  { clear. induction l as [|[k v] rest IH]; intros m Hm; simpl.
    - now rewrite app_nil_r.
    - assert (Hset : JsMap.set m k v = (m ++ [(k, v)])%list).
      { clear IH. induction m as [|[k0 v0] m' IHm]; simpl; auto.
        simpl in Hm. inversion Hm as [|x l Hnotin Hm']; subst.
        destruct (String.eqb k0 k) eqn:Ek.
        - apply String.eqb_eq in Ek. subst k0. exfalso. apply Hnotin.
          unfold JsMap.keys. rewrite map_app, in_app_iff. right. now left.
        - now rewrite IHm. }
      rewrite Hset. rewrite IH; rewrite <- app_assoc; auto. }
  apply (G l []). exact Hnd.
Qed.

Lemma get_permutation (V : Type) (l l' : list (string * V)) k :
  NoDup (JsMap.keys l) -> Permutation l' l ->
  JsMap.get l' k = JsMap.get l k.
Proof.
  intros Hnd Hp.
  assert (Hnd' : NoDup (JsMap.keys l')).
  { unfold JsMap.keys in *.
    apply (Permutation_NoDup (l := map fst l)); auto.
    apply Permutation_map. now apply Permutation_sym. }
  destruct (JsMap.get l k) as [v|] eqn:E.
  - apply in_nodup_get; auto. apply get_in in E.
    apply (Permutation_in _ (Permutation_sym Hp)). exact E.
  - destruct (JsMap.get l' k) as [v|] eqn:E'; auto.
    apply get_in in E'. apply (Permutation_in _ Hp) in E'.
    apply in_nodup_get in E'; auto. congruence.
Qed.

Module UntypedReload.
Import Untyped.

Lemma insert_index_permutation (V : Type) n (kv : string * V) l :
  Permutation (insert_index n kv l) ((n, kv) :: l).
Proof.
  induction l as [|[m kv'] rest IH]; simpl; auto.
  destruct (Z.ltb n m); auto.
  eapply perm_trans; [apply perm_skip, IH | apply perm_swap].
Qed.

(** Listing the keys in property order loses and repeats nothing. *)
Lemma own_property_order_permutation (V : Type) (l : list (string * V)) :
  Permutation (own_property_order l) l.
Proof.
  unfold own_property_order.
  induction l as [|kv rest IH]; simpl; auto.
  unfold named. simpl. fold (named rest).
  destruct (array_index (fst kv)) as [n|].
  - eapply perm_trans.
    + apply Permutation_app_tail, Permutation_map,
        insert_index_permutation.
    + simpl. now apply perm_skip.
  - eapply perm_trans; [apply Permutation_sym, Permutation_middle|].
    now apply perm_skip.
Qed.

Lemma reparse_object fields :
  reparse (Object fields) = Some (Object (reparse_fields fields)).
Proof. reflexivity. Qed.

Lemma keys_reparse_fields l k :
  In k (JsMap.keys (reparse_fields l)) -> In k (JsMap.keys l).
Proof.
  induction l as [|[k0 x] rest IH]; simpl; auto.
  destruct (reparse x); simpl; intuition.
Qed.

Lemma nodup_reparse_fields l :
  NoDup (JsMap.keys l) -> NoDup (JsMap.keys (reparse_fields l)).
Proof.
  induction l as [|[k0 x] rest IH]; simpl; auto.
  intros Hnd. inversion Hnd as [|y l' Hnotin Hnd']; subst.
  destruct (reparse x); simpl; auto.
  constructor; auto. intros H. apply Hnotin. now apply keys_reparse_fields.
Qed.

Lemma get_reparse_fields l k :
  NoDup (JsMap.keys l) ->
  JsMap.get (reparse_fields l) k =
  match JsMap.get l k with
  | Some v => reparse v
  | None => None
  end.
Proof.
  induction l as [|[k0 x] rest IH]; simpl; auto.
  intros Hnd. inversion Hnd as [|y l' Hnotin Hnd']; subst.
  specialize (IH Hnd').
  destruct (String.eqb k0 k) eqn:E.
  - apply String.eqb_eq in E. subst k0.
    destruct (reparse x) as [w|]; simpl.
    + now rewrite String.eqb_refl.
    + destruct (JsMap.get (reparse_fields rest) k) as [w|] eqn:G; auto.
      exfalso. apply Hnotin. apply keys_reparse_fields.
      apply get_in in G. unfold JsMap.keys. apply in_map_iff.
      exists (k, w). auto.
  - destruct (reparse x) as [w|]; simpl; [rewrite E|]; exact IH.
Qed.

Lemma nodup_settings_forEach_default_untyped entries st :
  NoDup (JsMap.keys (settings st)) ->
  NoDup (JsMap.keys (settings (snd (forEach_default entries st)))).
Proof.
  revert st. induction entries as [|[k d] rest IH]; intros st Hnd; auto.
  simpl. pose proof (UntypedFacts.settings_setSetting_untyped k d st) as Hs.
  assert (Hnd1 : NoDup (JsMap.keys (settings (snd (setSetting k d st))))).
  { rewrite Hs.
    destruct (JsMap.has (settings st) k && _); auto.
    now apply nodup_keys_set. }
  destruct (setSetting k d st) as [[|e] st1]; simpl in *; auto.
Qed.

Lemma nodup_settings_step_untyped op st :
  NoDup (JsMap.keys (settings st)) ->
  NoDup (JsMap.keys (settings (snd (step op st)))).
Proof.
  intros Hnd. destruct op as [d|k v|k| |k c|k c|a]; simpl; auto.
  - rewrite UntypedFacts.settings_defineSetting_untyped.
    destruct (validateSettingDefinition d); auto.
    destruct (JsMap.has (settings st) (SettingDefinition.key d)); auto.
    now apply nodup_keys_set.
  - rewrite UntypedFacts.settings_setSetting_untyped.
    destruct (JsMap.has (settings st) k && _); auto.
    now apply nodup_keys_set.
  - unfold resetToDefault.
    destruct (JsMap.get (defaultSettings st) k); auto.
    rewrite UntypedFacts.settings_setSetting_untyped.
    destruct (JsMap.has (settings st) k && _); auto.
    now apply nodup_keys_set.
  - now apply nodup_settings_forEach_default_untyped.
  - unfold removeSettingChangeListener.
    now destruct (JsMap.get (changeCallbacks st) k).
Qed.

Lemma nodup_settings_reachable_untyped sk ver acc item ops :
  NoDup (JsMap.keys (settings (run ops (construct sk ver acc item)))).
Proof.
  assert (G : forall st, NoDup (JsMap.keys (settings st)) ->
                         NoDup (JsMap.keys (settings (run ops st)))).
  { induction ops as [|op rest IH]; intros st Hnd; auto.
    rewrite UntypedFacts.run_cons_untyped. apply IH. now apply nodup_settings_step_untyped. }
  apply G.
  destruct (UntypedFacts.construct_fields sk ver acc item) as [H _].
  rewrite H. unfold loaded.
  destruct item as [|found entries|]; simpl; try constructor.
  destruct (other_version found ver); simpl; [constructor|].
  apply nodup_keys_set_all. constructor.
Qed.
End UntypedReload.

(** X17. Save, then load.  Let [st] be reached from construction; a save
    writes its version and its entries.  A later session that reads the
    text back, configured with the same version, starts with the entries
    of [st] as JSON returns them, listed in the order of the keys of the
    parsed object (array indices first).  So each key of [st] has an
    entry again, and an entry written by [setSetting] or [defineSetting]
    comes back with its flag as stored and its value unchanged when this
    is a string, a boolean or a finite number other than [-0]; [-0] comes
    back as [0], and [NaN] and the infinities come back as [null].
    Nothing is recomputed, and the new store has no defaults, callbacks or
    trace.  Configured with another version, the later session starts
    empty. *)
Theorem save_then_load_round_trip :
  forall (sk ver : string)
         (acc : string -> list (string * Untyped.Any) -> bool)
         (item : Untyped.StoredItem) (ops : list Untyped.Op)
         (sk' : string)
         (acc' : string -> list (string * Untyped.Any) -> bool),
    let st := Untyped.run ops (Untyped.construct sk ver acc item) in
    let written :=
      Untyped.reread (Untyped.version st) (Untyped.settings st) in
    let st' := Untyped.construct sk' ver acc' written in
    (Untyped.storageAccepts st ver (Untyped.settings st) = true ->
     Untyped.trace (Untyped.saveSettings st) =
     (Untyped.trace st ++
      [Untyped.EvSetItem sk ver (Untyped.settings st)])%list) /\
    Untyped.settings st' =
      Untyped.reparse_fields
        (Untyped.own_property_order (Untyped.settings st)) /\
    (forall k,
       JsMap.get (Untyped.settings st') k =
       match JsMap.get (Untyped.settings st) k with
       | Some v => Untyped.reparse v
       | None => None
       end) /\
    (forall k v b,
       JsMap.get (Untyped.settings st) k = Some (Untyped.record v b) ->
       Untyped.isDefault k st' = Untyped.Bool b /\
       Untyped.getSetting k st' =
       Value (match v with
              | VNumber S754_nan => Untyped.Null
              | VNumber (S754_infinity _) => Untyped.Null
              | VNumber (S754_zero _) => Untyped.Number (S754_zero false)
              | _ => Untyped.of_value v
              end)) /\
    Untyped.defaultSettings st' = JsMap.empty /\
    Untyped.changeCallbacks st' = JsMap.empty /\
    Untyped.trace st' = [] /\
    (forall ver', ver' <> ver ->
       Untyped.settings (Untyped.construct sk' ver' acc' written)
       = JsMap.empty).
Proof.
  intros sk ver acc item ops sk' acc' st written st'.
  destruct (UntypedFacts.reachable_shape sk ver acc item ops EmptyString)
    as [Hver [Hsk _]]. fold st in Hver, Hsk.
  pose proof (UntypedReload.nodup_settings_reachable_untyped sk ver acc item ops)
    as Hnd. fold st in Hnd.
  set (listed := Untyped.own_property_order (Untyped.settings st)).
  assert (Hperm : Permutation listed (Untyped.settings st))
    by apply UntypedReload.own_property_order_permutation.
  assert (Hnd1 : NoDup (JsMap.keys listed)).
  { unfold JsMap.keys in *.
    apply (Permutation_NoDup (l := map fst (Untyped.settings st))); auto.
    apply Permutation_map. now apply Permutation_sym. }
  assert (Hnd2 : NoDup (JsMap.keys (Untyped.reparse_fields listed)))
    by now apply UntypedReload.nodup_reparse_fields.
  assert (Hs : Untyped.settings st' = Untyped.reparse_fields listed).
  { destruct (UntypedFacts.construct_fields sk' ver acc' written) as [H _].
    unfold st'. rewrite H. unfold written, Untyped.reread, Untyped.loaded.
    rewrite Hver. simpl. rewrite String.eqb_refl. simpl.
    now apply from_entries_nodup. }
  assert (Hget : forall k,
            JsMap.get (Untyped.settings st') k =
            match JsMap.get (Untyped.settings st) k with
            | Some v => Untyped.reparse v
            | None => None
            end).
  { intros k. rewrite Hs, UntypedReload.get_reparse_fields by exact Hnd1.
    now rewrite (get_permutation k Hnd Hperm). }
  split.
  { intros Hacc. unfold Untyped.saveSettings.
    rewrite Hver, Hsk, Hacc. reflexivity. }
  split; [exact Hs|]. split; [exact Hget|]. split.
  { intros k v b Hk. unfold Untyped.isDefault, Untyped.getSetting.
    rewrite Hget, Hk. unfold Untyped.record.
    rewrite UntypedReload.reparse_object.
    destruct v as [s|[| | |]|b0]; simpl; auto. }
  destruct (UntypedFacts.construct_fields sk' ver acc' written)
    as [_ [H2 [H3 _]]].
  split; [exact H2|]. split; [exact H3|]. split.
  { unfold st', written, Untyped.construct, Untyped.reread,
      Untyped.loadSettings. simpl.
    rewrite Hver, String.eqb_refl. reflexivity. }
  intros ver' Hne.
  destruct (UntypedFacts.construct_fields sk' ver' acc' written) as [H _].
  rewrite H. unfold written, Untyped.reread, Untyped.loaded.
  rewrite Hver. simpl.
  apply String.eqb_neq in Hne. rewrite String.eqb_sym, Hne. reflexivity.
Qed.

(** The keys [b], [2] and [1], defined in this order, are read back in
    the order [1], [2], [b]; the value [NaN] of [b] is read back as
    [null]. *)
Example reload_lists_indices_first :
  let st := Untyped.run
              [Untyped.OpDefineSetting
                 (simple_setting "b" NUMBER (VNumber NaN));
               Untyped.OpDefineSetting (simple_setting "2" TEXT (VString "x"));
               Untyped.OpDefineSetting (simple_setting "1" CHECKBOX
                                          (VBoolean true))]
              (Untyped.construct "app" "1.0" Untyped.accept_all
                 Untyped.ItemAbsent) in
  let st' := Untyped.construct "app" "1.0" Untyped.accept_all
               (Untyped.reread (Untyped.version st) (Untyped.settings st)) in
  JsMap.keys (Untyped.settings st) = ["b"; "2"; "1"] /\
  JsMap.keys (Untyped.settings st') = ["1"; "2"; "b"] /\
  Untyped.getSetting "b" st = Value (Untyped.Number NaN) /\
  Untyped.getSetting "b" st' = Value Untyped.Null.
Proof. vm_compute. repeat split. Qed.

(** ** The typed model is the untyped one on snapshots of records *)

Lemma get_map_values (A B : Type) (f : A -> B) (m : JsMap.t A) k :
  JsMap.get (map (fun kv => (fst kv, f (snd kv))) m) k =
  option_map f (JsMap.get m k).
Proof.
  induction m as [|[k0 v0] rest IH]; simpl; auto.
  now destruct (String.eqb k0 k).
Qed.

Lemma set_map_values (A B : Type) (f : A -> B) (m : JsMap.t A) k v :
  JsMap.set (map (fun kv => (fst kv, f (snd kv))) m) k (f v) =
  map (fun kv => (fst kv, f (snd kv))) (JsMap.set m k v).
Proof.
  induction m as [|[k0 v0] rest IH]; simpl; auto.
  destruct (String.eqb k0 k); simpl; auto. now rewrite IH.
Qed.

Lemma set_all_map_values (A B : Type) (f : A -> B)
    (entries : list (string * A)) (m : JsMap.t A) :
  JsMap.set_all (map (fun kv => (fst kv, f (snd kv))) entries)
    (map (fun kv => (fst kv, f (snd kv))) m) =
  map (fun kv => (fst kv, f (snd kv))) (JsMap.set_all entries m).
Proof.
  unfold JsMap.set_all. revert m.
  induction entries as [|[k v] rest IH]; intros m; simpl; auto.
  now rewrite set_map_values, IH.
Qed.

Lemma agree_saveSettings st ust :
  agree st ust -> agree (saveSettings st) (Untyped.saveSettings ust).
Proof.
  unfold saveSettings, Untyped.saveSettings.
  destruct (storageAccepts st _);
    destruct (Untyped.storageAccepts ust _ _); auto.
Qed.

Lemma agree_forEach_callback callbacks v old st ust :
  agree st ust ->
  fst (Untyped.forEach_callback (map callback_of callbacks) v
         (Untyped.of_value old) ust) =
    fst (forEach_callback callbacks v old st) /\
  agree (snd (forEach_callback callbacks v old st))
    (snd (Untyped.forEach_callback (map callback_of callbacks) v
            (Untyped.of_value old) ust)).
Proof.
  revert st ust. induction callbacks as [|c rest IH]; intros st ust Ha;
    simpl; auto.
  assert (Hr : Untyped.cb_returns (callback_of c) v (Untyped.of_value old)
               = cb_returns c v old) by now destruct old.
  simpl in Hr. rewrite Hr.
  destruct (cb_returns c v old); simpl; auto.
Qed.

Lemma agree_setSetting key v st ust :
  agree st ust ->
  fst (Untyped.setSetting key v ust) = fst (setSetting key v st) /\
  agree (snd (setSetting key v st)) (snd (Untyped.setSetting key v ust)).
Proof.
  intros Ha. pose proof Ha as [Hs [Hd [Hc [Hv Hk]]]].
  unfold setSetting, Untyped.setSetting.
  rewrite Hs. unfold entries_of. rewrite get_map_values.
  destruct (JsMap.get (settings st) key) as [old|]; simpl; auto.
  rewrite Hd.
  set (flag := same_json (Some v) (JsMap.get (defaultSettings st) key)).
  set (st1 := with_settings st _).
  set (ust1 := Untyped.with_settings ust _).
  assert (Ha1 : agree st1 ust1).
  { unfold agree, st1, ust1. simpl. repeat split; auto.
    change (Untyped.record v flag)
      with (entry_of {| SettingValue.value := v;
                        SettingValue.isDefault := flag |}).
    apply set_map_values. }
  pose proof (agree_saveSettings Ha1) as Ha2.
  destruct Ha2 as [_ [_ [Hc2 _]]]. pose proof (agree_saveSettings Ha1) as Ha2.
  rewrite Hc2, get_map_values.
  destruct (JsMap.get (changeCallbacks (saveSettings st1)) key) as [cbs|];
    simpl; auto.
  apply agree_forEach_callback. exact Ha2.
Qed.

Lemma agree_forEach_default entries st ust :
  agree st ust ->
  fst (Untyped.forEach_default entries ust) =
    fst (forEach_default entries st) /\
  agree (snd (forEach_default entries st))
    (snd (Untyped.forEach_default entries ust)).
Proof.
  revert st ust. induction entries as [|[k d] rest IH]; intros st ust Ha;
    simpl; auto.
  destruct (agree_setSetting k d Ha) as [Ho Ha'].
  destruct (setSetting k d st) as [o st'];
    destruct (Untyped.setSetting k d ust) as [uo ust']; simpl in *.
  subst uo. destruct o; simpl; auto.
Qed.

Lemma agree_defineSetting d st ust :
  agree st ust ->
  fst (Untyped.defineSetting d ust) = fst (defineSetting d st) /\
  agree (snd (defineSetting d st)) (snd (Untyped.defineSetting d ust)).
Proof.
  intros [Hs [Hd [Hc [Hv Hk]]]].
  unfold defineSetting, Untyped.defineSetting.
  destruct (validateSettingDefinition d); simpl; [repeat split; auto|].
  assert (Hh : JsMap.has (Untyped.settings ust) (SettingDefinition.key d) =
               JsMap.has (settings st) (SettingDefinition.key d)).
  { unfold JsMap.has. rewrite Hs. unfold entries_of.
    rewrite get_map_values.
    now destruct (JsMap.get (settings st) (SettingDefinition.key d)). }
  rewrite Hh.
  destruct (JsMap.has (settings st) (SettingDefinition.key d)); simpl;
    (split; [reflexivity|]); unfold agree; simpl; rewrite Hd;
    repeat split; auto.
  rewrite Hs.
  change (Untyped.record (SettingDefinition.defaultValue d) true)
    with (entry_of {| SettingValue.value := SettingDefinition.defaultValue d;
                      SettingValue.isDefault := true |}).
  apply set_map_values.
Qed.

Lemma existsb_same_callback_of c l :
  existsb (Untyped.same_callback (callback_of c)) (map callback_of l) =
  existsb (same_callback c) l.
Proof.
  induction l as [|x rest IH]; simpl; auto. now rewrite IH.
Qed.

Lemma agree_step op st ust :
  agree st ust -> agree (snd (step op st)) (Untyped.run (op_of op) ust).
Proof.
  intros Ha. destruct op as [d|key v|key| |key c|key c| |acc]; simpl.
  - apply agree_defineSetting, Ha.
  - apply agree_setSetting, Ha.
  - unfold resetToDefault, Untyped.resetToDefault.
    destruct Ha as [Hs [Hd Hrest]]. rewrite Hd.
    destruct (JsMap.get (defaultSettings st) key) as [dv|]; simpl.
    + apply agree_setSetting. repeat split; auto; apply Hrest.
    + repeat split; auto; apply Hrest.
  - unfold resetAllToDefaults, Untyped.resetAllToDefaults.
    pose proof Ha as [_ [Hd _]]. rewrite Hd.
    apply agree_forEach_default, Ha.
  - destruct Ha as [Hs [Hd [Hc [Hv Hk]]]].
    unfold agree, onSettingChange, Untyped.onSettingChange. simpl.
    repeat split; auto.
    rewrite Hc, get_map_values.
    rewrite <- (set_map_values (map callback_of)). f_equal.
    destruct (JsMap.get (changeCallbacks st) key) as [cbs|]; simpl.
    + unfold set_add. rewrite existsb_same_callback_of.
      destruct (existsb (same_callback c) cbs); auto.
      now rewrite map_app.
    + reflexivity.
  - destruct Ha as [Hs [Hd [Hc [Hv Hk]]]].
    unfold agree, removeSettingChangeListener,
      Untyped.removeSettingChangeListener.
    rewrite Hc, get_map_values.
    destruct (JsMap.get (changeCallbacks st) key) as [cbs|]; simpl;
      repeat split; auto.
    rewrite <- (set_map_values (map callback_of)). f_equal.
    unfold set_delete. clear. induction cbs as [|x rest IH]; simpl; auto.
    change (Untyped.same_callback (callback_of c) (callback_of x))
      with (same_callback c x).
    destruct (same_callback c x); simpl; now rewrite IH.
  - exact Ha.
  - exact Ha.
Qed.

Lemma agree_construct sk ver acc uacc item :
  agree (construct sk ver acc item)
    (Untyped.construct sk ver uacc (item_of item)).
Proof.
  unfold construct, Untyped.construct, loadSettings, Untyped.loadSettings.
  destruct item as [|data|]; simpl.
  - repeat split.
  - destruct (String.eqb (SettingsStorage.version data) ver); simpl.
    + unfold agree. simpl. repeat split.
      apply (set_all_map_values entry_of (SettingsStorage.settings data) []).
    + repeat split.
  - repeat split.
Qed.

(** On a stored item that is a snapshot of records, or absent, or
    unreadable, the two models run alike: after the same calls the value
    store, the defaults and the subscriptions hold the same, and a call
    of [getSetting], [setSetting], [resetToDefault] or
    [resetAllToDefaults] made then ends alike. *)
Lemma typed_model_agrees :
  forall (sk ver : string) (acc : SettingsStorage.t -> bool)
         (uacc : string -> list (string * Untyped.Any) -> bool)
         (item : StoredItem) (ops : list Op),
    let st := run ops (construct sk ver acc item) in
    let ust := Untyped.run (flat_map op_of ops)
                 (Untyped.construct sk ver uacc (item_of item)) in
    agree st ust /\
    (forall key,
       Untyped.getSetting key ust =
       match getSetting key st with
       | Value v => Value (Untyped.of_value v)
       | Failure e => Failure e
       end) /\
    (forall key v,
       fst (Untyped.setSetting key v ust) = fst (setSetting key v st)) /\
    (forall key,
       fst (Untyped.resetToDefault key ust) = fst (resetToDefault key st)) /\
    fst (Untyped.resetAllToDefaults ust) = fst (resetAllToDefaults st).
Proof.
  intros sk ver acc uacc item ops st ust.
  assert (Ha : agree st ust).
  { unfold st, ust.
    generalize (agree_construct sk ver acc uacc item).
    generalize (construct sk ver acc item) as s.
    generalize (Untyped.construct sk ver uacc (item_of item)) as us.
    induction ops as [|op rest IH]; intros us s Ha; simpl; auto.
    rewrite UntypedFacts.run_app. apply IH. now apply agree_step. }
  split; [exact Ha|]. split; [|split; [|split]].
  - intros key. destruct Ha as [Hs _].
    unfold getSetting, Untyped.getSetting. rewrite Hs.
    unfold entries_of. rewrite get_map_values.
    now destruct (JsMap.get (settings st) key).
  - intros key v. apply (agree_setSetting key v Ha).
  - intros key. unfold resetToDefault, Untyped.resetToDefault.
    pose proof Ha as [_ [Hd _]]. rewrite Hd.
    destruct (JsMap.get (defaultSettings st) key); auto.
    apply (agree_setSetting key _ Ha).
  - unfold resetAllToDefaults, Untyped.resetAllToDefaults.
    pose proof Ha as [_ [Hd _]]. rewrite Hd.
    apply (agree_forEach_default _ Ha).
Qed.

(** ** The single instance *)

Lemma readonly_fields_step op st :
  storageKey (snd (step op st)) = storageKey st /\
  version (snd (step op st)) = version st.
Proof.
  destruct op as [d|k v|k| |k c|k c| |a]; simpl; auto.
  - unfold defineSetting.
    destruct (validateSettingDefinition d); simpl; auto.
    destruct (JsMap.has (settings st) (SettingDefinition.key d)); auto.
  - destruct (same_frame_setSetting k v st) as [_ [H1 [H2 _]]]. auto.
  - destruct (same_frame_resetToDefault k st) as [_ [H1 [H2 _]]]. auto.
  - destruct (same_frame_forEach_default (defaultSettings st) st)
      as [_ [H1 [H2 _]]]. auto.
  - unfold removeSettingChangeListener.
    destruct (JsMap.get (changeCallbacks st) k); auto.
Qed.

Lemma readonly_fields_run ops st :
  storageKey (run ops st) = storageKey st /\ version (run ops st) = version st.
Proof.
  revert st. induction ops as [|op rest IH]; intros st; auto.
  rewrite run_cons. destruct (IH (snd (step op st))) as [H1 H2].
  destruct (readonly_fields_step op st) as [G1 G2]. split; congruence.
Qed.

Lemma constructor_fields sk ver acc item :
  storageKey (construct sk ver acc item) = sk /\
  version (construct sk ver acc item) = ver.
Proof.
  rewrite construct_state. destruct item as [|data|]; simpl; auto.
  now destruct (String.eqb (SettingsStorage.version data) ver).
Qed.

(** X18. There is one instance per process and the first [initialize]
    decides everything: before it, [getInstance] throws; after it,
    [getInstance] returns the instance, and a further [initialize] returns
    that same instance untouched, whatever storage key, version or stored
    data it is given -- storage is not read again and no version check is
    made.  The storage key and the version never change afterwards, so
    every later save writes under the first key with the first version. *)
Theorem initialize_once :
  forall (sk ver : string) (acc : SettingsStorage.t -> bool)
         (item : StoredItem) (ops : list Op)
         (sk2 ver2 : string) (acc2 : SettingsStorage.t -> bool)
         (item2 : StoredItem),
    let first := Singleton.initialize sk ver acc item None in
    let current := run ops (construct sk ver acc item) in
    Singleton.getInstance None = Singleton.NotInitialized /\
    Singleton.getInstance first =
      Singleton.Instance (construct sk ver acc item) /\
    Singleton.initialize sk2 ver2 acc2 item2 (Some current) = Some current /\
    storageKey current = sk /\ version current = ver /\
    (forall key v sk' data,
       In (EvSetItem sk' data) (trace (snd (setSetting key v current))) ->
       In (EvSetItem sk' data) (trace current) \/
       (sk' = sk /\ SettingsStorage.version data = ver)).
Proof.
  intros sk ver acc item ops sk2 ver2 acc2 item2 first current.
  destruct (readonly_fields_run ops (construct sk ver acc item)) as [Hk Hv].
  destruct (constructor_fields sk ver acc item) as [Hk0 Hv0].
  fold current in Hk, Hv.
  assert (Hsk : storageKey current = sk) by congruence.
  assert (Hver : version current = ver) by congruence.
  repeat (split; [reflexivity || assumption|]).
  intros key v sk' data Hin.
  destruct (JsMap.get (settings current) key) as [old|] eqn:Hold.
  - destruct (@setSetting_effects key v current old Hold) as [Ht _].
    rewrite Ht in Hin. apply in_app_or in Hin.
    destruct Hin as [Hin|[Hin|Hin]]; [now left | |].
    + right. unfold save_event in Hin. simpl in Hin.
      destruct (storageAccepts current _); [|discriminate].
      injection Hin as <- <-. simpl. auto.
    + apply in_map_iff in Hin. destruct Hin as [c [Hc _]]. discriminate.
  - left. unfold setSetting in Hin. now rewrite Hold in Hin.
Qed.

(** ** The settings panel *)

Lemma in_keys_has (V : Type) (m : JsMap.t V) k :
  In k (JsMap.keys m) <-> JsMap.has m k = true.
Proof.
  unfold JsMap.keys, JsMap.has. induction m as [|[k0 v0] rest IH]; simpl.
  - split; [intros [] | discriminate].
  - destruct (String.eqb k0 k) eqn:E.
    + apply String.eqb_eq in E. subst k0. split; auto.
    + rewrite IH. apply String.eqb_neq in E. split; auto.
      intros [H|H]; [contradiction | exact H].
Qed.

Lemma in_keys_set_all (V : Type) (entries : list (string * V)) m k :
  In k (JsMap.keys (JsMap.set_all entries m)) <->
  In k (JsMap.keys entries) \/ In k (JsMap.keys m).
Proof.
  unfold JsMap.set_all. revert m.
  induction entries as [|[k0 v0] rest IH]; intros m; simpl.
  - tauto.
  - rewrite IH, keys_set. intuition congruence.
Qed.

Lemma listed_keys st k :
  In k (SettingsUI.record_keys (snd (getAllSettings st))
          (fst (getAllSettings st))) <->
  JsMap.has (settingDefinitions st) k = true.
Proof.
  unfold SettingsUI.record_keys, getAllSettings. simpl.
  rewrite nth_error_app2 by lia. rewrite Nat.sub_diag. simpl.
  rewrite in_keys_set_all, <- in_keys_has. simpl. tauto.
Qed.

Lemma in_set_add l x c : In c (set_add l x) -> In c l \/ c = x.
Proof.
  unfold set_add. destruct (existsb (same_callback x) l); auto.
  rewrite in_app_iff. simpl. intuition.
Qed.

Lemma existsb_set_add p l x :
  existsb p l = true -> existsb p (set_add l x) = true.
Proof.
  unfold set_add. destruct (existsb (same_callback x) l); auto.
  intros H. rewrite existsb_app, H. reflexivity.
Qed.

Lemma subscribed_onSettingChange_same key c st :
  subscribed (onSettingChange key c st) key c = true.
Proof.
  unfold subscribed. rewrite callbacks_of_onSettingChange, String.eqb_refl.
  unfold set_add.
  destruct (existsb (same_callback c) (callbacks_of st key)) eqn:E; auto.
  rewrite existsb_app. simpl. unfold same_callback at 2.
  now rewrite Nat.eqb_refl, orb_true_r.
Qed.

Lemma subscribed_onSettingChange_mono key0 c0 st key c :
  subscribed st key c = true ->
  subscribed (onSettingChange key0 c0 st) key c = true.
Proof.
  unfold subscribed. rewrite callbacks_of_onSettingChange.
  destruct (String.eqb key0 key) eqn:E; auto.
  apply String.eqb_eq in E. subst key0. apply existsb_set_add.
Qed.

Lemma remove_absent key c st :
  existsb (same_callback c) (callbacks_of st key) = false ->
  removeSettingChangeListener key c st = st.
Proof.
  intros Hsub. unfold callbacks_of in Hsub.
  unfold removeSettingChangeListener.
  destruct (JsMap.get (changeCallbacks st) key) as [cbs|] eqn:E; auto.
  rewrite set_delete_absent by exact Hsub.
  rewrite set_get_same by exact E. apply with_changeCallbacks_self.
Qed.

Lemma unsubscribe_fold_absent handler keys st :
  (forall k, subscribed st k handler = false) ->
  fold_left (fun s k => removeSettingChangeListener k handler s) keys st = st.
Proof.
  intros Habs. induction keys as [|k0 rest IH]; simpl; auto.
  rewrite remove_absent by apply Habs. exact IH.
Qed.

Lemma subscribe_each_mono ref keys st key c :
  subscribed st key c = true ->
  subscribed (SettingsUI.subscribe_each ref keys st) key c = true.
Proof.
  revert ref st. induction keys as [|k0 rest IH]; intros ref st H; simpl; auto.
  apply IH. now apply subscribed_onSettingChange_mono.
Qed.

(** Every key of the loop gets a function created by the loop. *)
Lemma subscribe_each_in ref keys st key :
  In key keys ->
  exists r, ref <= r /\
    subscribed (SettingsUI.subscribe_each ref keys st) key
      (SettingsUI.component_function r) = true.
Proof.
  revert ref st. induction keys as [|k0 rest IH]; intros ref st; simpl.
  - intros [].
  - intros [Heq|Hin].
    + subst k0. exists ref. split; [lia|].
      apply subscribe_each_mono. apply subscribed_onSettingChange_same.
    + destruct (IH (S ref) (onSettingChange k0
                              (SettingsUI.component_function ref) st) Hin)
        as [r [Hr Hs]].
      exists r. split; [lia | exact Hs].
Qed.

(** The loop subscribes nothing but the functions it creates, and only
    to the keys it visits. *)
Lemma subscribe_each_only ref keys st key c :
  In c (callbacks_of (SettingsUI.subscribe_each ref keys st) key) ->
  In c (callbacks_of st key) \/ (ref <= cb_ref c /\ In key keys).
Proof.
  revert ref st. induction keys as [|k0 rest IH]; intros ref st; simpl; auto.
  intros Hin. apply IH in Hin. destruct Hin as [Hin|[Hr Hin]].
  - rewrite callbacks_of_onSettingChange in Hin.
    destruct (String.eqb k0 key) eqn:E; auto.
    apply String.eqb_eq in E. subst k0.
    apply in_set_add in Hin. destruct Hin as [Hin|Hin]; auto.
    subst c. right. simpl. split; [lia | now left].
  - right. split; [lia | now right].
Qed.

Lemma subscribe_each_other ref keys st key :
  ~ In key keys ->
  callbacks_of (SettingsUI.subscribe_each ref keys st) key =
  callbacks_of st key.
Proof.
  revert ref st. induction keys as [|k0 rest IH]; intros ref st Hnot;
    simpl; auto.
  rewrite IH by (intros H; apply Hnot; now right).
  rewrite callbacks_of_onSettingChange.
  destruct (String.eqb k0 key) eqn:E; auto.
  apply String.eqb_eq in E. exfalso. apply Hnot. now left.
Qed.

Lemma own_keys_listed st k :
  In k (SettingsUI.own_keys (snd (getAllSettings st))
          (fst (getAllSettings st))) <->
  JsMap.has (settingDefinitions st) k = true /\ k <> "__proto__".
Proof.
  unfold SettingsUI.own_keys. rewrite filter_In, listed_keys.
  rewrite negb_true_iff, String.eqb_neq. tauto.
Qed.

(** X19. The panel's cleanup does not unsubscribe what the panel
    subscribed.  Mounting, when its first effect returns, subscribes to
    every key that [getAllSettings] lists (all defined keys but
    [__proto__]) an arrow function created for that key.  The cleanup
    calls [removeSettingChangeListener] with [handleSettingChange], a
    function of its own reference which the store never received.  So the
    cleanup leaves the subscriptions as they were after mounting: every
    listed key keeps the function the panel subscribed, and the callbacks
    of earlier subscribers are as before.  [next] is the first reference
    not yet given to a function when the component mounts. *)
Theorem panel_cleanup_removes_nothing :
  forall (next : nat) (st mounted : UserScriptSettings),
    (forall k c, In c (callbacks_of st k) -> cb_ref c < next) ->
    SettingsUI.mount next st = Value mounted ->
    let unmounted := SettingsUI.cleanup next mounted in
    changeCallbacks unmounted = changeCallbacks mounted /\
    (forall k, subscribed mounted k (SettingsUI.component_function next)
               = false) /\
    (forall k, JsMap.has (settingDefinitions st) k = true ->
               k <> "__proto__" ->
               exists ref, next < ref /\
                 subscribed unmounted k (SettingsUI.component_function ref)
                 = true) /\
    (forall k c, In c (callbacks_of st k) ->
                 subscribed unmounted k c = true) /\
    callbacks_of unmounted "__proto__" = callbacks_of st "__proto__".
Proof.
  intros next st mounted Hfresh Hmount unmounted.
  unfold SettingsUI.mount in Hmount.
  destruct (SettingsUI.initial_read st) as [result|e]; [|discriminate].
  injection Hmount as Hmounted.
  set (st1 := snd (getAllSettings st)) in *.
  set (keys := SettingsUI.own_keys (snd (getAllSettings st1))
                 (fst (getAllSettings st1))).
  assert (Hm : mounted =
               SettingsUI.subscribe_each (S next) keys
                 (snd (getAllSettings st1)))
    by (now rewrite <- Hmounted).
  assert (Hcb : forall k, callbacks_of (snd (getAllSettings st1)) k =
                          callbacks_of st k) by reflexivity.
  assert (Hkeys : forall k, In k keys <->
                    JsMap.has (settingDefinitions st) k = true /\
                    k <> "__proto__")
    by (intros k; unfold keys; now rewrite own_keys_listed).
  assert (Habs : forall k,
            subscribed mounted k (SettingsUI.component_function next)
            = false).
  { intros k. unfold subscribed.
    destruct (existsb _ (callbacks_of mounted k)) eqn:E; auto.
    apply existsb_exists in E. destruct E as [c [Hin Hsame]].
    apply same_callback_ref in Hsame. simpl in Hsame.
    rewrite Hm in Hin. apply subscribe_each_only in Hin.
    destruct Hin as [Hin|[Hr _]].
    - rewrite Hcb in Hin. apply Hfresh in Hin. lia.
    - lia. }
  assert (Hun : unmounted = snd (getAllSettings mounted)).
  { unfold unmounted, SettingsUI.cleanup.
    apply unsubscribe_fold_absent. exact Habs. }
  assert (Hsub : forall k c, subscribed unmounted k c
                             = subscribed mounted k c)
    by (intros k c; now rewrite Hun).
  split; [now rewrite Hun|]. split; [exact Habs|]. split; [|split].
  - intros k Hk Hne.
    destruct (@subscribe_each_in (S next) keys (snd (getAllSettings st1)) k)
      as [r [Hr Hs]]; [apply Hkeys; auto|].
    exists r. split; [lia|]. now rewrite Hsub, Hm.
  - intros k c Hin. rewrite Hsub, Hm. apply subscribe_each_mono.
    unfold subscribed. rewrite Hcb. apply existsb_exists.
    exists c. split; [exact Hin|]. now apply same_callback_ref.
  - rewrite Hun.
    change (callbacks_of (snd (getAllSettings mounted)) "__proto__")
      with (callbacks_of mounted "__proto__").
    rewrite Hm, subscribe_each_other; [apply Hcb|].
    intros H. apply Hkeys in H. destruct H as [_ H]. now apply H.
Qed.

(** [theme] and [accentColor] are defined and [logger] listens to
    [theme]; the panel mounts with the next free reference 10, and after
    its cleanup [theme] still has a function of the panel and [logger]. *)
Lemma panel_cleanup_removes_nothing_witness :
  let st := run [OpDefineSetting theme_light; OpDefineSetting accentColor;
                 OpOnSettingChange "theme" logger]
              (construct "app" "1.0" accept_all ItemAbsent) in
  exists mounted,
    SettingsUI.mount 10 st = Value mounted /\
    callbacks_of (SettingsUI.cleanup 10 mounted) "theme" =
      [logger; SettingsUI.component_function 11] /\
    (exists ref, 10 < ref /\
       subscribed (SettingsUI.cleanup 10 mounted) "theme"
         (SettingsUI.component_function ref) = true).
Proof.
  intros st.
  assert (Hfresh : forall k c, In c (callbacks_of st k) -> cb_ref c < 10).
  { intros k c Hin. unfold callbacks_of in Hin.
    change (changeCallbacks st) with [("theme", [logger])] in Hin.
    unfold JsMap.get in Hin. destruct (String.eqb "theme" k); simpl in Hin.
    - destruct Hin as [<-|[]]. simpl. lia.
    - destruct Hin. }
  eexists. split; [reflexivity|]. split; [reflexivity|].
  match goal with
  | |- context [SettingsUI.cleanup 10 ?m] =>
      destruct (@panel_cleanup_removes_nothing 10 st m Hfresh eq_refl)
        as [_ [_ [H _]]]
  end.
  exact (H "theme" eq_refl ltac:(discriminate)).
Defined.

(** X20. The panel's [handleSettingChange] reads the setting [autoSave]
    after every write.  When the store has no value for [autoSave], each
    change made through the panel ends with the not-found error for
    [autoSave] -- after the new value has been stored, saved and
    notified.  When [autoSave] has a value the call ends as [setSetting]
    does. *)
Theorem panel_change_requires_autoSave :
  forall (key : string) (value : JsValue) (st : UserScriptSettings)
         (old : SettingValue.t),
    JsMap.get (settings st) key = Some old ->
    fst (setSetting key value st) = Returned ->
    let st' := snd (setSetting key value st) in
    (JsMap.get (settings st) "autoSave" = None ->
     SettingsUI.handleSettingChange key value st =
       (Threw (NotFoundError "autoSave"), st', None) /\
     getSetting key st' = Value value /\
     saves (trace st') = S (saves (trace st))) /\
    (JsMap.has (settings st) "autoSave" = true ->
     fst (fst (SettingsUI.handleSettingChange key value st)) = Returned).
Proof.
  intros key value st old Hold Hret st'.
  unfold SettingsUI.handleSettingChange.
  pose proof (has_settings_setSetting key value st "autoSave") as Hhas.
  pose proof (@setSetting_stores key value st old Hold) as Hst.
  pose proof (@saves_setSetting key value st old Hold) as Hsv.
  fold st' in Hhas, Hst, Hsv.
  destruct (setSetting key value st) as [o st1] eqn:E.
  simpl in Hret, st'. subst o. subst st'.
  split.
  - intros Hnone.
    assert (Hn : JsMap.get (settings st1) "autoSave" = None).
    { apply JsMapFacts.has_false. rewrite Hhas.
      now apply JsMapFacts.has_false. }
    unfold getSetting. rewrite Hn, Hst. auto.
  - intros Hsome. rewrite <- Hhas in Hsome.
    apply JsMapFacts.has_true in Hsome. destruct Hsome as [sv Hsv'].
    unfold getSetting. rewrite Hsv'.
    now destruct (SettingsUI.truthy (SettingValue.value sv)).
Qed.

Lemma panel_change_requires_autoSave_witness :
  let st := run [OpDefineSetting theme_light]
              (construct "app" "1.0" accept_all ItemAbsent) in
  SettingsUI.handleSettingChange "theme" (VString "dark") st =
    (Threw (NotFoundError "autoSave"),
     snd (setSetting "theme" (VString "dark") st), None) /\
  getSetting "theme" (snd (setSetting "theme" (VString "dark") st)) =
    Value (VString "dark").
Proof.
  intros st.
  destruct (@panel_change_requires_autoSave "theme" (VString "dark") st
              {| SettingValue.value := VString "light";
                 SettingValue.isDefault := true |} eq_refl eq_refl)
    as [H _].
  destruct (H eq_refl) as [H1 [H2 _]].
  split; [exact H1 | exact H2].
Defined.



(** ** Registering a key again *)





